(** * The contextual search pipeline of the journaling backend

    A shallow embedding of [mcp_search] and of its helpers [_check_memory],
    [_store_memory] and [_sort_by_relevance]
    (src/backend/services/gemini.py), with the properties of the pipeline
    proved over it.

    Conventions of the model.
    - Python values that come out of a JSON document (the reply of the text
      generation service once parsed, the content of memory_store.json) are
      kept dynamically typed, as the inductive [json]; the operations on them
      ([.get], iteration, [.lower()], indexing) fail with the exception the
      interpreter raises on a value of the wrong shape.
    - Text is ASCII: [lower], [strip] and [split] act on the ASCII letters and
      on the ASCII white space of Python's [str].
    - A hit of the search index has the fields the index documents
      (objectID, title, summary, timestamp: strings; tags: list of strings),
      each of them possibly absent.  A reply of another shape makes the
      ranking raise inside the try block of stage 3, which is the outcome of
      a failed query.
    - In the two memory helpers, [_check_memory] and [_store_memory], the name
      [pyjson] is the module that line 5 of gemini.py imports, [import
      pyjson]: the import of [json] under that name is local to the bodies
      of [mcp_search] and of [summarize], and the helpers are functions of
      their own.  That module is the package of this name, which has neither
      [load] nor [dump]: the two calls raise AttributeError, which the
      [except Exception] of each helper swallows.  The memory file is known
      by whether it exists and by what it holds.
    - The services are oracles ([services]); the file and the calls made are
      threaded through a state and exception monad ([M]).

    After the pipeline come the two middlewares (src/backend/main.py), the
    usage statistics, [logout], [/me] and [delete_account]
    (src/backend/routes/auth.py), [summarize] with the cleaning of the reply
    (src/backend/services/gemini.py), and [get_user_from_token],
    [get_user_entries] and [get_session_by_id]
    (src/backend/routes/stream.py).  Their conventions are stated where
    they start: dates are numbers of days, a [datetime] is aware or naive
    and counts microseconds, a handler is the list of the calls it made
    with its outcome. *)

From Stdlib Require Import Ascii String.
From stdpp Require Import base option list gmap strings pretty sorting.

Local Open Scope stdpp_scope.
Set Warnings "-register-all".
Set Default Proof Using "Type".

(** ** Strings as Python uses them *)

Module Str.

(** [c.lower()] on one ASCII character. *)
Definition lower_char (c : ascii) : ascii :=
  let n := nat_of_ascii c in
  if (65 <=? n)%nat && (n <=? 90)%nat then ascii_of_nat (n + 32) else c.

(** [s.lower()] *)
Fixpoint lower (s : string) : string :=
  match s with
  | EmptyString => EmptyString
  | String c s' => String (lower_char c) (lower s')
  end.

(** White space of [str.isspace] below 128: TAB, LF, VT, FF, CR, the four
    separators FS, GS, RS, US, and the space. *)
Definition is_space (c : ascii) : bool :=
  let n := nat_of_ascii c in
  ((9 <=? n)%nat && (n <=? 13)%nat) || ((28 <=? n)%nat && (n <=? 32)%nat).

(** [needle in hay] on two strings: [needle] starts at some position. *)
Fixpoint contains (needle hay : string) : bool :=
  String.prefix needle hay ||
  match hay with
  | EmptyString => false
  | String _ hay' => contains needle hay'
  end.

(** [s.split()]: the maximal runs of characters that are not white space. *)
Fixpoint split (s : string) : list string :=
  match s with
  | EmptyString => []
  | String c s' =>
      if is_space c then split s'
      else match s' with
           | EmptyString => [String c EmptyString]
           | String d _ =>
               if is_space d then String c EmptyString :: split s'
               else match split s' with
                    | w :: ws => String c w :: ws
                    | [] => [String c EmptyString]
                    end
           end
  end.

Fixpoint lstrip (s : string) : string :=
  match s with
  | EmptyString => EmptyString
  | String c s' => if is_space c then lstrip s' else s
  end.

Fixpoint rstrip (s : string) : string :=
  match s with
  | EmptyString => EmptyString
  | String c s' =>
      match rstrip s' with
      | EmptyString => if is_space c then EmptyString else String c EmptyString
      | r => String c r
      end
  end.

(** [s.strip()] *)
Definition strip (s : string) : string := rstrip (lstrip s).

(** [sep.join(l)] *)
Fixpoint join (sep : string) (l : list string) : string :=
  match l with
  | [] => EmptyString
  | [s] => s
  | s :: l' => s +:+ sep +:+ join sep l'
  end.

(** The one-character strings a [for] loop over a string yields. *)
Fixpoint chars (s : string) : list string :=
  match s with
  | EmptyString => []
  | String c s' => String c EmptyString :: chars s'
  end.

End Str.

(** ** Values read from JSON *)

Inductive json : Type :=
  | JNull
  | JBool (b : bool)
  | JNum (n : Z)
  | JStr (s : string)
  | JArr (l : list json)
  | JObj (kvs : list (string * json)).

Inductive exn : Type :=
  | KeyError (key : string)
  | AttributeError (attr : string)
  | TypeError
  | JSONDecodeError
  | FileNotFoundError
  | RequestError.

(** The outcome of evaluating an expression. *)
Inductive res (A : Type) : Type :=
  | Ok (a : A)
  | Raise (e : exn).
Arguments Ok {A} a.
Arguments Raise {A} e.

Definition res_bind {A B} (r : res A) (k : A -> res B) : res B :=
  match r with
  | Ok a => k a
  | Raise e => Raise e
  end.

Declare Scope res_scope.
Delimit Scope res_scope with res.
Notation "x <~ r ; k" := (res_bind r (fun x => k))
  (at level 100, r at next level, k at level 200, right associativity,
   format "'[v' x  <~  r ; '/' k ']'") : res_scope.

Module Py.

Local Open Scope res_scope.

(** Lookup in the association list of a dict: the first binding of [k]. *)
Fixpoint assoc (k : string) (kvs : list (string * json)) : option json :=
  match kvs with
  | [] => None
  | (k', v) :: kvs' => if String.eqb k k' then Some v else assoc k kvs'
  end.

(** [d[k] = v] on the association list: the binding of [k] is replaced
    where it stands, a new key goes last. *)
Fixpoint assoc_set (k : string) (v : json) (kvs : list (string * json))
  : list (string * json) :=
  match kvs with
  | [] => [(k, v)]
  | (k', v') :: kvs' =>
      if String.eqb k k' then (k, v) :: kvs' else (k', v') :: assoc_set k v kvs'
  end.

(** [d.get(k, dflt)]; only a dict has the method. *)
Definition get (d : json) (k : string) (dflt : json) : res json :=
  match d with
  | JObj kvs => Ok (default dflt (assoc k kvs))
  | _ => Raise (AttributeError "get")
  end.

(** [d[k]] as the pipeline uses it, on the entry a memory check returned. *)
Definition index (d : json) (k : string) : res json :=
  match d with
  | JObj kvs =>
      match assoc k kvs with
      | Some v => Ok v
      | None => Raise (KeyError k)
      end
  | _ => Raise TypeError
  end.

(** The items a [for] loop (or [any], or [join]) draws from a value: the
    elements of a list, the characters of a string, the keys of a dict;
    the other values are not iterable. *)
Definition iter (v : json) : res (list json) :=
  match v with
  | JArr l => Ok l
  | JStr s => Ok (JStr <$> Str.chars s)
  | JObj kvs => Ok ((fun kv => JStr kv.1) <$> kvs)
  | JNull | JBool _ | JNum _ => Raise TypeError
  end.

(** [v.lower()]; only a string has the method. *)
Definition lower (v : json) : res string :=
  match v with
  | JStr s => Ok (Str.lower s)
  | _ => Raise (AttributeError "lower")
  end.

(** [v.strip()] *)
Definition strip (v : json) : res string :=
  match v with
  | JStr s => Ok (Str.strip s)
  | _ => Raise (AttributeError "strip")
  end.

(** Truth value of [if v:]. *)
Definition truthy (v : json) : bool :=
  match v with
  | JNull => false
  | JBool b => b
  | JNum n => negb (n =? 0)%Z
  | JStr s => negb (String.eqb s EmptyString)
  | JArr l => negb (bool_decide (l = []))
  | JObj kvs => negb (bool_decide (kvs = []))
  end.

(** The last [n] elements of a list: [l[-n:]] for [n > 0]. *)
Definition last_n {A} (n : nat) (l : list A) : list A :=
  drop (length l - n) l.

(** The last [n] characters of a string. *)
Fixpoint drop_chars (n : nat) (s : string) : string :=
  match n, s with
  | S n', String _ s' => drop_chars n' s'
  | _, _ => s
  end.

(** [v[-n:]]: a list or a string can be sliced. *)
Definition slice_last (n : nat) (v : json) : res json :=
  match v with
  | JArr l => Ok (JArr (last_n n l))
  | JStr s => Ok (JStr (drop_chars (String.length s - n) s))
  | JNull | JBool _ | JNum _ | JObj _ => Raise TypeError
  end.

(** [v.append(x)]; only a list has the method.  The list is returned
    with [x] at its end. *)
Definition append (v : json) (x : json) : res (list json) :=
  match v with
  | JArr l => Ok (l ++ [x])
  | _ => Raise (AttributeError "append")
  end.

(** The strings of a sequence of items; an item that is not a string makes
    [join] raise. *)
Fixpoint strings_of (l : list json) : res (list string) :=
  match l with
  | [] => Ok []
  | JStr s :: l' => ss <~ strings_of l'; Ok (s :: ss)
  | _ :: _ => Raise TypeError
  end.

(** [sep.join(v)] *)
Definition join (sep : string) (v : json) : res string :=
  items <~ iter v;
  ss <~ strings_of items;
  Ok (Str.join sep ss).

End Py.

(** ** Hits of the search index *)

(** A hit as the index returns it: each documented field may be absent. *)
Record raw_hit : Type := RawHit {
  raw_objectID : option string;
  raw_title : option string;
  raw_summary : option string;
  raw_tags : option (list string);
  raw_timestamp : option string
}.

(** The [clean_hit] dict of stage 3. *)
Record hit : Type := Hit {
  hit_objectID : string;
  hit_title : string;
  hit_summary : string;
  hit_tags : list string;
  hit_timestamp : string
}.

(** ** The world around one run *)

Inductive file_state : Type :=
  | Absent                 (** memory_store.json does not exist *)
  | Empty                  (** it exists and holds nothing *)
  | Unreadable             (** it exists and holds no JSON document *)
  | Content (v : json).    (** it exists and holds the JSON document [v] *)

Inductive event : Type :=
  | EvIntentRequest (query : string)
  | EvMemoryRead
  | EvIndexQuery (term : json) (filters : string)
  | EvSynthesisRequest (shown : list hit)
  | EvMemoryTruncate.

Record store : Type := Store {
  memory_file : file_state;
  trace : list event
}.

(** What the services answer during one run.  [None] is a call that raised:
    a network error, a status that [raise_for_status] rejects, a body that
    does not parse.
    - [generate_intent q]: the value [pyjson.loads(cleaned)] of stage 1;
    - [query_index i term filters]: the lists of hits under ["results"] for
      the [i]-th query of the run, each result being its ["hits"];
    - [generate_summary q terms n shown]: the text of the first candidate at
      stage 4, asked with [n] hits of which [shown] are serialized;
    - [now_started], [now_stored]: the two readings of the clock. *)
Record services : Type := Services {
  generate_intent : string -> option json;
  query_index : nat -> json -> string -> option (list (list raw_hit));
  generate_summary : string -> json -> nat -> list hit -> option string;
  now_started : string;
  now_stored : string
}.

(** ** State and exceptions *)

Definition M (A : Type) : Type := store -> res A * store.

Definition ret {A} (a : A) : M A := fun st => (Ok a, st).

Definition bind {A B} (m : M A) (k : A -> M B) : M B :=
  fun st =>
    match m st with
    | (Ok a, st') => k a st'
    | (Raise e, st') => (Raise e, st')
    end.

Definition raise {A} (e : exn) : M A := fun st => (Raise e, st).

Definition lift {A} (r : res A) : M A := fun st => (r, st).

(** [try: m  except Exception as e: handler e] *)
Definition try_except {A} (m : M A) (handler : exn -> M A) : M A :=
  fun st =>
    match m st with
    | (Ok a, st') => (Ok a, st')
    | (Raise e, st') => handler e st'
    end.

Definition emit (ev : event) : M unit :=
  fun st => (Ok tt, Store (memory_file st) (trace st ++ [ev])).

Declare Scope M_scope.
Delimit Scope M_scope with M.
Notation "x <- m ;; k" := (bind m (fun x => k))
  (at level 100, m at next level, k at level 200, right associativity,
   format "'[v' x  <-  m ;; '/' k ']'") : M_scope.
Notation "m ;;; k" := (bind m (fun _ => k))
  (at level 100, k at level 200, right associativity,
   format "'[v' m ;;; '/' k ']'") : M_scope.

Local Open Scope M_scope.

(** [os.path.exists("memory_store.json")] *)
Definition memory_exists : M bool :=
  fun st =>
    (Ok (match memory_file st with Absent => false | _ => true end), st).

(** [with open("memory_store.json", "r") as f: pyjson.load(f)]: the file
    is opened, and [pyjson.load] raises, the module having no [load]. *)
Definition load_memory : M json :=
  emit EvMemoryRead ;;;
  fun st =>
    match memory_file st with
    | Absent => (Raise FileNotFoundError, st)
    | Empty | Unreadable | Content _ => (Raise (AttributeError "load"), st)
    end.

(** [with open("memory_store.json", "w") as f: pyjson.dump(memory, f,
    indent=2)]: opening the file for writing creates it or empties it, and
    [pyjson.dump] raises, the module having no [dump]: nothing is
    written. *)
Definition dump_memory (v : json) : M unit :=
  fun st =>
    (Raise (AttributeError "dump"),
     Store Empty (trace st ++ [EvMemoryTruncate])).

Definition of_reply {A} (reply : option A) : M A :=
  match reply with
  | Some a => ret a
  | None => raise RequestError
  end.

(** ** Stage 3b: the relevance ranker, [_sort_by_relevance] *)

(** One turn of the loop of [calculate_relevance]. *)
Definition relevance_step (h : hit) (term_lower : string) (relevance_score : nat)
  : nat :=
  let relevance_score :=
    if Str.contains term_lower (Str.lower (hit_title h))
    then relevance_score + 3 else relevance_score in
  let relevance_score :=
    if Str.contains term_lower (Str.lower (hit_summary h))
    then relevance_score + 2 else relevance_score in
  let relevance_score :=
    if existsb (fun tag => Str.contains term_lower (Str.lower tag)) (hit_tags h)
    then relevance_score + 1 else relevance_score in
  relevance_score.

Fixpoint relevance_loop (h : hit) (terms : list json) (relevance_score : nat)
  : res nat :=
  match terms with
  | [] => Ok relevance_score
  | term :: terms' =>
      (term_lower <~ Py.lower term;
       relevance_loop h terms' (relevance_step h term_lower relevance_score))%res
  end.

Definition calculate_relevance (search_terms : json) (h : hit) : res nat :=
  (terms <~ Py.iter search_terms;
   relevance_loop h terms 0)%res.

(** The sort key [(calculate_relevance(x), x.get("timestamp", ""))]. *)
Definition sort_key : Type := nat * string.

(** [k1 < k2] on two such tuples: the scores decide, then the timestamps,
    compared as strings character by character. *)
Definition key_lt (k1 k2 : sort_key) : bool :=
  (k1.1 <? k2.1)%nat || ((k1.1 =? k2.1)%nat && String.ltb k1.2 k2.2).

(** [sorted(..., reverse=True)] on the decorated list: greatest key first,
    and two items of equal keys stay in the order they came in.  Each item is
    placed before the first item whose key is not greater than its own. *)
Fixpoint insert_desc {A} (x : sort_key * A) (l : list (sort_key * A))
  : list (sort_key * A) :=
  match l with
  | [] => [x]
  | y :: l' => if key_lt x.1 y.1 then y :: insert_desc x l' else x :: l
  end.

Definition sorted_reverse {A} (l : list (sort_key * A)) : list (sort_key * A) :=
  foldr insert_desc [] l.

(** The keys are computed first, one call per item, in the order of the
    list; an exception in one of them leaves the call. *)
Fixpoint decorate (search_terms : json) (hits : list hit)
  : res (list (sort_key * hit)) :=
  match hits with
  | [] => Ok []
  | x :: hits' =>
      (score <~ calculate_relevance search_terms x;
       rest <~ decorate search_terms hits';
       Ok (((score, hit_timestamp x), x) :: rest))%res
  end.

Definition _sort_by_relevance (hits : list hit) (search_terms : json)
  : res (list hit) :=
  (decorated <~ decorate search_terms hits;
   Ok ((sorted_reverse decorated).*2))%res.

(** ** Stage 2: the memory cache, [_check_memory] *)

(** [any(term.lower() in query_lower for term in terms)] *)
Fixpoint any_term_in (query_lower : string) (terms : list json) : res bool :=
  match terms with
  | [] => Ok false
  | term :: terms' =>
      (t <~ Py.lower term;
       if Str.contains t query_lower then Ok true
       else any_term_in query_lower terms')%res
  end.

Definition entry_matches (query_lower : string) (entry : json) : res bool :=
  (stored <~ Py.get entry "search_terms" (JArr []);
   terms <~ Py.iter stored;
   any_term_in query_lower terms)%res.

(** The loop over [memory.get("queries", [])]: the first entry that matches
    is returned. *)
Fixpoint scan_memory (query_lower : string) (entries : list json)
  : res (option json) :=
  match entries with
  | [] => Ok None
  | entry :: entries' =>
      (found <~ entry_matches query_lower entry;
       if found then Ok (Some entry) else scan_memory query_lower entries')%res
  end.

Definition _check_memory (query : string) (search_terms : json)
  : M (option json) :=
  try_except
    (present <- memory_exists ;;
     if negb present then ret None
     else
       memory <- load_memory ;;
       let query_lower := Str.lower query in
       lift (queries <~ Py.get memory "queries" (JArr []);
             entries <~ Py.iter queries;
             scan_memory query_lower entries)%res)
    (fun _ => ret None).

(** ** Stage 5: the memory writer, [_store_memory] *)

Definition new_entry (query : string) (search_terms summary : json)
  (now : string) : json :=
  JObj [("query", JStr query); ("search_terms", search_terms);
        ("summary", summary); ("timestamp", JStr now)].

(** [memory["queries"] = v] *)
Definition set_queries (memory : json) (v : json) : json :=
  match memory with
  | JObj kvs => JObj (Py.assoc_set "queries" v kvs)
  | _ => memory
  end.

Definition _store_memory (now : string) (query : string)
  (search_terms summary : json) : M unit :=
  try_except
    (present <- memory_exists ;;
     memory <- (if present then load_memory
                else ret (JObj [("queries", JArr [])])) ;;
     queries <- lift (Py.get memory "queries" (JArr [])) ;;
     kept <- lift (Py.slice_last 49 queries) ;;
     appended <- lift (Py.append kept (new_entry query search_terms summary now)) ;;
     dump_memory (set_queries memory (JArr appended)))
    (fun _ => ret tt).

(** ** The orchestrator, [mcp_search] *)

Record response : Type := Response {
  original_query : string;
  search_terms : json;
  stage1_response : json;
  algolia_hits : list hit;
  final_summary : json;
  memory_used : bool;
  timestamp : string
}.

Definition set_stage1 (r : response) (terms ack : json) : response :=
  Response (original_query r) terms ack (algolia_hits r) (final_summary r)
    (memory_used r) (timestamp r).

Definition set_algolia_hits (r : response) (hits : list hit) : response :=
  Response (original_query r) (search_terms r) (stage1_response r) hits
    (final_summary r) (memory_used r) (timestamp r).

Definition set_final_summary (r : response) (s : json) : response :=
  Response (original_query r) (search_terms r) (stage1_response r)
    (algolia_hits r) s (memory_used r) (timestamp r).

Definition set_memory_used (r : response) (b : bool) : response :=
  Response (original_query r) (search_terms r) (stage1_response r)
    (algolia_hits r) (final_summary r) b (timestamp r).

(** What stage 1 hands to the rest of the run. *)
Record intent : Type := Intent {
  is_search : bool;
  intent_terms : json;
  intent_response : json
}.

(** What stage 1 reads in the parsed reply. *)
Definition parse_intent (parsed : json) : res intent :=
  (flag <~ Py.get parsed "is_search" (JStr "no");
   stripped <~ Py.strip flag;
   let is_search := String.eqb (Str.lower stripped) "yes" in
   search_terms <~ Py.get parsed "search_terms" (JArr []);
   _intent <~ Py.get parsed "intent" (JStr "");
   stage1_response <~ Py.get parsed "response" (JStr "");
   Ok (Intent is_search search_terms stage1_response))%res.

(** The body of the [try] of stage 1. *)
Definition extract_intent (sv : services) (query : string) : M intent :=
  emit (EvIntentRequest query) ;;;
  parsed <- of_reply (generate_intent sv query) ;;
  lift (parse_intent parsed).

(** Its [except] branch. *)
Definition fallback_intent (query : string) : intent :=
  Intent true
    (JArr (JStr <$> take 3 (Str.split (Str.lower query))))
    (JStr ("I'll search for entries related to your query: " +:+ query)).

Definition stage1 (sv : services) (query : string) : M intent :=
  try_except (extract_intent sv query) (fun _ => ret (fallback_intent query)).

(** [f"user_id:{user_id}" if user_id else ""] *)
Definition filter_str (user_id : option string) : string :=
  match user_id with
  | Some u => if String.eqb u "" then "" else "user_id:" +:+ u
  | None => ""
  end.

Definition clean_hit (obj_id : string) (h : raw_hit) : hit :=
  {| hit_objectID := obj_id;
     hit_title := default "" (raw_title h);
     hit_summary := default "" (raw_summary h);
     hit_tags := default [] (raw_tags h);
     hit_timestamp := default "" (raw_timestamp h) |}.

(** The body of the innermost loop of stage 3, on the pair
    [(algolia_results, seen_ids)]. *)
Definition collect_hit (acc : list hit * gset string) (h : raw_hit)
  : list hit * gset string :=
  match raw_objectID h with
  | Some obj_id =>
      if negb (String.eqb obj_id "") && bool_decide (obj_id ∉ acc.2)
      then (acc.1 ++ [clean_hit obj_id h], {[obj_id]} ∪ acc.2)
      else acc
  | None => acc
  end.

(** [for result in results: for hit in result.get("hits", []): ...] *)
Definition collect_results (acc : list hit * gset string)
  (results : list (list raw_hit)) : list hit * gset string :=
  foldl (foldl collect_hit) acc results.

(** [for term in search_terms: ...], [i] queries having been issued. *)
Fixpoint search_loop (sv : services) (filters : string) (i : nat)
  (terms : list json) (acc : list hit * gset string)
  : M (list hit * gset string) :=
  match terms with
  | [] => ret acc
  | term :: terms' =>
      emit (EvIndexQuery term filters) ;;;
      results <- of_reply (query_index sv i term filters) ;;
      search_loop sv filters (S i) terms' (collect_results acc results)
  end.

(** Stage 3, with its [try] and [except]: the value of
    [response["algolia_hits"]] after it. *)
Definition stage3 (sv : services) (user_id : option string)
  (search_terms : json) : M (list hit) :=
  try_except
    (terms <- lift (Py.iter search_terms) ;;
     acc <- search_loop sv (filter_str user_id) 0 terms ([], ∅) ;;
     lift (_sort_by_relevance acc.1 search_terms))
    (fun _ => ret []).

(** Stage 4, with its [try] and [except]: the value of
    [response["final_summary"]] after it. *)
Definition stage4 (sv : services) (query : string) (search_terms : json)
  (hits : list hit) : M json :=
  try_except
    (emit (EvSynthesisRequest (take 5 hits)) ;;;
     final_summary <-
       of_reply (generate_summary sv query search_terms (length hits)
                   (take 5 hits)) ;;
     ret (JStr (Str.strip final_summary)))
    (fun _ =>
       match hits with
       | _ :: _ =>
           joined <- lift (Py.join ", " search_terms) ;;
           ret (JStr ("Found " +:+ pretty (length hits)
                      +:+ " relevant entries for your query about "
                      +:+ joined +:+ "."))
       | [] => ret (JStr "No relevant entries found for your query.")
       end).

(** [if memory_result:] on what [_check_memory] returned, [None] or an
    entry. *)
Definition if_truthy (memory_result : option json) : option json :=
  match memory_result with
  | Some entry => if Py.truthy entry then Some entry else None
  | None => None
  end.

Definition mcp_search (sv : services) (query : string)
  (user_id : option string) : M response :=
  let response :=
    Response query (JArr []) (JStr "") [] (JStr "") false (now_started sv) in
  i <- stage1 sv query ;;
  let response := set_stage1 response (intent_terms i) (intent_response i) in
  memory_result <- _check_memory query (intent_terms i) ;;
  match if_truthy memory_result with
  | Some entry =>
      let response := set_memory_used response true in
      cached <- lift (Py.index entry "summary") ;;
      let response := set_final_summary response cached in
      _stamp <- lift (Py.index entry "timestamp") ;;
      ret response
  | None =>
      if negb (is_search i) then
        ret (set_final_summary response (intent_response i))
      else
        hits <- stage3 sv user_id (intent_terms i) ;;
        let response := set_algolia_hits response hits in
        summary <- stage4 sv query (intent_terms i) hits ;;
        let response := set_final_summary response summary in
        _store_memory (now_stored sv) query (intent_terms i) summary ;;;
        ret response
  end.

(** ** The route that calls it, [search] (src/backend/routes/stream.py) *)

(** What the route returns once the user is known and the body is read:
    the response of [mcp_search], or a dict with the key ["error"]. *)
Inductive route_reply : Type :=
  | RouteResult (r : response)
  | RouteMissingQuery
  | RouteError (e : exn).

(** [if not query: ...] and the inner [try] of the route. *)
Definition search (sv : services) (query : string) (user_id : option string)
  : M route_reply :=
  if String.eqb query "" then ret RouteMissingQuery
  else
    try_except
      (result <- mcp_search sv query user_id ;;
       ret (RouteResult result))
      (fun e => ret (RouteError e)).

(** * The stages as functions of what they read

    Each stage of the model is a computation in [M].  The definitions below
    give, as plain functions, the value a stage returns and the calls it
    makes; the section on the stages proves that they agree with the
    model. *)

(** The state after the calls [evs] were made. *)
Definition logged (st : store) (evs : list event) : store :=
  Store (memory_file st) (trace st ++ evs).

(** What stage 1 hands on, whichever branch produced it. *)
Definition intent_of (sv : services) (query : string) : intent :=
  match generate_intent sv query with
  | Some parsed =>
      match parse_intent parsed with
      | Ok i => i
      | Raise _ => fallback_intent query
      end
  | None => fallback_intent query
  end.

(** The [try] of stage 1 raises: the request fails, the reply does not
    parse, the parsed reply is not an object, or its ["is_search"] is not a
    string. *)
Definition stage1_fails (sv : services) (query : string) : Prop :=
  match generate_intent sv query with
  | Some parsed =>
      match parse_intent parsed with
      | Ok _ => False
      | Raise _ => True
      end
  | None => True
  end.

(** The reads of the memory file one call makes. *)
Definition reads (f : file_state) : list event :=
  match f with
  | Absent => []
  | Empty | Unreadable | Content _ => [EvMemoryRead]
  end.

(** The hits the index returns over one run, in the order the loops of
    stage 3 visit them: term after term, result after result.  [None] when
    one of the queries fails. *)
Fixpoint replies (sv : services) (filters : string) (i : nat)
  (terms : list json) : option (list raw_hit) :=
  match terms with
  | [] => Some []
  | term :: terms' =>
      match query_index sv i term filters, replies sv filters (S i) terms' with
      | Some results, Some rest => Some (concat results ++ rest)
      | _, _ => None
      end
  end.

(** The queries stage 3 issues: one per term, up to the first that fails. *)
Fixpoint issued (sv : services) (filters : string) (i : nat)
  (terms : list json) : list event :=
  match terms with
  | [] => []
  | term :: terms' =>
      EvIndexQuery term filters ::
      match query_index sv i term filters with
      | Some _ => issued sv filters (S i) terms'
      | None => []
      end
  end.

(** The merged list of stage 3 when every query succeeds. *)
Definition merged_hits (stream : list raw_hit) : list hit :=
  (foldl collect_hit ([], ∅) stream).1.

(** What stage 3 leaves in [response["algolia_hits"]]. *)
Definition hits_of (sv : services) (user_id : option string)
  (search_terms : json) : list hit :=
  match Py.iter search_terms with
  | Ok terms =>
      match replies sv (filter_str user_id) 0 terms with
      | Some stream =>
          match _sort_by_relevance (merged_hits stream) search_terms with
          | Ok sorted_results => sorted_results
          | Raise _ => []
          end
      | None => []
      end
  | Raise _ => []
  end.

(** The calls stage 3 makes. *)
Definition stage3_calls (sv : services) (user_id : option string)
  (search_terms : json) : list event :=
  match Py.iter search_terms with
  | Ok terms => issued sv (filter_str user_id) 0 terms
  | Raise _ => []
  end.

(** The two templates of the [except] branch of stage 4. *)
Definition found_template (n : nat) (joined : string) : string :=
  "Found " +:+ pretty n +:+ " relevant entries for your query about "
  +:+ joined +:+ ".".

Definition none_template : string :=
  "No relevant entries found for your query.".

(** What stage 4 leaves in [response["final_summary"]], or what it raises. *)
Definition summary_of (sv : services) (query : string) (search_terms : json)
  (hits : list hit) : res json :=
  match generate_summary sv query search_terms (length hits) (take 5 hits) with
  | Some text => Ok (JStr (Str.strip text))
  | None =>
      match hits with
      | _ :: _ =>
          (joined <~ Py.join ", " search_terms;
           Ok (JStr (found_template (length hits) joined)))%res
      | [] => Ok (JStr none_template)
      end
  end.

(** The response as stage 1 leaves it. *)
Definition after_stage1 (sv : services) (query : string) : response :=
  let i := intent_of sv query in
  Response query (intent_terms i) (intent_response i) [] (JStr "") false
    (now_started sv).

(** The state when stage 2 is over. *)
Definition after_stage2 (query : string) (st : store) : store :=
  logged st (EvIntentRequest query :: reads (memory_file st)).

(** The state when stage 4 is over. *)
Definition after_stage4 (sv : services) (query : string)
  (user_id : option string) (st : store) : store :=
  let terms := intent_terms (intent_of sv query) in
  logged (after_stage2 query st)
    (stage3_calls sv user_id terms
     ++ [EvSynthesisRequest (take 5 (hits_of sv user_id terms))]).

(** The state the memory writer leaves: an absent file is created and left
    empty; a file that exists is opened for reading and left as it is. *)
Definition after_store (st : store) : store :=
  match memory_file st with
  | Absent => Store Empty (trace st ++ [EvMemoryTruncate])
  | Empty | Unreadable | Content _ => logged st [EvMemoryRead]
  end.

(** The events that are queries to the search index. *)
Definition is_index_query (ev : event) : bool :=
  match ev with
  | EvIndexQuery _ _ => true
  | _ => false
  end.

Definition index_queries (tr : list event) : list event :=
  List.filter is_index_query tr.

(** * The words of the specification *)

(** ** The ranking *)

(** The points one term earns on one hit: 3 for the title, 2 for the
    summary, 1 for the tags, each when the lowercased term occurs in the
    lowercased field (in one tag at least, for the tags). *)
Definition spec_term_score (h : hit) (term : string) : nat :=
  (if Str.contains (Str.lower term) (Str.lower (hit_title h)) then 3 else 0)
  + (if Str.contains (Str.lower term) (Str.lower (hit_summary h)) then 2 else 0)
  + (if existsb (fun tag => Str.contains (Str.lower term) (Str.lower tag))
          (hit_tags h) then 1 else 0).

(** The score of a hit: the sum of these over the terms. *)
Definition spec_score (terms : list string) (h : hit) : nat :=
  sum_list (spec_term_score h <$> terms).

(** [a] may stand before [b] in the ranking: its score is greater, or the
    scores are equal and the timestamp of [b] is not the greater string. *)
Definition may_precede (terms : list string) (a b : hit) : Prop :=
  spec_score terms b < spec_score terms a \/
  (spec_score terms a = spec_score terms b /\
   String.leb (hit_timestamp b) (hit_timestamp a) = true).

(** The key the ranker sorts on, for terms that are strings. *)
Definition rank_key (terms : list string) (h : hit) : sort_key :=
  (spec_score terms h, hit_timestamp h).

(** An item paired with its key, as [sorted] decorates it. *)
Definition with_key {A} (key : A -> sort_key) (a : A) : sort_key * A :=
  (key a, a).

(** [x] may stand before [y] in a descending list: the key of [y] is not
    the greater one. *)
Definition not_below {A} (x y : sort_key * A) : Prop := key_lt x.1 y.1 = false.

(** ** The merge of stage 3 *)

(** [raw] carries the document id [id]. *)
Definition has_id (id : string) (raw : raw_hit) : Prop :=
  raw_objectID raw = Some id.

(** [h] is the copy of the first hit of the stream that carries its id. *)
Definition first_copy (stream : list raw_hit) (h : hit) : Prop :=
  exists before raw after,
    stream = before ++ raw :: after /\
    has_id (hit_objectID h) raw /\
    h = clean_hit (hit_objectID h) raw /\
    forall r, r ∈ before -> ~ has_id (hit_objectID h) r.

(** What the pair [(algolia_results, seen_ids)] satisfies once the hits of
    [stream] have gone through the loop. *)
Record merged_of (stream : list raw_hit) (acc : list hit * gset string)
  : Prop := MergedOf {
  merged_seen : forall id, id ∈ acc.2 <-> id ∈ hit_objectID <$> acc.1;
  merged_nodup : NoDup (hit_objectID <$> acc.1);
  merged_first : forall h, h ∈ acc.1 -> first_copy stream h;
  merged_all : forall raw id,
    raw ∈ stream -> has_id id raw -> id <> "" -> id ∈ hit_objectID <$> acc.1
}.

(** ** Memory entries and the memory log *)

Record memory_entry : Type := MemoryEntry {
  entry_query : string;
  entry_search_terms : list string;
  entry_summary : string;
  entry_timestamp : string
}.

Definition entry_json (e : memory_entry) : json :=
  new_entry (entry_query e) (JArr (JStr <$> entry_search_terms e))
    (JStr (entry_summary e)) (entry_timestamp e).

(** A memory file that holds the log [log], oldest entry first. *)
Definition log_json (log : list memory_entry) : json :=
  JObj [("queries", JArr (entry_json <$> log))].

(** One of the stored terms of [e], lowercased, occurs in the lowercased
    query. *)
Definition entry_hits (query : string) (e : memory_entry) : bool :=
  existsb (fun term => Str.contains (Str.lower term) (Str.lower query))
    (entry_search_terms e).

(** [e] is the first entry of [log], in stored order, that the query hits. *)
Definition first_match (query : string) (log : list memory_entry)
  (e : memory_entry) : Prop :=
  exists older newer,
    log = older ++ e :: newer /\
    Forall (fun o => entry_hits query o = false) older /\
    entry_hits query e = true.

(** The text generation service fails at both stages. *)
Definition generation_down (sv : services) (query : string) : Prop :=
  generate_intent sv query = None /\
  forall terms n shown, generate_summary sv query terms n shown = None.

(** ** Calls of the memory writer *)

(** The arguments of one call of the memory writer, with the time it reads
    on the clock. *)
Record store_call : Type := StoreCall {
  call_now : string;
  call_query : string;
  call_terms : json;
  call_summary : json
}.

(** The memory writer called once per element of [calls], in order. *)
Fixpoint store_all (calls : list store_call) : M unit :=
  match calls with
  | [] => ret tt
  | c :: calls' =>
      _store_memory (call_now c) (call_query c) (call_terms c) (call_summary c) ;;;
      store_all calls'
  end.

(** * Sample worlds *)

(** Every service is down. *)
Definition sv_down : services :=
  Services (fun _ => None) (fun _ _ _ => None) (fun _ _ _ _ => None)
    "2025-07-01T10:00:00" "2025-07-01T10:00:02".

(** The index answers the first query with two hits and fails on the
    second; the text generation service extracts two terms and fails at the
    synthesis. *)
Definition sv_second_query_fails : services :=
  Services
    (fun _ =>
       Some (JObj [("is_search", JStr "yes");
                   ("search_terms", JArr [JStr "sleep"; JStr "work"]);
                   ("intent", JStr "patterns");
                   ("response", JStr "I'll look at sleep and work.")]))
    (fun i _ _ =>
       match i with
       | 0 => Some [[RawHit (Some "1") (Some "Sleep patterns") None None
                       (Some "2025-06-01T08:00:00");
                     RawHit (Some "2") None (Some "Slept late after work")
                       (Some ["sleep"]) (Some "2025-06-02T08:00:00")]]
       | _ => None
       end)
    (fun _ _ _ _ => None)
    "2025-07-01T10:00:00" "2025-07-01T10:00:02".

(** The intent extractor finds no term; the synthesis answers. *)
Definition sv_no_terms : services :=
  Services
    (fun _ =>
       Some (JObj [("is_search", JStr "yes"); ("search_terms", JArr []);
                   ("intent", JStr "unclear");
                   ("response", JStr "Let me look.")]))
    (fun _ _ _ => Some [])
    (fun _ _ _ _ => Some " I could not find anything on that yet. ")
    "2025-07-01T10:00:00" "2025-07-01T10:00:02".

(** The text generation service answers stage 1 with an object that has
    none of the four fields. *)
Definition sv_no_fields : services :=
  Services (fun _ => Some (JObj [])) (fun _ _ _ => Some [])
    (fun _ _ _ _ => None)
    "2025-07-01T10:00:00" "2025-07-01T10:00:02".

(** The text generation service answers stage 1 with an object whose
    ["search_terms"] is a number. *)
Definition sv_odd_terms : services :=
  Services
    (fun _ => Some (JObj [("is_search", JStr "yes"); ("search_terms", JNum 7)]))
    (fun _ _ _ => Some [])
    (fun _ _ _ _ => None)
    "2025-07-01T10:00:00" "2025-07-01T10:00:02".

(** The intent extractor says that no search is needed. *)
Definition sv_no_search : services :=
  Services
    (fun _ =>
       Some (JObj [("is_search", JStr "no"); ("search_terms", JArr []);
                   ("intent", JStr "greeting");
                   ("response", JStr "Hello! How can I help?")]))
    (fun _ _ _ => Some [])
    (fun _ _ _ _ => None)
    "2025-07-01T10:00:00" "2025-07-01T10:00:02".

(** A log of one entry, stored under the term "hello". *)
Definition hello_log : list memory_entry :=
  [MemoryEntry "hello journal" ["hello"] "You greeted your journal."
     "2025-06-30T09:00:00"].

(** The intent extractor answers in full, the index has nothing and the
    synthesis answers. *)
Definition sv_week : services :=
  Services
    (fun _ =>
       Some (JObj [("is_search", JStr "yes");
                   ("search_terms", JArr [JStr "week"]);
                   ("intent", JStr "weekly review");
                   ("response", JStr "I'll look at your week.")]))
    (fun _ _ _ => Some [])
    (fun _ _ _ _ => Some "Nothing this week.")
    "2025-07-01T10:00:00" "2025-07-01T10:00:02".

(** Two entries: the older one stored under "week", the newer one under the
    empty term. *)
Definition week_then_empty_log : list memory_entry :=
  [MemoryEntry "how was my week" ["Week"] "A calm week."
     "2025-06-29T09:00:00";
   MemoryEntry "" [""] "Nothing to report." "2025-06-30T09:00:00"].

(** Fifty-three calls, numbered by the length of their query. *)
Definition sample_calls : list store_call :=
  (fun i => StoreCall "2025-07-01T10:00:00" (String.concat "" (replicate i "x"))
              (JArr [JStr "week"]) (JStr "A calm week."))
  <$> seq 0 53.

(** The example of the specification: the index returns hit "1" for
    "sleep", hit "1" again and hit "2" for "work". *)
Definition hit_A : raw_hit :=
  RawHit (Some "1") (Some "Sleep patterns") (Some "Notes on rest")
    (Some ["health"]) (Some "2025-06-01T08:00:00").

Definition hit_A_again : raw_hit :=
  RawHit (Some "1") (Some "Sleep patterns (copy)") (Some "Notes on rest")
    (Some ["health"]) (Some "2025-06-03T08:00:00").

Definition hit_B : raw_hit :=
  RawHit (Some "2") (Some "Monday") (Some "A long day of work")
    (Some ["office"]) (Some "2025-06-02T08:00:00").

Definition sv_sleep_work : services :=
  Services
    (fun _ =>
       Some (JObj [("is_search", JStr "yes");
                   ("search_terms", JArr [JStr "sleep"; JStr "work"]);
                   ("intent", JStr "patterns");
                   ("response", JStr "I'll look at sleep and work.")]))
    (fun i _ _ =>
       match i with
       | 0 => Some [[hit_A]]
       | _ => Some [[hit_A_again; hit_B]]
       end)
    (fun _ _ _ _ => None)
    "2025-07-01T10:00:00" "2025-07-01T10:00:02".

(** * The middlewares (src/backend/main.py) *)

(** What a middleware does with a request, called as the plain function
    it is: it returns [call_next(request)], which hands the request on; it
    raises an [HTTPException]; or it reaches the last lines of
    [security_middleware].  There [call_next(request)] is called and its
    value kept: [call_next] is the asynchronous function of the framework,
    so the value is a coroutine and no response, and the first assignment
    to [response.headers] raises AttributeError.  Nothing is returned and
    the request is not handed on. *)
Inductive verdict : Type :=
  | CallNext
  | RaisesAttributeError
  | Rejected (status_code : nat) (detail : string).

(** [os.getenv("ENVIRONMENT") != "production"] is false. *)
Definition in_production (environment : option string) : bool :=
  bool_decide (environment = Some "production").

(** ** [rate_limit_middleware]

    The times are the values of [time.time()].  The code does one thing with
    them, the test [current_time - req_time < 60]; the model takes this test
    as the parameter [recent current_time req_time], so that nothing is
    assumed on how the subtraction rounds. *)
Section rate_limit.
Context {T : Type}.
Variable recent : T -> T -> bool.

(** [limit], by the path of the request. *)
Definition rate_limit_of (path : string) : nat :=
  if String.prefix "/auth/" path then 10 else 100.

(** [request_counts] is a [defaultdict(list)]: a missing key reads as the
    empty list. *)
Definition rate_limit_middleware (environment : option string)
  (client_ip path : string) (current_time : T)
  (request_counts : gmap string (list T)) : verdict * gmap string (list T) :=
  if negb (in_production environment) then (CallNext, request_counts)
  else
    let kept := List.filter (recent current_time) (request_counts !!! client_ip) in
    let request_counts := <[client_ip := kept]> request_counts in
    let limit := rate_limit_of path in
    if (limit <=? length (request_counts !!! client_ip))%nat
    then (Rejected 429 "Too many requests", request_counts)
    else
      (CallNext,
       <[client_ip := request_counts !!! client_ip ++ [current_time]]>
         request_counts).

(** One request as the limiter sees it. *)
Record timed_request : Type := TimedRequest {
  req_ip : string;
  req_path : string;
  req_time : T
}.

(** The limiter applied to the requests of [reqs], in order: each request
    with its verdict, and the counts at the end. *)
Fixpoint serve (environment : option string) (reqs : list timed_request)
  (request_counts : gmap string (list T))
  : list (timed_request * verdict) * gmap string (list T) :=
  match reqs with
  | [] => ([], request_counts)
  | r :: reqs' =>
      let '(v, request_counts) :=
        rate_limit_middleware environment (req_ip r) (req_path r) (req_time r)
          request_counts in
      let '(log, request_counts) := serve environment reqs' request_counts in
      ((r, v) :: log, request_counts)
  end.

(** The times of the requests of [client_ip] that were handed on. *)
Definition passed_times (client_ip : string)
  (log : list (timed_request * verdict)) : list T :=
  omap (fun p : timed_request * verdict =>
          match p.2 with
          | CallNext =>
              if String.eqb (req_ip p.1) client_ip
              then Some (req_time p.1) else None
          | _ => None
          end) log.

Variable le : T -> T -> Prop.

(** What the stored lists are, after the requests of [log]: read at a time
    that is not before the requests, the list of a client is the list of the
    times at which it was handed on. *)
Definition counts_agree (request_counts : gmap string (list T))
  (log : list (timed_request * verdict)) : Prop :=
  forall ip now,
    Forall (fun p : timed_request * verdict => le (req_time p.1) now) log ->
    List.filter (recent now) (request_counts !!! ip)
    = List.filter (recent now) (passed_times ip log).

(** The verdict the limiter owes to [r], the requests of [log] having come
    before. *)
Definition verdict_due (log : list (timed_request * verdict))
    (r : timed_request) : verdict :=
  if (rate_limit_of (req_path r)
      <=? length (List.filter (recent (req_time r))
                    (passed_times (req_ip r) log)))%nat
  then Rejected 429 "Too many requests"
  else CallNext.

End rate_limit.

Arguments timed_request T : clear implicits.

(** A clock that counts whole seconds. *)
Definition seconds_recent (current_time req_time : Z) : bool :=
  (current_time - req_time <? 60)%Z.

(** Eleven requests to an [/auth/] path at time 0, one to [/entries] at time
    30 and one more to the [/auth/] path at time 60, all of one client. *)
Definition sample_requests : list (timed_request Z) :=
  replicate 11 (TimedRequest "203.0.113.7" "/auth/verify" 0%Z)
  ++ [TimedRequest "203.0.113.7" "/entries" 30%Z;
      TimedRequest "203.0.113.7" "/auth/verify" 60%Z].

(** ** [security_middleware] *)

(** A request as the middleware reads it: its path and its headers, in the
    order received, the names being in lower case as the server passes
    them. *)
Record http_request : Type := HttpRequest {
  request_path : string;
  request_headers : list (string * string)
}.

(** [request.headers.get(name)]: the name is looked up in lower case and the
    first header of that name answers. *)
Fixpoint header_get (name : string) (headers : list (string * string))
  : option string :=
  match headers with
  | [] => None
  | (k, v) :: headers' =>
      if String.eqb (Str.lower name) k then Some v else header_get name headers'
  end.

(** [not auth_header or not auth_header.startswith("Bearer ")] is false. *)
Definition bearer_header (auth_header : option string) : bool :=
  match auth_header with
  | Some h => negb (String.eqb h "") && String.prefix "Bearer " h
  | None => false
  end.

(** [value.startswith(("127.", "10.", "172.", "192."))] *)
Definition local_address (value : string) : bool :=
  existsb (fun p => String.prefix p value) ["127."; "10."; "172."; "192."].

Definition suspicious_headers : list string :=
  ["x-forwarded-for"; "x-real-ip"; "x-forwarded-proto"].

(** [header in request.headers and not request.headers[header].startswith(...)] *)
Definition suspicious (headers : list (string * string)) (header : string)
  : bool :=
  match header_get header headers with
  | Some value => negb (local_address value)
  | None => false
  end.

Definition security_middleware (environment : option string)
  (request : http_request) : verdict :=
  let path := request_path request in
  let headers := request_headers request in
  if negb (in_production environment) then CallNext
  else if String.prefix "/auth/" path then CallNext
  else if String.eqb path "/health" then CallNext
  else if String.eqb path "/daily-prompt" then CallNext
  else if negb (bearer_header (header_get "Authorization" headers))
  then Rejected 401 "Authentication required"
  else
    let user_agent := default "" (header_get "user-agent" headers) in
    if String.eqb user_agent "" || (String.length user_agent <? 10)%nat
    then Rejected 403 "Invalid request"
    else if existsb (suspicious headers) suspicious_headers
    then Rejected 403 "Invalid request"
    else RaisesAttributeError.

(** ** The checks of the security middleware, said plainly *)

(** The request is not checked: the server is not in production, or the
    path is one of the public ones. *)
Definition exempt (environment : option string) (request : http_request)
  : Prop :=
  environment <> Some "production" \/
  String.prefix "/auth/" (request_path request) = true \/
  request_path request = "/health" \/
  request_path request = "/daily-prompt".

(** The request has an [Authorization] header that starts with
    ["Bearer "]. *)
Definition has_bearer (request : http_request) : Prop :=
  exists h,
    header_get "Authorization" (request_headers request) = Some h /\
    String.prefix "Bearer " h = true.

(** It names a user agent of ten characters at least. *)
Definition names_agent (request : http_request) : Prop :=
  exists ua,
    header_get "user-agent" (request_headers request) = Some ua /\
    10 <= String.length ua.

(** Each forwarding header it carries starts like an address of a local
    network. *)
Definition forwarded_locally (request : http_request) : Prop :=
  forall header value,
    header ∈ suspicious_headers ->
    header_get header (request_headers request) = Some value ->
    exists p,
      p ∈ ["127."; "10."; "172."; "192."] /\ String.prefix p value = true.

(** A request to [/entries] as it comes through a proxy that ends TLS. *)
Definition sample_proxied_request : http_request :=
  HttpRequest "/entries"
    [("authorization", "Bearer eyJhbGciOi");
     ("user-agent", "Mozilla/5.0 (X11; Linux x86_64)");
     ("x-forwarded-proto", "https")].

(** * The streaks of the usage statistics, [get_usage_stats]
      (src/backend/routes/auth.py)

    The rows of the table of sessions carry their day as an ISO date, as
    [start_session] writes it.  The model counts the days: a date is the
    number of its day, [str] and [fromisoformat] are the two ways between
    the date and its text, and the order of the texts is the order of the
    days. *)

Record session_row : Type := SessionRow {
  row_date : Z;
  row_title : option string;
  row_summary : option string
}.

(** [session.get("title") and session.get("summary")] *)
Definition row_valid (row : session_row) : bool :=
  negb (String.eqb (default "" (row_title row)) "")
  && negb (String.eqb (default "" (row_summary row)) "").

Definition valid_session_dates (rows : list session_row) : list Z :=
  row_date <$> List.filter row_valid rows.

(** [valid_session_dates.sort(reverse=True)] *)
Fixpoint insert_date (d : Z) (l : list Z) : list Z :=
  match l with
  | [] => [d]
  | y :: l' => if (d <? y)%Z then y :: insert_date d l' else d :: l
  end.

Definition sort_dates_reverse (l : list Z) : list Z := foldr insert_date [] l.

(** The day the current streak is counted from: today, or else yesterday,
    when it has a session. *)
Definition streak_start (today : Z) (dates : list Z) : option Z :=
  if bool_decide (today ∈ dates) then Some today
  else if bool_decide ((today - 1)%Z ∈ dates) then Some (today - 1)%Z
  else None.

(** [while str(check_date) in valid_session_dates: ...], run for [fuel]
    turns at most; [None] when the turns do not suffice. *)
Fixpoint extend_streak (fuel : nat) (dates : list Z) (check_date : Z)
  (current_streak : nat) : option nat :=
  match fuel with
  | 0 => None
  | S fuel' =>
      if bool_decide (check_date ∈ dates)
      then extend_streak fuel' dates (check_date - 1)%Z (S current_streak)
      else Some current_streak
  end.

(** [for date_str in valid_session_dates: ...], the loop of the highest
    streak. *)
Fixpoint highest_loop (dates : list Z) (prev_date : option Z)
  (temp_streak highest_streak : nat) : nat :=
  match dates with
  | [] => highest_streak
  | current_date :: dates' =>
      let temp_streak :=
        match prev_date with
        | None => 1
        | Some p => if (p - current_date =? 1)%Z then S temp_streak else 1
        end in
      let highest_streak :=
        if (highest_streak <? temp_streak)%nat then temp_streak
        else highest_streak in
      highest_loop dates' (Some current_date) temp_streak highest_streak
  end.

(** The pair [(current_streak, highest_streak)] of the statistics; the
    loop of the current streak is given one turn more than there are
    dates. *)
Definition streaks (today : Z) (rows : list session_row)
  : option (nat * nat) :=
  let dates := sort_dates_reverse (valid_session_dates rows) in
  match dates with
  | [] => Some (0, 0)
  | _ :: _ =>
      current_streak ←
        match streak_start today dates with
        | Some current_date =>
            extend_streak (S (length dates)) dates (current_date - 1)%Z 1
        | None => Some 0
        end;
      Some (current_streak, highest_loop dates None 0 0)
  end.

(** [n] days in a row up to [last] have a session, and the day before them
    has none. *)
Definition run_ending (dates : list Z) (last : Z) (n : nat) : Prop :=
  (forall i : nat, i < n -> (last - Z.of_nat i)%Z ∈ dates) /\
  (last - Z.of_nat n)%Z ∉ dates.

(** Sessions on days 98 to 100 and on day 95, and one session without a
    title on day 97. *)
Definition sample_rows : list session_row :=
  [SessionRow 99 (Some "Tuesday") (Some "A short note.");
   SessionRow 95 (Some "Friday") (Some "The week ends.");
   SessionRow 100 (Some "Wednesday") (Some "Midweek.");
   SessionRow 97 None (Some "Untitled.");
   SessionRow 98 (Some "Monday") (Some "A start.")].

(** * The reply of the text generation service, [summarize]
      (src/backend/services/gemini.py) *)

(** ** The code fences

    [re.sub(r"^```(?:json)?|```$", "", text, flags=re.MULTILINE)]: the
    text is read from left to right; at a position where the pattern
    matches, the match is dropped and the reading goes on after it.  The
    first alternative matches three backquotes at the start of a line, with
    the word json when it follows; the second one matches three backquotes
    that end a line. *)

Definition newline : ascii := ascii_of_nat 10.

Definition nl : string := String newline EmptyString.

(** [$] matches before [rest]: the text ends, or a new line follows. *)
Definition at_line_end (rest : string) : bool :=
  match rest with
  | EmptyString => true
  | String c _ => Ascii.eqb c newline
  end.

(** The length of the match at the start of [s], 0 when there is none;
    [line_start] tells whether [^] matches there. *)
Definition fence_match (line_start : bool) (s : string) : nat :=
  if line_start && String.prefix "```" s
  then (if String.prefix "```json" s then 7 else 3)
  else if String.prefix "```" s && at_line_end (Py.drop_chars 3 s) then 3
  else 0.

(** The substitution; [skip] characters of a match are still to drop. *)
Fixpoint sub_fences (skip : nat) (line_start : bool) (s : string) : string :=
  match s with
  | EmptyString => EmptyString
  | String c s' =>
      let next_start := Ascii.eqb c newline in
      match skip with
      | S k => sub_fences k next_start s'
      | 0 =>
          match fence_match line_start s with
          | S k => sub_fences k next_start s'
          | 0 => String c (sub_fences 0 next_start s')
          end
      end
  end.

(** [re.sub(..., response_text.strip(), ...).strip()] *)
Definition clean_reply (response_text : string) : string :=
  Str.strip (sub_fences 0 true (Str.strip response_text)).

(** Every character of [s] satisfies [P]. *)
Fixpoint all_chars (P : ascii -> bool) (s : string) : bool :=
  match s with
  | EmptyString => true
  | String c s' => P c && all_chars P s'
  end.

(** White space only. *)
Definition blank (s : string) : bool := all_chars Str.is_space s.

(** No backquote. *)
Definition no_backquote (s : string) : bool :=
  all_chars (fun c => negb (Ascii.eqb c "`")) s.

(** A text that does not start with white space. *)
Definition starts_clean (s : string) : Prop :=
  match s with
  | EmptyString => True
  | String c _ => Str.is_space c = false
  end.

(** ** [summarize]

    The request ([requests.post], [raise_for_status], [resp.json()]) is
    made before the [try]: what it raises leaves the function.  [reply] is
    its outcome, [loads] is [json.loads], [None] where it raises.

    The handler of the [try] catches every exception and does not look at
    it, so the two parts of the body are written in the option monad:
    [None] says that the part raised. *)

(** [v[0]]: the first element of a list, the first character of a string;
    an empty sequence raises IndexError, a dict KeyError (its keys are
    strings), the other values TypeError. *)
Definition subscript0 (v : json) : option json :=
  match v with
  | JArr (x :: _) => Some x
  | JStr (String c _) => Some (JStr (String c EmptyString))
  | _ => None
  end.

(** [d.get(k, dflt)] inside the [try]. *)
Definition get_opt (d : json) (k : string) (dflt : json) : option json :=
  match Py.get d k dflt with
  | Ok v => Some v
  | Raise _ => None
  end.

(** The right-hand side of the assignment to [response_text]. *)
Definition response_text_of (data : json) : option json :=
  candidates ← get_opt data "candidates" (JArr [JObj []]);
  candidate ← subscript0 candidates;
  content ← get_opt candidate "content" (JObj []);
  parts ← get_opt content "parts" (JArr [JObj []]);
  part ← subscript0 parts;
  get_opt part "text" (JStr "").

Inductive summarize_result : Type :=
  | Returned (title summary tags : json)
  | RequestFailed (e : exn)
  | UnboundLocalError.
      (** the handler read [response_text] before it was assigned *)

Section summarize.

Variable loads : string -> option json.

(** [pyjson.loads(cleaned)], once more when the result is a string. *)
Definition decode (cleaned : string) : option json :=
  parsed ← loads cleaned;
  match parsed with
  | JStr s => loads s
  | _ => Some parsed
  end.

(** The rest of the [try] body, from [response_text.strip()] on; only a
    string has the method. *)
Definition parse_summary (response_text : json) : option (json * json * json) :=
  match response_text with
  | JStr t =>
      parsed ← decode (clean_reply t);
      title ← get_opt parsed "title" (JStr "");
      summary ← get_opt parsed "summary" (JStr "");
      tags ← get_opt parsed "tags" (JArr []);
      Some (title, summary, tags)
  | _ => None
  end.

Definition summarize (reply : res json) : summarize_result :=
  match reply with
  | Raise e => RequestFailed e
  | Ok data =>
      match response_text_of data with
      | None => UnboundLocalError
      | Some response_text =>
          match parse_summary response_text with
          | Some (title, summary, tags) => Returned title summary tags
          | None => Returned (JStr "") response_text (JArr [])
          end
      end
  end.

End summarize.

(** The reply of the service that carries [text]. *)
Definition reply_with (text : json) : json :=
  JObj [("candidates",
         JArr [JObj [("content",
                      JObj [("parts", JArr [JObj [("text", text)]]);
                            ("role", JStr "model")]);
                     ("finishReason", JStr "STOP")]])].

(** A decoder for the samples: it knows one text. *)
Definition sample_object : json :=
  JObj [("title", JStr "Burnout at work");
        ("summary", JStr "Felt burnt out after a long week.");
        ("tags", JArr [JStr "burnout"; JStr "work"])].

Definition sample_loads (s : string) : option json :=
  if String.eqb s "{...}" then Some sample_object else None.

(** The value a dict holds for [k], as a way to describe a reply. *)
Definition field (k : string) (v : json) : option json :=
  match v with
  | JObj kvs => Py.assoc k kvs
  | _ => None
  end.

(** A dict without the key [k]. *)
Definition lacks (k : string) (v : json) : Prop :=
  exists kvs, v = JObj kvs /\ Py.assoc k kvs = None.

(** The parts of a reply, where it holds them. *)
Definition first_candidate (data : json) : option json :=
  field "candidates" data ≫= subscript0.

Definition content_of (data : json) : option json :=
  first_candidate data ≫= field "content".

Definition parts_of (data : json) : option json :=
  content_of data ≫= field "parts".

Definition first_part (data : json) : option json :=
  parts_of data ≫= subscript0.

(** * The session routes (src/backend/routes/auth.py) and
      [get_user_from_token] (src/backend/routes/stream.py) *)

(** What a handler raises: an [HTTPException], which the framework turns
    into a response with that status, or any other exception. *)
Inductive raised : Type :=
  | HTTPException (status_code : nat) (detail : string)
  | OtherException.

Inductive outcome (A : Type) : Type :=
  | Done (a : A)
  | Raised (e : raised).
Arguments Done {A} a.
Arguments Raised {A} e.

(** The calls a handler makes to the authentication service and to the
    users table, in the order it makes them. *)
Inductive call : Type :=
  | GetUser (token : string)
  | SignOut
  | SelectProfile (email : string)
  | DeleteUser (id : string)
  | DeleteRow (email : string)
  | SelectSession (session_id user_id : string).

(** A handler: the calls it made and how it ended. *)
Definition handler (A : Type) : Type := list call * outcome A.

Definition pure {A} (a : A) : handler A := ([], Done a).

Definition throw {A} (e : raised) : handler A := ([], Raised e).

(** One call, with the outcome the service gives it. *)
Definition ask {A} (c : call) (o : outcome A) : handler A := ([c], o).

Definition and_then {A B} (m : handler A) (k : A -> handler B) : handler B :=
  match m.2 with
  | Done a => (m.1 ++ (k a).1, (k a).2)
  | Raised e => (m.1, Raised e)
  end.

Declare Scope handler_scope.
Delimit Scope handler_scope with handler.
Notation "x <~ m ; k" := (and_then m (fun x => k))
  (at level 100, m at next level, k at level 200, right associativity)
  : handler_scope.

(** [try: m except Exception: raise HTTPException(status_code, detail)];
    an [HTTPException] is an [Exception]. *)
Definition except_all {A} (m : handler A) (status_code : nat)
  (detail : string) : handler A :=
  (m.1, match m.2 with
        | Done a => Done a
        | Raised _ => Raised (HTTPException status_code detail)
        end).

(** [try: m except HTTPException: raise
     except Exception: raise HTTPException(status_code, detail)] *)
Definition except_other {A} (m : handler A) (status_code : nat)
  (detail : string) : handler A :=
  (m.1, match m.2 with
        | Done a => Done a
        | Raised (HTTPException s d) => Raised (HTTPException s d)
        | Raised OtherException => Raised (HTTPException status_code detail)
        end).

(** [try: m except Exception: print(...)] *)
Definition not_fatal {A} (m : handler A) : handler unit := (m.1, Done tt).

(** [s.split(sep)] for a separator of one character. *)
Fixpoint split_on (sep : ascii) (s : string) : list string :=
  match s with
  | EmptyString => [EmptyString]
  | String c s' =>
      if Ascii.eqb c sep then EmptyString :: split_on sep s'
      else match split_on sep s' with
           | w :: ws => String c w :: ws
           | [] => [String c EmptyString]
           end
  end.

(** [auth_header.split(" ")[1]]; [None] is the IndexError. *)
Definition token_of (auth_header : string) : option string :=
  split_on " " auth_header !! 1.

(** The text before the first [sep]. *)
Fixpoint up_to (sep : ascii) (s : string) : string :=
  match s with
  | EmptyString => EmptyString
  | String c s' =>
      if Ascii.eqb c sep then EmptyString else String c (up_to sep s')
  end.

(** The lines each of the handlers starts with: the check of the
    Authorization header and the token taken from it. *)
Definition session_token (auth_header : option string) : handler string :=
  if negb (bearer_header auth_header)
  then throw (HTTPException 401 "No valid session")
  else match token_of (default "" auth_header) with
       | Some token => pure token
       | None => throw OtherException
       end.

(** [user_response.user], with the two attributes the handlers read. *)
Record auth_user : Type := AuthUser {
  user_id : string;
  user_email : string
}.

Section session_routes.

Local Open Scope handler_scope.

(** The services: [supabase.auth.get_user(token)] and the [user] of its
    response, [supabase.auth.sign_out()], the [data] of the select on the
    users table, [supabase.auth.admin.delete_user(user_id)] and the delete
    on the users table. *)
Variable get_user : string -> outcome (option auth_user).
Variable sign_out : outcome unit.
Variable select_profile : string -> outcome (list json).
Variable delete_user : string -> outcome unit.
Variable delete_row : string -> outcome unit.

(** [if not user_response.user: raise HTTPException(401, ...)] *)
Definition session_user (token : string) : handler auth_user :=
  user <~ ask (GetUser token) (get_user token);
  match user with
  | Some u => pure u
  | None => throw (HTTPException 401 "Invalid session")
  end.

(** src/backend/routes/stream.py *)
Definition get_user_from_token (auth_header : option string)
  : handler auth_user :=
  token <~ session_token auth_header;
  except_all (session_user token) 401 "Invalid session".

Definition logout (auth_header : option string) : handler string :=
  except_all
    (token <~ session_token auth_header;
     _ <~ ask SignOut sign_out;
     pure "Successfully logged out")
    500 "Failed to logout".

(** [profile_response.data[0] if profile_response.data else None], and
    [None] where the select raised. *)
Definition user_profile_of (email : string) : handler json :=
  ([SelectProfile email],
   Done match select_profile email with
        | Done (profile :: _) => profile
        | _ => JNull
        end).

(** [user_profile.get("name") if user_profile else None] *)
Definition name_of (user_profile : json) : handler json :=
  if Py.truthy user_profile
  then match Py.get user_profile "name" JNull with
       | Ok name => pure name
       | Raise _ => throw OtherException
       end
  else pure JNull.

Definition get_current_user (auth_header : option string)
  : handler (string * string * json) :=
  except_all
    (token <~ session_token auth_header;
     u <~ session_user token;
     user_profile <~ user_profile_of (user_email u);
     name <~ name_of user_profile;
     pure (user_id u, user_email u, name))
    401 "Invalid session".

Definition delete_account (auth_header : option string) : handler string :=
  except_other
    (token <~ session_token auth_header;
     u <~ session_user token;
     _ <~ except_all (ask (DeleteUser (user_id u)) (delete_user (user_id u)))
            500 "Failed to delete user from auth";
     _ <~ not_fatal (ask (DeleteRow (user_email u))
                       (delete_row (user_email u)));
     pure "Account deleted successfully")
    500 "Failed to delete account".

End session_routes.

(** A service for the samples: it knows one token. *)
Definition sample_user : auth_user := AuthUser "u1" "ada@example.org".

Definition sample_get_user (token : string) : outcome (option auth_user) :=
  if String.eqb token "t0k3n" then Done (Some sample_user)
  else Raised OtherException.

(** * The days with an entry, by week, [get_usage_stats]
      (src/backend/routes/auth.py)

    [datetime.now()] is the number of microseconds of the local clock;
    [datetime.fromisoformat(str(session["date"]))] is the midnight that
    starts the day of the session. *)

Definition microseconds_per_day : Z := 86400000000.

(** [datetime.fromisoformat(str(session["date"]))] *)
Definition midnight (date : Z) : Z := (date * microseconds_per_day)%Z.

(** [now - timedelta(days=n)] *)
Definition days_ago (now : Z) (n : Z) : Z := (now - n * microseconds_per_day)%Z.

(** [for session in sessions_resp.data: ...], with the two sets of
    dates. *)
Fixpoint entries_loop (now : Z) (rows : list session_row)
  (entries_this_week_dates entries_last_week_dates : gset Z)
  : gset Z * gset Z :=
  match rows with
  | [] => (entries_this_week_dates, entries_last_week_dates)
  | session :: rows' =>
      if negb (row_valid session)
      then entries_loop now rows' entries_this_week_dates
             entries_last_week_dates
      else
        let session_date := midnight (row_date session) in
        if (days_ago now 7 <? session_date)%Z
        then entries_loop now rows'
               ({[row_date session]} ∪ entries_this_week_dates)
               entries_last_week_dates
        else if (days_ago now 14 <? session_date)%Z
                && (session_date <=? days_ago now 7)%Z
        then entries_loop now rows' entries_this_week_dates
               ({[row_date session]} ∪ entries_last_week_dates)
        else entries_loop now rows' entries_this_week_dates
               entries_last_week_dates
  end.

(** [(total_entries, entries_this_week, entries_last_week)] for the rows
    the table gave. *)
Definition entries_by_week (now : Z) (rows : list session_row)
  : nat * nat * nat :=
  match rows with
  | [] => (0, 0, 0)
  | _ :: _ =>
      let unique_dates : gset Z := list_to_set (valid_session_dates rows) in
      let weeks := entries_loop now rows ∅ ∅ in
      (size unique_dates, size weeks.1, size weeks.2)
  end.

(** The day of [datetime.now()]. *)
Definition day_of (now : Z) : Z := (now `div` microseconds_per_day)%Z.

(** The days with a valid session. *)
Definition journal_days (rows : list session_row) : gset Z :=
  list_to_set (valid_session_dates rows).

(** * The sessions by week, [get_usage_stats]
      (src/backend/routes/auth.py)

    A [datetime] is aware (it carries an offset) or naive;
    [instant] counts microseconds, of universal time for an aware one and
    of its own clock for a naive one.  An order comparison between an aware
    and a naive one raises TypeError. *)

Record datetime : Type := DateTime {
  aware : bool;
  instant : Z
}.

(** [a > b], and [b < a]; [None] is the TypeError. *)
Definition later (a b : datetime) : option bool :=
  if Bool.eqb (aware a) (aware b) then Some (instant b <? instant a)%Z
  else None.

(** [s.endswith(suffix)] *)
Fixpoint ends_with (suffix s : string) : bool :=
  String.eqb suffix s
  || match s with
     | EmptyString => false
     | String _ s' => ends_with suffix s'
     end.

(** [s[:-1]] *)
Fixpoint drop_last (s : string) : string :=
  match s with
  | EmptyString => EmptyString
  | String c EmptyString => EmptyString
  | String c s' => String c (drop_last s')
  end.

(** The text handed to [datetime.fromisoformat]: a final Z becomes the
    offset of universal time, and a text with a T and neither a plus sign
    nor a Z is given that offset. *)
Definition with_offset (created_at_str : string) : string :=
  if ends_with "Z" created_at_str
  then drop_last created_at_str +:+ "+00:00"
  else if Str.contains "T" created_at_str
          && negb (Str.contains "+" created_at_str)
          && negb (Str.contains "Z" created_at_str)
  then created_at_str +:+ "+00:00"
  else created_at_str.

(** A row of the table of sessions: [created_at] is absent or holds a
    value; title and summary as in [session_row]. *)
Record timed_session : Type := TimedSession {
  created_at : option json;
  session_title : option string;
  session_summary : option string
}.

(** [s.get("title") and s.get("summary")] *)
Definition session_valid (s : timed_session) : bool :=
  negb (String.eqb (default "" (session_title s)) "")
  && negb (String.eqb (default "" (session_summary s)) "").

Inductive week : Type := ThisWeek | LastWeek | Older.

Section sessions_by_week.

(** [datetime.fromisoformat], [None] where it raises, and
    [datetime.now()], which is naive. *)
Variable fromisoformat : string -> option datetime.
Variable now : Z.

Definition week_ago : datetime := DateTime false (days_ago now 7).

Definition two_weeks_ago : datetime := DateTime false (days_ago now 14).

(** The two tests on [session_date]; [None] where a comparison raises. *)
Definition week_of (session_date : datetime) : option week :=
  match later session_date week_ago with
  | None => None
  | Some true => Some ThisWeek
  | Some false =>
      match later session_date two_weeks_ago with
      | None => None
      | Some true =>
          match later session_date week_ago with
          | None => None
          | Some true => Some Older
          | Some false => Some LastWeek
          end
      | Some false => Some Older
      end
  end.

(** The body of the [try] for one session; [None] where it raises:
    the key is missing, the value is no string, the text does not parse,
    or the comparison is refused. *)
Definition session_week (session : timed_session) : option week :=
  match created_at session with
  | Some (JStr created_at_str) =>
      session_date ← fromisoformat (with_offset created_at_str);
      week_of session_date
  | _ => None
  end.

(** [for session in valid_sessions: ...]; the handler counts the session
    for this week. *)
Fixpoint count_weeks (valid_sessions : list timed_session)
  (sessions_this_week sessions_last_week : nat) : nat * nat :=
  match valid_sessions with
  | [] => (sessions_this_week, sessions_last_week)
  | session :: rest =>
      match session_week session with
      | Some ThisWeek | None =>
          count_weeks rest (S sessions_this_week) sessions_last_week
      | Some LastWeek =>
          count_weeks rest sessions_this_week (S sessions_last_week)
      | Some Older => count_weeks rest sessions_this_week sessions_last_week
      end
  end.

(** [(total_sessions, sessions_this_week, sessions_last_week)]; [selected]
    is the outcome of the query on the table. *)
Definition sessions_by_week (selected : outcome (list timed_session))
  : nat * nat * nat :=
  match selected with
  | Raised _ => (0, 0, 0)
  | Done all_sessions =>
      let valid_sessions := List.filter session_valid all_sessions in
      let total_sessions := length valid_sessions in
      let '(sessions_this_week, sessions_last_week) :=
        count_weeks valid_sessions 0 0 in
      if (0 <? total_sessions) && (sessions_this_week =? 0)
         && (sessions_last_week =? 0)
      then (total_sessions, total_sessions, 0)
      else (total_sessions, sessions_this_week, sessions_last_week)
  end.

End sessions_by_week.

(** A parser for the samples: it reads the offset of universal time and
    nothing else. *)
Definition sample_fromisoformat (s : string) : option datetime :=
  if ends_with "+00:00" s then Some (DateTime true 0) else None.

Definition sample_sessions : list timed_session :=
  [TimedSession (Some (JStr "2020-01-01T10:00:00Z"))
     (Some "New year") (Some "A start.");
   TimedSession (Some (JStr "2020-01-02T09:30:00.000000+00:00"))
     (Some "Second day") (Some "Still going.")].

(** * The entries of a user, [get_user_entries]
      (src/backend/routes/stream.py) *)

(** A hit of the index, with the fields the handler reads; each may be
    absent. *)
Record index_hit : Type := IndexHit {
  ih_objectID : option string;
  ih_title : option string;
  ih_summary : option string;
  ih_tags : option (list string);
  ih_timestamp : option string;
  ih_text : option string;
  ih_session_id : option string;
  ih_date : option string
}.

(** The [entry] dict; [full_content] is a key of it only when the request
    asks for it. *)
Record journal_entry : Type := JournalEntry {
  je_objectID : option string;
  je_title : string;
  je_summary : string;
  je_tags : list string;
  je_timestamp : string;
  je_text : string;
  je_session_id : string;
  je_date : string;
  je_full_content : option string
}.

Definition entry_of (full_content : bool) (hit : index_hit) : journal_entry :=
  JournalEntry (ih_objectID hit)
    (default "" (ih_title hit))
    (default "" (ih_summary hit))
    (default [] (ih_tags hit))
    (default "" (ih_timestamp hit))
    (default "" (ih_text hit))
    (default "" (ih_session_id hit))
    (default "" (ih_date hit))
    (if full_content then Some (default "" (ih_text hit)) else None).

(** [key=lambda x: x.get("timestamp", "")]: the timestamps decide alone. *)
Definition timestamp_key (e : journal_entry) : sort_key := (0, je_timestamp e).

(** The [try] around the query of the index, whose value the handler
    returns: [results] is [resp.json().get("results", [])], each result
    with its hits; an exception gives the empty list. *)
Definition entries_of (full_content : bool)
  (results : outcome (list (list index_hit))) : list journal_entry :=
  match results with
  | Raised _ => []
  | Done results =>
      let entries := entry_of full_content <$> concat results in
      (sorted_reverse (with_key timestamp_key <$> entries)).*2
  end.

(** One timestamp is not after another: the order of the texts. *)
Definition not_after (a b : journal_entry) : Prop :=
  String.ltb (je_timestamp a) (je_timestamp b) = false.

(** * One session with its text, [get_session_by_id]
      (src/backend/routes/stream.py) *)

(** [len(v)]: strings, lists and dicts have a length. *)
Definition py_len (v : json) : option nat :=
  match v with
  | JStr s => Some (String.length s)
  | JArr l => Some (length l)
  | JObj kvs => Some (length kvs)
  | JNull | JBool _ | JNum _ => None
  end.

(** The first [n] characters of a string. *)
Fixpoint take_chars (n : nat) (s : string) : string :=
  match n, s with
  | S n', String c s' => String c (take_chars n' s')
  | _, _ => EmptyString
  end.

(** [v[:n]]: strings and lists can be sliced. *)
Definition slice_first (n : nat) (v : json) : option json :=
  match v with
  | JStr s => Some (JStr (take_chars n s))
  | JArr l => Some (JArr (take n l))
  | JNull | JBool _ | JNum _ | JObj _ => None
  end.

(** [data.get("results", [{}])[0].get("hits", [])] *)
Definition hits_of_reply (data : json) : option json :=
  results ← get_opt data "results" (JArr [JObj []]);
  first ← subscript0 results;
  get_opt first "hits" (JArr []).

(** What the handler reads of an entry of the index: its text, measured
    and cut for the log, then its tags. *)
Definition text_and_tags (entry : json) : option (json * json) :=
  text ← get_opt entry "text" (JStr "");
  _ ← py_len text;
  _ ← slice_first 100 text;
  tags ← get_opt entry "tags" (JArr []);
  Some (text, tags).

(** [hit.get("session_id") == session_id] *)
Definition names_session (session_id : string) (v : json) : bool :=
  match v with
  | JStr s => String.eqb s session_id
  | _ => false
  end.

(** The loop over [fallback_hits]: the first hit of the session. *)
Fixpoint find_session (session_id : string) (hits : list json)
  : option (option json) :=
  match hits with
  | [] => Some None
  | hit :: hits' =>
      sid ← get_opt hit "session_id" JNull;
      if names_session session_id sid then Some (Some hit)
      else find_session session_id hits'
  end.

(** A response of the index: its status, and its body where it is
    JSON. *)
Record index_response : Type := IndexResponse {
  status_code : nat;
  response_json : option json
}.

(** The [try] around the two queries of the index; [None] where it
    raises.  [first] and [fallback] are the outcomes of the two posts. *)
Definition index_text (session_id : string)
  (first fallback : option index_response) : option (json * json) :=
  algolia_response ← first;
  if (status_code algolia_response =? 200)%nat then
    algolia_data ← response_json algolia_response;
    hits ← hits_of_reply algolia_data;
    if Py.truthy hits then
      entry ← subscript0 hits;
      text_and_tags entry
    else
      fallback_response ← fallback;
      if (status_code fallback_response =? 200)%nat then
        fallback_data ← response_json fallback_response;
        fallback_hits ← hits_of_reply fallback_data;
        items ← match Py.iter fallback_hits with
                | Ok items => Some items
                | Raise _ => None
                end;
        matching_entry ← find_session session_id items;
        match matching_entry with
        | Some hit =>
            if Py.truthy hit then text_and_tags hit
            else Some (JStr "", JArr [])
        | None => Some (JStr "", JArr [])
        end
      else Some (JStr "", JArr [])
  else Some (JStr "", JArr []).

(** [session["text"] = ...; session["tags"] = ...], with the values of
    the handler where the [try] raised. *)
Definition with_text (session : list (string * json))
  (found : option (json * json)) : list (string * json) :=
  let '(text, tags) := default (JStr "", JArr []) found in
  Py.assoc_set "tags" tags (Py.assoc_set "text" text session).

Section get_session_by_id.

Local Open Scope handler_scope.

(** The authentication service, the rows of the table for a session and a
    user, and the two queries of the index. *)
Variable get_user : string -> outcome (option auth_user).
Variable select_session :
  string -> string -> outcome (list (list (string * json))).
Variable first_search fallback_search : string -> string -> option index_response.

(** [session = result.data[0] if result.data else None], and the 404 for
    no session. *)
Definition found_session (rows : list (list (string * json)))
  : handler (list (string * json)) :=
  match rows with
  | session :: _ =>
      if Py.truthy (JObj session) then pure session
      else throw (HTTPException 404 "Session not found")
  | [] => throw (HTTPException 404 "Session not found")
  end.

Definition get_session_by_id (auth_header : option string)
  (session_id : string) : handler (list (string * json)) :=
  except_other
    (user <~ get_user_from_token get_user auth_header;
     except_all
       (rows <~ ask (SelectSession session_id (user_id user))
                  (select_session session_id (user_id user));
        session <~ found_session rows;
        pure (with_text session
                (index_text session_id
                   (first_search session_id (user_id user))
                   (fallback_search session_id (user_id user)))))
       500 "Failed to fetch session")
    500 "Failed to get session".

End get_session_by_id.

(** * Properties *)

(** ** The order on sort keys *)

Section key_order.

Lemma ascii_compare_lt_trans (a b c : ascii) :
  Ascii.compare a b = Lt -> Ascii.compare b c = Lt -> Ascii.compare a c = Lt.
Proof.
  unfold Ascii.compare. rewrite !N.compare_lt_iff. lia.
Qed.

Lemma string_compare_refl (s : string) : String.compare s s = Eq.
Proof.
  induction s as [|c s IH]; simpl; [done|].
  unfold Ascii.compare. by rewrite N.compare_refl.
Qed.

Lemma string_compare_lt_trans (a b c : string) :
  String.compare a b = Lt -> String.compare b c = Lt ->
  String.compare a c = Lt.
Proof.
  revert b c. induction a as [|x a IH]; intros [|y b] [|z c]; simpl; try done.
  destruct (Ascii.compare x y) eqn:Hxy; try done.
  - apply Ascii.compare_eq_iff in Hxy as ->.
    destruct (Ascii.compare y z); try done. apply IH.
  - destruct (Ascii.compare y z) eqn:Hyz; try done.
    + apply Ascii.compare_eq_iff in Hyz as <-. by rewrite Hxy.
    + by rewrite (ascii_compare_lt_trans _ _ _ Hxy Hyz).
Qed.

Lemma string_ltb_irrefl (s : string) : String.ltb s s = false.
Proof. unfold String.ltb. by rewrite string_compare_refl. Qed.

Lemma string_ltb_trichotomy (a b : string) :
  String.ltb a b = true \/ a = b \/ String.ltb b a = true.
Proof.
  unfold String.ltb. rewrite (String.compare_antisym b a).
  destruct (String.compare a b) eqn:H; simpl; auto.
  apply String.compare_eq_iff in H. auto.
Qed.

Lemma string_ltb_trans (a b c : string) :
  String.ltb a b = true -> String.ltb b c = true -> String.ltb a c = true.
Proof.
  unfold String.ltb.
  destruct (String.compare a b) eqn:Hab; try done.
  destruct (String.compare b c) eqn:Hbc; try done.
  by rewrite (string_compare_lt_trans _ _ _ Hab Hbc).
Qed.

Lemma string_ltb_asym (a b : string) :
  String.ltb a b = true -> String.ltb b a = false.
Proof.
  intros Hab. destruct (String.ltb b a) eqn:Hba; [|done].
  pose proof (string_ltb_trans _ _ _ Hab Hba) as H.
  by rewrite string_ltb_irrefl in H.
Qed.

Lemma key_lt_spec (k1 k2 : sort_key) :
  key_lt k1 k2 = true <->
  k1.1 < k2.1 \/ (k1.1 = k2.1 /\ String.ltb k1.2 k2.2 = true).
Proof.
  unfold key_lt. rewrite orb_true_iff, andb_true_iff.
  rewrite Nat.ltb_lt, Nat.eqb_eq. tauto.
Qed.

Lemma key_lt_irrefl (k : sort_key) : key_lt k k = false.
Proof.
  apply not_true_is_false. rewrite key_lt_spec, string_ltb_irrefl.
  intros [?|[_ ?]]; [lia|done].
Qed.

Lemma key_lt_asym (k1 k2 : sort_key) :
  key_lt k1 k2 = true -> key_lt k2 k1 = false.
Proof.
  intros H. apply not_true_is_false. revert H. rewrite !key_lt_spec.
  intros [?|[? H1]] [?|[? H2]]; try lia.
  apply string_ltb_asym in H1. congruence.
Qed.

(** "Not less" is transitive: the order is total. *)
Lemma key_ge_trans (k1 k2 k3 : sort_key) :
  key_lt k1 k2 = false -> key_lt k2 k3 = false -> key_lt k1 k3 = false.
Proof.
  intros H12 H23. apply not_true_is_false. intros H13.
  apply not_true_iff_false in H12, H23. rewrite key_lt_spec in *.
  destruct (lt_eq_lt_dec k1.1 k2.1) as [[?|E12]|?]; [tauto| |].
  - destruct (lt_eq_lt_dec k2.1 k3.1) as [[?|E23]|?]; [tauto| |lia].
    destruct (string_ltb_trichotomy k1.2 k2.2) as [?|[E|G12]]; [tauto| |].
    + rewrite E12, E in H13. tauto.
    + destruct (string_ltb_trichotomy k2.2 k3.2) as [?|[E|G23]]; [tauto| |].
      * destruct H13 as [?|[_ H13]]; [lia|].
        rewrite <-E in H13. apply string_ltb_asym in H13. congruence.
      * destruct H13 as [?|[_ H13]]; [lia|].
        pose proof (string_ltb_trans _ _ _ G23 G12) as G.
        apply string_ltb_asym in G. congruence.
  - destruct H13 as [?|[? _]]; [|lia].
    destruct (lt_eq_lt_dec k2.1 k3.1) as [[?|E23]|?]; [tauto|lia|lia].
Qed.

End key_order.

(** ** [sorted(..., reverse=True)] *)

Section sorted_reverse.
Context {A : Type}.
Implicit Types (x y : sort_key * A) (l : list (sort_key * A)).

Lemma insert_desc_perm x l : insert_desc x l ≡ₚ x :: l.
Proof.
  induction l as [|y l IH]; simpl; [done|].
  destruct (key_lt x.1 y.1); [|done].
  rewrite IH. apply Permutation_swap.
Qed.

Lemma sorted_reverse_perm l : sorted_reverse l ≡ₚ l.
Proof.
  induction l as [|x l IH]; simpl; [done|].
  by rewrite insert_desc_perm, IH.
Qed.

Lemma insert_desc_sorted x l :
  StronglySorted not_below l -> StronglySorted not_below (insert_desc x l).
Proof.
  induction 1 as [|y l Hl IH Hy]; simpl.
  - repeat constructor.
  - destruct (key_lt x.1 y.1) eqn:Hxy.
    + constructor; [done|].
      rewrite insert_desc_perm. constructor; [|done].
      by apply key_lt_asym.
    + constructor; [by constructor|].
      constructor; [done|].
      eapply Forall_impl; [exact Hy|].
      intros z Hz. by eapply key_ge_trans.
Qed.

Lemma sorted_reverse_sorted l : StronglySorted not_below (sorted_reverse l).
Proof.
  induction l as [|x l IH]; simpl; [constructor|].
  by apply insert_desc_sorted.
Qed.

(** Stability: the items of one key come out in the order they came in. *)
Lemma insert_desc_filter (k : sort_key) x l :
  filter (fun y : sort_key * A => y.1 = k) (insert_desc x l)
  = filter (fun y : sort_key * A => y.1 = k) (x :: l).
Proof.
  induction l as [|y l IH]; simpl; [done|].
  destruct (key_lt x.1 y.1) eqn:Hxy; [|done].
  rewrite (filter_cons _ y), IH, !filter_cons.
  destruct (decide (y.1 = k)) as [Hy|]; [|done].
  destruct (decide (x.1 = k)) as [Hx|]; [|done].
  rewrite Hx, Hy, key_lt_irrefl in Hxy. done.
Qed.

Lemma sorted_reverse_stable (k : sort_key) l :
  filter (fun y : sort_key * A => y.1 = k) (sorted_reverse l) = filter (fun y : sort_key * A => y.1 = k) l.
Proof.
  induction l as [|x l IH]; simpl; [done|].
  by rewrite insert_desc_filter, !filter_cons, IH.
Qed.

End sorted_reverse.

(** ** The relevance ranker *)

Section ranker.
Variable terms : list string.

Lemma relevance_step_spec (h : hit) (t : string) (acc : nat) :
  relevance_step h (Str.lower t) acc = acc + spec_term_score h t.
Proof.
  unfold relevance_step, spec_term_score.
  destruct (Str.contains (Str.lower t) (Str.lower (hit_title h)));
    destruct (Str.contains (Str.lower t) (Str.lower (hit_summary h)));
    destruct (existsb _ (hit_tags h)); lia.
Qed.

Lemma relevance_loop_spec (h : hit) (ts : list string) (acc : nat) :
  relevance_loop h (JStr <$> ts) acc = Ok (acc + spec_score ts h).
Proof.
  revert acc. induction ts as [|t ts IH]; intros acc.
  - simpl. f_equal. unfold spec_score. simpl. lia.
  - cbn [fmap list_fmap relevance_loop Py.lower res_bind].
    rewrite relevance_step_spec, IH. f_equal.
    unfold spec_score. rewrite fmap_cons. simpl. lia.
Qed.

Lemma calculate_relevance_spec (h : hit) :
  calculate_relevance (JArr (JStr <$> terms)) h = Ok (spec_score terms h).
Proof. unfold calculate_relevance. simpl. by rewrite relevance_loop_spec. Qed.

Lemma decorate_spec (hits : list hit) :
  decorate (JArr (JStr <$> terms)) hits
  = Ok (with_key (rank_key terms) <$> hits).
Proof.
  induction hits as [|h hits IH]; [done|].
  cbn [decorate]. rewrite calculate_relevance_spec. simpl. by rewrite IH.
Qed.

Lemma key_lt_may_precede (a b : hit) :
  key_lt (rank_key terms a) (rank_key terms b) = false <-> may_precede terms a b.
Proof.
  unfold may_precede. rewrite <-not_true_iff_false, key_lt_spec. simpl.
  unfold String.leb, String.ltb.
  rewrite (String.compare_antisym (hit_timestamp b) (hit_timestamp a)).
  destruct (String.compare (hit_timestamp a) (hit_timestamp b)); simpl;
    intuition (try lia; try done).
Qed.

End ranker.

Section keyed_sort.
Context {A : Type} (key : A -> sort_key).
Implicit Types (l : list A).

Lemma undecorate l : (with_key key <$> l).*2 = l.
Proof. induction l as [|a l IH]; [done|]. by rewrite !fmap_cons, IH. Qed.

Lemma redecorate (dl : list (sort_key * A)) :
  Forall (fun x => x.1 = key x.2) dl -> with_key key <$> dl.*2 = dl.
Proof.
  induction 1 as [|[k a] dl Hk _ IH]; [done|].
  rewrite !fmap_cons, IH. simpl in *. unfold with_key. by rewrite <-Hk.
Qed.

Lemma keyed_sort_redecorate l :
  with_key key <$> (sorted_reverse (with_key key <$> l)).*2
  = sorted_reverse (with_key key <$> l).
Proof.
  apply redecorate. rewrite sorted_reverse_perm.
  apply Forall_fmap, Forall_true. done.
Qed.

Lemma keyed_sort_perm l : (sorted_reverse (with_key key <$> l)).*2 ≡ₚ l.
Proof. by rewrite sorted_reverse_perm, undecorate. Qed.

Lemma sorted_undecorate l :
  StronglySorted not_below (with_key key <$> l) ->
  StronglySorted (fun a b => key_lt (key a) (key b) = false) l.
Proof.
  induction l as [|a l IH]; [constructor|].
  rewrite fmap_cons. intros H. apply StronglySorted_inv in H as [Hl Ha].
  constructor; [by apply IH|].
  rewrite Forall_fmap in Ha. exact Ha.
Qed.

Lemma keyed_sort_sorted l :
  StronglySorted (fun a b => key_lt (key a) (key b) = false)
    (sorted_reverse (with_key key <$> l)).*2.
Proof.
  apply sorted_undecorate. rewrite keyed_sort_redecorate.
  apply sorted_reverse_sorted.
Qed.

Lemma filter_decorated (k : sort_key) l :
  filter (fun x : sort_key * A => x.1 = k) (with_key key <$> l)
  = with_key key <$> filter (fun a => key a = k) l.
Proof.
  induction l as [|a l IH]; [done|].
  rewrite fmap_cons, !filter_cons, IH. simpl.
  destruct (decide (key a = k)); done.
Qed.

Lemma keyed_sort_stable (k : sort_key) l :
  filter (fun a => key a = k) (sorted_reverse (with_key key <$> l)).*2
  = filter (fun a => key a = k) l.
Proof.
  rewrite <-(undecorate (filter _ (_.*2))), <-filter_decorated.
  rewrite keyed_sort_redecorate, sorted_reverse_stable, filter_decorated.
  apply undecorate.
Qed.

End keyed_sort.

Lemma StronglySorted_weaken {A} (R1 R2 : relation A) (l : list A) :
  (forall a b, R1 a b -> R2 a b) -> StronglySorted R1 l -> StronglySorted R2 l.
Proof.
  intros HR. induction 1 as [|a l _ IH Ha]; constructor; [done|].
  eapply Forall_impl; [exact Ha|]. intros b. apply HR.
Qed.

(** C3.  On every list of hits and every list of terms the ranker returns
    (it does not raise), and: the score it computes for a hit is the sum
    over the terms of 3 for the title, 2 for the summary and 1 for the tags,
    counted when the lowercased term occurs in the lowercased field, with no
    cap; the result is a rearrangement of the hits in which every hit stands
    before the hits of smaller score and, at equal score, before those of
    smaller timestamp string; the hits of one score and one timestamp keep
    the order they had in the input.  The ranker reads nothing but its two
    arguments, so a second call yields the same list. *)
Theorem sort_by_relevance_ranking (hits : list hit) (terms : list string) :
  (forall h,
     calculate_relevance (JArr (JStr <$> terms)) h = Ok (spec_score terms h)) /\
  exists ranked,
    _sort_by_relevance hits (JArr (JStr <$> terms)) = Ok ranked /\
    ranked ≡ₚ hits /\
    StronglySorted (may_precede terms) ranked /\
    forall (score : nat) (stamp : string),
      filter (fun h => spec_score terms h = score /\ hit_timestamp h = stamp)
        ranked
      = filter (fun h => spec_score terms h = score /\ hit_timestamp h = stamp)
          hits.
Proof.
  split; [apply calculate_relevance_spec|].
  unfold _sort_by_relevance. rewrite decorate_spec. simpl.
  eexists. split; [reflexivity|]. split; [|split].
  - apply (keyed_sort_perm (rank_key terms)).
  - eapply StronglySorted_weaken; [|apply (keyed_sort_sorted (rank_key terms))].
    intros a b Hab. by apply key_lt_may_precede.
  - intros score stamp.
    pose proof (keyed_sort_stable (rank_key terms) (score, stamp) hits) as H.
    erewrite (list_filter_iff _ (fun h => rank_key terms h = (score, stamp))).
    + rewrite H. apply list_filter_iff.
      intros h. unfold rank_key. split; [by intros [= -> ->]|by intros [-> ->]].
    + intros h. unfold rank_key. split; [by intros [-> ->]|by intros [= -> ->]].
Qed.

(** ** The search executor *)

Section search_executor.

Lemma collect_results_concat (acc : list hit * gset string)
    (results : list (list raw_hit)) :
  collect_results acc results = foldl collect_hit acc (concat results).
Proof.
  unfold collect_results. revert acc.
  induction results as [|r results IH]; intros acc; simpl; [done|].
  by rewrite foldl_app, IH.
Qed.

Lemma first_copy_snoc (stream : list raw_hit) (r : raw_hit) (h : hit) :
  first_copy stream h -> first_copy (stream ++ [r]) h.
Proof.
  intros (before & raw & after & -> & ? & ? & ?).
  exists before, raw, (after ++ [r]). by rewrite <-app_assoc.
Qed.

Lemma merged_of_step (stream : list raw_hit) (acc : list hit * gset string)
    (r : raw_hit) :
  merged_of stream acc -> merged_of (stream ++ [r]) (collect_hit acc r).
Proof.
  intros [Hseen Hnodup Hfirst Hall]. unfold collect_hit.
  destruct (raw_objectID r) as [obj_id|] eqn:Hid; cycle 1.
  { split; [done|done| |].
    - intros h Hh. by apply first_copy_snoc, Hfirst.
    - intros raw id [Hin| ->%list_elem_of_singleton]%elem_of_app Hraw Hne.
      + by eapply Hall.
      + unfold has_id in Hraw. congruence. }
  destruct (String.eqb_spec obj_id "") as [->|Hne]; simpl.
  { split; [done|done| |].
    - intros h Hh. by apply first_copy_snoc, Hfirst.
    - intros raw id [Hin| ->%list_elem_of_singleton]%elem_of_app Hraw Hne.
      + by eapply Hall.
      + unfold has_id in Hraw. congruence. }
  case_bool_decide as Hfresh; simpl.
  - split; simpl.
    + intros id. rewrite fmap_app, elem_of_app, elem_of_union, Hseen. simpl.
      rewrite list_elem_of_singleton, elem_of_singleton. tauto.
    + rewrite fmap_app. simpl. apply NoDup_app. split; [done|].
      split; [|apply NoDup_singleton].
      intros id Hin ->%list_elem_of_singleton. by apply Hfresh, Hseen.
    + intros h [Hh| ->%list_elem_of_singleton]%elem_of_app.
      * by apply first_copy_snoc, Hfirst.
      * exists stream, r, []. simpl. split; [done|]. split; [done|].
        split; [done|]. intros r' Hr' Hhas.
        apply Hfresh, Hseen. by eapply Hall.
    + intros raw id [Hin| ->%list_elem_of_singleton]%elem_of_app Hraw Hid'.
      * rewrite fmap_app, elem_of_app. left. by eapply Hall.
      * unfold has_id in Hraw. rewrite Hid in Hraw. injection Hraw as <-.
        rewrite fmap_app, elem_of_app. right. simpl. by left.
  - split; [done|done| |].
    + intros h Hh. by apply first_copy_snoc, Hfirst.
    + intros raw id [Hin| ->%list_elem_of_singleton]%elem_of_app Hraw Hid'.
      * by eapply Hall.
      * unfold has_id in Hraw. rewrite Hid in Hraw. injection Hraw as <-.
        by apply Hseen.
Qed.

Lemma merged_of_foldl (done stream : list raw_hit)
    (acc : list hit * gset string) :
  merged_of done acc ->
  merged_of (done ++ stream) (foldl collect_hit acc stream).
Proof.
  revert done acc. induction stream as [|r stream IH]; intros done acc H.
  - by rewrite app_nil_r.
  - simpl. rewrite (assoc_L (++) done [r] stream : done ++ r :: stream = _).
    by apply IH, merged_of_step.
Qed.

Lemma merged_of_nil : merged_of [] ([], ∅).
Proof.
  split; simpl.
  - intros id. rewrite elem_of_nil. set_solver.
  - constructor.
  - intros h Hh. by apply elem_of_nil in Hh.
  - intros raw id Hin. by apply elem_of_nil in Hin.
Qed.

Lemma search_loop_ok (sv : services) (filters : string) (terms : list json) :
  forall (i : nat) (acc : list hit * gset string) (st : store)
         (stream : list raw_hit),
    replies sv filters i terms = Some stream ->
    search_loop sv filters i terms acc st
    = (Ok (foldl collect_hit acc stream),
       Store (memory_file st)
         (trace st ++ ((fun term => EvIndexQuery term filters) <$> terms))).
Proof.
  induction terms as [|term terms IH]; intros i acc st stream; simpl.
  - intros [= <-]. simpl. rewrite app_nil_r. by destruct st.
  - destruct (query_index sv i term filters) as [results|] eqn:Hq; [|done].
    destruct (replies sv filters (S i) terms) as [rest|] eqn:Hr; [|done].
    intros [= <-]. unfold bind at 1. simpl. unfold bind at 1. simpl.
    rewrite (IH _ _ _ rest Hr), foldl_app, collect_results_concat. simpl.
    by rewrite <-app_assoc.
Qed.

End search_executor.

(** C2.  Whatever the terms and whatever lists of hits the index returns
    for them, the loop of stage 3 ends with a merged list in which no
    document id occurs twice; each hit it holds is the copy of the first hit
    of that id in the order the index returned them (earliest term query,
    earliest position in it), and every id the index returned (other than
    the empty one, which the loop skips) is in the list. *)
Theorem search_loop_dedup (sv : services) (filters : string)
    (terms : list json) (stream : list raw_hit) (st : store) :
  replies sv filters 0 terms = Some stream ->
  exists merged seen st',
    search_loop sv filters 0 terms ([], ∅) st = (Ok (merged, seen), st') /\
    NoDup (hit_objectID <$> merged) /\
    (forall h, h ∈ merged -> first_copy stream h) /\
    (forall raw id,
       raw ∈ stream -> has_id id raw -> id <> "" ->
       id ∈ hit_objectID <$> merged).
Proof.
  intros Hstream.
  pose proof (merged_of_foldl [] stream ([], ∅) merged_of_nil) as H.
  simpl in H. destruct (foldl collect_hit ([], ∅) stream) as [merged seen] eqn:E.
  exists merged, seen. eexists. split.
  - rewrite (search_loop_ok _ _ _ _ _ _ _ Hstream), E. reflexivity.
  - destruct H as [_ ? ? ?]. auto.
Qed.

Lemma search_loop_dedup_witness :
  exists merged seen st',
    search_loop sv_sleep_work "user_id:u1" 0 [JStr "sleep"; JStr "work"]
      ([], ∅) (Store Absent [])
    = (Ok (merged, seen), st') /\
    NoDup (hit_objectID <$> merged) /\
    (forall h, h ∈ merged -> first_copy [hit_A; hit_A_again; hit_B] h) /\
    (forall raw id,
       raw ∈ [hit_A; hit_A_again; hit_B] -> has_id id raw -> id <> "" ->
       id ∈ hit_objectID <$> merged).
Proof.
  apply (search_loop_dedup sv_sleep_work "user_id:u1"
           [JStr "sleep"; JStr "work"] [hit_A; hit_A_again; hit_B]
           (Store Absent [])).
  reflexivity.
Defined.

(** ** The hits of the response *)

Lemma decorate_items (terms : json) (hits : list hit)
    (decorated : list (sort_key * hit)) :
  decorate terms hits = Ok decorated -> decorated.*2 = hits.
Proof.
  revert decorated. induction hits as [|h hits IH]; intros decorated; simpl.
  - by intros [= <-].
  - destruct (calculate_relevance terms h); simpl; [|done].
    destruct (decorate terms hits) as [rest|]; simpl; [|done].
    intros [= <-]. rewrite fmap_cons. simpl. by rewrite (IH rest).
Qed.

Lemma sort_by_relevance_perm (terms : json) (hits ranked : list hit) :
  _sort_by_relevance hits terms = Ok ranked -> ranked ≡ₚ hits.
Proof.
  unfold _sort_by_relevance.
  destruct (decorate terms hits) as [decorated|] eqn:Hd; simpl; [|done].
  intros [= <-]. by rewrite sorted_reverse_perm, (decorate_items _ _ _ Hd).
Qed.

(** The list of hits of a response holds no document id twice. *)
Lemma hits_of_nodup (sv : services) (user_id : option string) (terms : json) :
  NoDup (hit_objectID <$> hits_of sv user_id terms).
Proof.
  unfold hits_of.
  destruct (Py.iter terms) as [items|]; [|constructor].
  destruct (replies sv (filter_str user_id) 0 items) as [stream|];
    [|constructor].
  destruct (_sort_by_relevance (merged_hits stream) terms) as [ranked|] eqn:H;
    [|constructor].
  rewrite (sort_by_relevance_perm _ _ _ H).
  pose proof (merged_of_foldl [] stream ([], ∅) merged_of_nil) as Hm.
  apply Hm.
Qed.

(** ** The stages, one by one *)

Section stages.
Variable sv : services.

Lemma logged_nil (st : store) : logged st [] = st.
Proof. destruct st. unfold logged. simpl. by rewrite app_nil_r. Qed.

Lemma logged_logged (st : store) (e1 e2 : list event) :
  logged (logged st e1) e2 = logged st (e1 ++ e2).
Proof. unfold logged. simpl. by rewrite app_assoc. Qed.

Lemma stage1_run (query : string) (st : store) :
  stage1 sv query st
  = (Ok (intent_of sv query), logged st [EvIntentRequest query]).
Proof.
  unfold stage1, try_except, extract_intent, bind, emit, of_reply, intent_of.
  simpl. destruct (generate_intent sv query) as [parsed|]; simpl; [|done].
  unfold lift. by destruct (parse_intent parsed).
Qed.

(** The memory check never finds an entry: on a file that exists the
    reading raises and the handler returns [None]. *)
Lemma check_memory_run (query : string) (terms : json) (st : store) :
  _check_memory query terms st
  = (Ok None, logged st (reads (memory_file st))).
Proof.
  unfold _check_memory, try_except, bind, memory_exists, load_memory, bind,
    emit, lift.
  destruct st as [[| | |memory] tr]; simpl; [by rewrite logged_nil|done..].
Qed.

(** The memory writer never writes an entry: on a file that exists the
    reading raises; on an absent file the writing raises once the file is
    open, and so created. *)
Lemma store_memory_run (now query : string) (terms summary : json)
    (st : store) :
  _store_memory now query terms summary st = (Ok tt, after_store st).
Proof.
  unfold _store_memory, try_except, bind, memory_exists, load_memory, bind,
    emit, lift, dump_memory, ret, after_store, logged.
  by destruct st as [[| | |memory] tr].
Qed.

End stages.

Section stages_3_and_4.
Variable sv : services.

Lemma search_loop_run (filters : string) (terms : list json) :
  forall (i : nat) (acc : list hit * gset string) (st : store),
    search_loop sv filters i terms acc st
    = (match replies sv filters i terms with
       | Some stream => Ok (foldl collect_hit acc stream)
       | None => Raise RequestError
       end,
       logged st (issued sv filters i terms)).
Proof.
  induction terms as [|term terms IH]; intros i acc st; simpl.
  - by rewrite logged_nil.
  - unfold bind at 1. simpl. unfold bind at 1.
    destruct (query_index sv i term filters) as [results|] eqn:Hq; simpl.
    + rewrite IH. unfold logged. simpl. rewrite <-app_assoc. simpl.
      destruct (replies sv filters (S i) terms) as [rest|]; [|done].
      by rewrite foldl_app, collect_results_concat.
    + done.
Qed.

Lemma stage3_run (user_id : option string) (terms : json) (st : store) :
  stage3 sv user_id terms st
  = (Ok (hits_of sv user_id terms), logged st (stage3_calls sv user_id terms)).
Proof.
  unfold stage3, try_except, bind, lift, hits_of, stage3_calls, merged_hits.
  destruct (Py.iter terms) as [l|]; simpl; [|by rewrite logged_nil].
  rewrite search_loop_run.
  destruct (replies sv (filter_str user_id) 0 l) as [stream|]; [|done].
  by destruct (_sort_by_relevance _ terms).
Qed.

Lemma stage4_run (query : string) (terms : json) (hits : list hit)
    (st : store) :
  stage4 sv query terms hits st
  = (summary_of sv query terms hits,
     logged st [EvSynthesisRequest (take 5 hits)]).
Proof.
  unfold stage4, try_except, bind, emit, of_reply, summary_of, lift, ret,
    raise, found_template, none_template.
  simpl.
  destruct (generate_summary sv query terms (length hits) (take 5 hits));
    simpl; [done|].
  destruct hits as [|h hits]; [done|]. simpl.
  by destruct (Py.join ", " terms).
Qed.

End stages_3_and_4.

(** ** The two ways through [mcp_search] *)

Section branches.
Variables (sv : services) (query : string) (user_id : option string).

Lemma mcp_search_no_search (st : store) :
  is_search (intent_of sv query) = false ->
  mcp_search sv query user_id st
  = (Ok (set_final_summary (after_stage1 sv query)
           (intent_response (intent_of sv query))),
     after_stage2 query st).
Proof.
  intros Hno. unfold mcp_search, bind at 1. rewrite stage1_run.
  unfold bind at 1. rewrite check_memory_run. simpl. rewrite Hno.
  unfold ret, after_stage2, logged. simpl. by rewrite <-app_assoc.
Qed.

Lemma mcp_search_pipeline (st : store) :
  is_search (intent_of sv query) = true ->
  let terms := intent_terms (intent_of sv query) in
  let hits := hits_of sv user_id terms in
  mcp_search sv query user_id st
  = match summary_of sv query terms hits with
    | Ok summary =>
        (Ok (set_final_summary
               (set_algolia_hits (after_stage1 sv query) hits) summary),
         after_store (after_stage4 sv query user_id st))
    | Raise e => (Raise e, after_stage4 sv query user_id st)
    end.
Proof.
  intros Hyes terms hits. unfold mcp_search, bind at 1.
  rewrite stage1_run. unfold bind at 1. rewrite check_memory_run. simpl.
  rewrite Hyes. simpl.
  unfold bind at 1. rewrite stage3_run.
  unfold bind at 1. rewrite stage4_run.
  fold terms. fold hits.
  assert (logged (logged (logged (logged st [EvIntentRequest query])
                            (reads (memory_file st)))
                    (stage3_calls sv user_id terms))
            [EvSynthesisRequest (take 5 hits)]
          = after_stage4 sv query user_id st) as ->.
  { unfold after_stage4, after_stage2. by rewrite !logged_logged. }
  destruct (summary_of sv query terms hits) as [summary|e]; [|done].
  unfold bind. by rewrite store_memory_run.
Qed.

End branches.

(** ** Stage 4 does not raise on the hits of stage 3 *)

Section synthesis.
Variable sv : services.

Lemma relevance_loop_strings (h : hit) (terms : list json) :
  forall (acc n : nat),
    relevance_loop h terms acc = Ok n ->
    exists ss, Py.strings_of terms = Ok ss.
Proof.
  induction terms as [|term terms IH]; intros acc n; simpl; [by eexists|].
  destruct term; simpl; try done.
  intros H. apply IH in H as [ss ->]. simpl. by eexists.
Qed.

Lemma sort_by_relevance_join (hits ranked : list hit) (terms : json) :
  _sort_by_relevance hits terms = Ok ranked -> ranked <> [] ->
  exists joined, Py.join ", " terms = Ok joined.
Proof.
  intros Hsort Hne.
  destruct hits as [|h hits].
  { unfold _sort_by_relevance in Hsort. simpl in Hsort. congruence. }
  unfold _sort_by_relevance in Hsort. simpl in Hsort.
  unfold calculate_relevance in Hsort. unfold Py.join.
  destruct (Py.iter terms) as [items|]; simpl in *; [|done].
  destruct (relevance_loop h items 0) as [n|] eqn:Hloop; simpl in *; [|done].
  apply relevance_loop_strings in Hloop as [ss ->]. simpl. by eexists.
Qed.

Lemma hits_of_join (user_id : option string) (terms : json) :
  hits_of sv user_id terms <> [] ->
  exists joined, Py.join ", " terms = Ok joined.
Proof.
  unfold hits_of.
  destruct (Py.iter terms) as [items|]; [|done].
  destruct (replies sv (filter_str user_id) 0 items) as [stream|]; [|done].
  destruct (_sort_by_relevance (merged_hits stream) terms) as [ranked|] eqn:H;
    [|done].
  intros Hne. by eapply sort_by_relevance_join.
Qed.

Lemma found_template_nonempty (n : nat) (joined : string) :
  found_template n joined <> "".
Proof. done. Qed.

(** Stage 4 ends with a string, whatever the services do. *)
Lemma summary_of_hits (query : string) (user_id : option string)
    (terms : json) :
  exists s,
    summary_of sv query terms (hits_of sv user_id terms) = Ok (JStr s) /\
    (generate_summary sv query terms (length (hits_of sv user_id terms))
       (take 5 (hits_of sv user_id terms)) = None -> s <> "").
Proof.
  unfold summary_of.
  destruct (generate_summary sv query terms _ _) as [text|].
  { eexists. split; [done|]. done. }
  destruct (hits_of sv user_id terms) as [|h hits] eqn:Hhits.
  { eexists. split; [done|]. done. }
  destruct (hits_of_join user_id terms) as [joined Hj]; [by rewrite Hhits|].
  rewrite Hj. simpl. eexists. split; [done|].
  intros _. apply found_template_nonempty.
Qed.

End synthesis.

(** ** The orchestrator returns *)

(** The memory is never used: every run ends with [memory_used] false. *)
Lemma memory_never_used (sv : services) (query : string)
    (user_id : option string) (st st' : store) (r : response) :
  mcp_search sv query user_id st = (Ok r, st') -> memory_used r = false.
Proof.
  destruct (is_search (intent_of sv query)) eqn:Hsearch.
  - rewrite mcp_search_pipeline by done.
    destruct (summary_of _ _ _ _); [|done]. by intros [= <- _].
  - rewrite mcp_search_no_search by done. by intros [= <- _].
Qed.

(** C4.  Whatever the query, the text generation service and the search
    index do, and whatever the memory file is (absent, empty, corrupt or
    holding a log), [mcp_search] returns a response and raises nothing, so
    that the route answers a query that is not empty with this response.
    When the text generation service fails at both stages, the
    [final_summary] of the response is a string that is not empty. *)
Theorem mcp_search_returns (sv : services) (query : string)
    (user_id : option string) (st : store) :
  exists r st',
    mcp_search sv query user_id st = (Ok r, st') /\
    (query <> "" -> search sv query user_id st = (Ok (RouteResult r), st')) /\
    (generation_down sv query ->
     exists s, final_summary r = JStr s /\ s <> "").
Proof.
  assert (exists r st',
            mcp_search sv query user_id st = (Ok r, st') /\
            (generation_down sv query ->
             exists s, final_summary r = JStr s /\ s <> ""))
    as (r & st' & Hrun & Hdown).
  { destruct (is_search (intent_of sv query)) eqn:Hsearch.
    - rewrite mcp_search_pipeline by done.
      destruct (summary_of_hits sv query user_id
                  (intent_terms (intent_of sv query))) as (s & -> & Hs).
      eexists _, _. split; [done|]. intros [_ Hdown]. simpl.
      exists s. split; [done|]. apply Hs, Hdown.
    - rewrite mcp_search_no_search by done.
      eexists _, _. split; [done|]. intros [Hdown _].
      unfold intent_of in Hsearch. by rewrite Hdown in Hsearch. }
  exists r, st'. split; [exact Hrun|]. split; [|exact Hdown].
  intros Hne. unfold search.
  apply String.eqb_neq in Hne as ->.
  unfold try_except, bind. by rewrite Hrun.
Qed.

(** The example of the specification: every service down, the query "tell
    me about my week" of user "u1", on a memory file that holds a log. *)
Example fallback_completeness :
  generation_down sv_down "tell me about my week" /\
  exists st',
    search sv_down "tell me about my week" (Some "u1")
      (Store (Content (log_json week_then_empty_log)) [])
    = (Ok (RouteResult
             (Response "tell me about my week"
                (JArr [JStr "tell"; JStr "me"; JStr "about"])
                (JStr "I'll search for entries related to your query: tell me about my week")
                [] (JStr "No relevant entries found for your query.") false
                "2025-07-01T10:00:00")),
       st').
Proof. split; [by split|]. eexists. vm_compute. reflexivity. Qed.

(** The route catches whatever [mcp_search] could raise. *)
Lemma search_never_raises (sv : services) (query : string)
    (user_id : option string) (st : store) :
  exists reply st', search sv query user_id st = (Ok reply, st').
Proof.
  unfold search. destruct (String.eqb query ""); [by eexists _, _|].
  unfold try_except, bind.
  destruct (mcp_search sv query user_id st) as [[r|e] st']; by eexists _, _.
Qed.

(** ** Stage 1 and its fallback *)

Section intent.

Lemma is_space_lower_char (c : ascii) :
  Str.is_space (Str.lower_char c) = Str.is_space c.
Proof. by destruct c as [[] [] [] [] [] [] [] []]. Qed.

(** Lowercasing the query and cutting it, or cutting it and lowercasing
    the tokens, is the same. *)
Lemma split_lower (s : string) :
  Str.split (Str.lower s) = Str.lower <$> Str.split s.
Proof.
  induction s as [|c s IH]; [done|].
  cbn [Str.lower Str.split]. rewrite is_space_lower_char.
  destruct (Str.is_space c); [done|].
  destruct s as [|d s]; [done|].
  cbn [Str.lower] in *. rewrite is_space_lower_char.
  destruct (Str.is_space d).
  - by rewrite IH.
  - rewrite IH. by destruct (Str.split (String d s)).
Qed.

Lemma mcp_search_stage1_fields (sv : services) (query : string)
    (user_id : option string) (st st' : store) (r : response) :
  mcp_search sv query user_id st = (Ok r, st') ->
  original_query r = query /\
  search_terms r = intent_terms (intent_of sv query) /\
  stage1_response r = intent_response (intent_of sv query).
Proof.
  destruct (is_search (intent_of sv query)) eqn:Hsearch.
  - rewrite mcp_search_pipeline by done.
    destruct (summary_of _ _ _ _); [|done]. by intros [= <- _].
  - rewrite mcp_search_no_search by done. by intros [= <- _].
Qed.

Lemma stage1_fails_fallback (sv : services) (query : string) :
  stage1_fails sv query -> intent_of sv query = fallback_intent query.
Proof.
  unfold stage1_fails, intent_of.
  destruct (generate_intent sv query) as [parsed|]; [|done].
  by destruct (parse_intent parsed).
Qed.

End intent.

(** C7 (amended).  When the [try] of stage 1 raises (the request fails,
    the reply is not JSON, the parsed reply is not an object, or its
    ["is_search"] is not a string), stage 1 ends normally, with [is_search]
    true, with the first three white-space separated tokens of the query,
    lowercased, as search terms, and with an acknowledgment that embeds the
    query.  The response of the run carries these terms and this
    acknowledgment, and the run goes on to search the index with these
    terms. *)
Theorem stage1_failure_recovered (sv : services) (query : string)
    (user_id : option string) (st : store) :
  stage1_fails sv query ->
  let terms := JArr (JStr <$> take 3 (Str.lower <$> Str.split query)) in
  let ack :=
    JStr ("I'll search for entries related to your query: " +:+ query) in
  stage1 sv query st
  = (Ok (Intent true terms ack), logged st [EvIntentRequest query]) /\
  (forall r st',
     mcp_search sv query user_id st = (Ok r, st') ->
     search_terms r = terms /\ stage1_response r = ack) /\
  (exists r st',
     mcp_search sv query user_id st = (Ok r, st') /\
     memory_used r = false /\
     algolia_hits r = hits_of sv user_id terms).
Proof.
  intros Hfails terms ack.
  pose proof (stage1_fails_fallback sv query Hfails) as Hintent.
  assert (fallback_intent query = Intent true terms ack) as Hfb.
  { unfold fallback_intent, terms. by rewrite split_lower. }
  rewrite Hfb in Hintent.
  split; [by rewrite stage1_run, Hintent|]. split.
  - intros r st' Hrun.
    apply mcp_search_stage1_fields in Hrun as (_ & -> & ->).
    by rewrite Hintent.
  - rewrite mcp_search_pipeline by (by rewrite ?Hintent).
    rewrite Hintent. simpl.
    destruct (summary_of_hits sv query user_id terms) as (s & -> & _).
    by eexists _, _.
Qed.

Lemma stage1_failure_recovered_witness :
  stage1_fails sv_down "Tell me  about my week" /\
  stage1 sv_down "Tell me  about my week" (Store Absent [])
  = (Ok (Intent true (JArr [JStr "tell"; JStr "me"; JStr "about"])
           (JStr "I'll search for entries related to your query: Tell me  about my week")),
     Store Absent [EvIntentRequest "Tell me  about my week"]).
Proof.
  split; [exact I|].
  exact (proj1 (stage1_failure_recovered sv_down "Tell me  about my week"
                  (Some "u1") (Store Absent []) I)).
Defined.

(** C7, as stated, fails: a reply with missing or malformed fields is no
    failure of stage 1.  When the service answers with an object that has
    none of the four fields, the fields take the defaults of the [get]
    calls: [is_search] is false, there is no search term and the
    acknowledgment is empty; the run does not search and ends with the
    empty acknowledgment as [final_summary].  When it answers with a number
    for the search terms, the number is handed on as it is: the response
    carries it in place of the tokens of the query, and no query goes to
    the index. *)
Lemma malformed_fields_not_recovered :
  (generate_intent sv_no_fields "Tell me about my week" = Some (JObj []) /\
   stage1 sv_no_fields "Tell me about my week" (Store Absent [])
   = (Ok (Intent false (JArr []) (JStr "")),
      Store Absent [EvIntentRequest "Tell me about my week"]) /\
   exists r st',
     mcp_search sv_no_fields "Tell me about my week" (Some "u1")
       (Store Absent [])
     = (Ok r, st') /\
     search_terms r = JArr [] /\
     search_terms r <> JArr [JStr "tell"; JStr "me"; JStr "about"] /\
     stage1_response r = JStr "" /\
     final_summary r = JStr "" /\
     index_queries (trace st') = []) /\
  (stage1 sv_odd_terms "Tell me about my week" (Store Absent [])
   = (Ok (Intent true (JNum 7) (JStr "")),
      Store Absent [EvIntentRequest "Tell me about my week"]) /\
   exists r st',
     mcp_search sv_odd_terms "Tell me about my week" (Some "u1")
       (Store Absent [])
     = (Ok r, st') /\
     search_terms r = JNum 7 /\
     search_terms r <> JArr [JStr "tell"; JStr "me"; JStr "about"] /\
     stage1_response r = JStr "" /\
     index_queries (trace st') = []).
Proof.
  split.
  - split; [reflexivity|]. split; [reflexivity|].
    eexists _, _. split; [vm_compute; reflexivity|done].
  - split; [reflexivity|].
    eexists _, _. split; [vm_compute; reflexivity|done].
Qed.

(** The three ways stage 1 fails: the request or the parse of the reply
    raises; the reply parses to a value that is not an object; the field
    ["is_search"] is not a string.  A reply whose ["search_terms"] or
    ["response"] has another type than expected raises nothing at stage 1
    and is passed on as it is. *)
Example stage1_fails_not_an_object :
  parse_intent (JArr [JStr "yes"]) = Raise (AttributeError "get").
Proof. reflexivity. Qed.

Example stage1_fails_flag_not_a_string :
  parse_intent (JObj [("is_search", JBool true);
                      ("search_terms", JArr [JStr "week"])])
  = Raise (AttributeError "strip").
Proof. reflexivity. Qed.

Example stage1_passes_odd_terms :
  parse_intent (JObj [("is_search", JStr " Yes "); ("search_terms", JNum 7)])
  = Ok (Intent true (JNum 7) (JStr "")).
Proof. reflexivity. Qed.

(** ** A failed query *)

Lemma index_queries_app (tr1 tr2 : list event) :
  index_queries (tr1 ++ tr2) = index_queries tr1 ++ index_queries tr2.
Proof. apply List.filter_app. Qed.

Lemma index_queries_reads (f : file_state) : index_queries (reads f) = [].
Proof. by destruct f. Qed.

Lemma index_queries_after_store (st : store) :
  index_queries (trace (after_store st)) = index_queries (trace st).
Proof.
  unfold after_store.
  destruct (memory_file st); simpl;
    rewrite index_queries_app; simpl; by rewrite app_nil_r.
Qed.

Lemma index_queries_issued (sv : services) (filters : string)
    (terms : list json) (k : nat) :
  index_queries (issued sv filters k terms) = issued sv filters k terms.
Proof.
  revert k. induction terms as [|t terms IH]; intros k; [done|]. simpl.
  f_equal. destruct (query_index sv k t filters); [apply IH|done].
Qed.

Lemma index_queries_after_stage4 (sv : services) (query : string)
    (user_id : option string) (st : store) :
  index_queries (trace (after_stage4 sv query user_id st))
  = index_queries (trace st)
    ++ index_queries
         (stage3_calls sv user_id (intent_terms (intent_of sv query))).
Proof.
  unfold after_stage4, after_stage2, logged. cbn [trace memory_file].
  rewrite !index_queries_app.
  change (EvIntentRequest query :: reads (memory_file st))
    with ([EvIntentRequest query] ++ reads (memory_file st)).
  rewrite index_queries_app, index_queries_reads. simpl.
  by rewrite !app_nil_r.
Qed.

(** No query is issued after one that fails. *)
Lemma issued_until_failure (sv : services) (filters : string)
    (terms : list json) :
  forall (k i : nat) (term : json),
    terms !! i = Some term ->
    query_index sv (k + i) term filters = None ->
    length (issued sv filters k terms) <= S i.
Proof.
  induction terms as [|t terms IH]; intros k i term; [done|].
  destruct i as [|i]; simpl.
  - intros [= ->]. rewrite Nat.add_0_r. intros ->. simpl. lia.
  - intros Hi Hq. rewrite Nat.add_succ_r in Hq.
    destruct (query_index sv k t filters); simpl; [|lia].
    pose proof (IH (S k) i term Hi Hq). lia.
Qed.

Lemma replies_failed (sv : services) (filters : string) (terms : list json) :
  forall (k i : nat) (term : json),
    terms !! i = Some term ->
    query_index sv (k + i) term filters = None ->
    replies sv filters k terms = None.
Proof.
  induction terms as [|t terms IH]; intros k i term; [done|].
  destruct i as [|i]; simpl.
  - intros [= ->]. rewrite Nat.add_0_r. by intros ->.
  - intros Hi Hq. rewrite Nat.add_succ_r in Hq.
    rewrite (IH (S k) i term Hi Hq). by destruct (query_index sv k t filters).
Qed.

(** C5.  In a run that reaches stage 3, when the query of one of the terms
    fails, the search is given up: no query is issued for the terms after
    it, the run still returns, and [algolia_hits] is the empty list, the
    hits the earlier terms brought being dropped. *)
Theorem failed_query_discards_hits (sv : services) (query : string)
    (user_id : option string) (st : store) (terms : list json) (i : nat)
    (term : json) :
  is_search (intent_of sv query) = true ->
  Py.iter (intent_terms (intent_of sv query)) = Ok terms ->
  terms !! i = Some term ->
  query_index sv i term (filter_str user_id) = None ->
  exists r st',
    mcp_search sv query user_id st = (Ok r, st') /\
    algolia_hits r = [] /\
    length (index_queries (trace st')) <= length (index_queries (trace st)) + S i.
Proof.
  intros Hsearch Hterms Hi Hfail.
  rewrite mcp_search_pipeline by done.
  destruct (summary_of_hits sv query user_id
              (intent_terms (intent_of sv query))) as (s & -> & _).
  eexists _, _. split; [done|]. simpl. split.
  - unfold hits_of. rewrite Hterms.
    by rewrite (replies_failed sv _ terms 0 i term Hi Hfail).
  - rewrite index_queries_after_store, index_queries_after_stage4.
    unfold stage3_calls. rewrite Hterms, index_queries_issued, length_app.
    pose proof (issued_until_failure sv _ terms 0 i term Hi Hfail). lia.
Qed.

Lemma failed_query_discards_hits_witness :
  query_index sv_second_query_fails 0 (JStr "sleep") "user_id:u1" <> None /\
  exists r st',
    mcp_search sv_second_query_fails "how do sleep and work relate"
      (Some "u1") (Store Absent [])
    = (Ok r, st') /\
    algolia_hits r = [] /\
    length (index_queries (trace st')) <= length (index_queries []) + 2.
Proof.
  split; [done|].
  apply (failed_query_discards_hits sv_second_query_fails
           "how do sleep and work relate" (Some "u1") (Store Absent [])
           [JStr "sleep"; JStr "work"] 1 (JStr "work"));
    reflexivity.
Defined.

(** ** No term to search for *)

(** C8 (amended).  In a run that reaches stage 3 with an empty list of
    search terms, no query goes to the index and the list of hits is empty;
    stage 4 still asks for a synthesis: [final_summary] is the text it
    returns, trimmed, and it is the template "No relevant entries found for
    your query." when the synthesis fails. *)
Theorem empty_terms_no_query (sv : services) (query : string)
    (user_id : option string) (st : store) :
  is_search (intent_of sv query) = true ->
  intent_terms (intent_of sv query) = JArr [] ->
  exists r st',
    mcp_search sv query user_id st = (Ok r, st') /\
    index_queries (trace st') = index_queries (trace st) /\
    algolia_hits r = [] /\
    final_summary r
    = match generate_summary sv query (JArr []) 0 [] with
      | Some text => JStr (Str.strip text)
      | None => JStr "No relevant entries found for your query."
      end.
Proof.
  intros Hsearch Hterms.
  rewrite mcp_search_pipeline by done.
  rewrite Hterms.
  assert (hits_of sv user_id (JArr []) = []) as Hhits by done.
  rewrite Hhits. unfold summary_of. simpl.
  assert (index_queries (trace (after_stage4 sv query user_id st))
          = index_queries (trace st)) as Hq.
  { rewrite index_queries_after_stage4, Hterms. simpl. by rewrite app_nil_r. }
  destruct (generate_summary sv query (JArr []) 0 []) as [text|];
    eexists _, _; (split; [done|]);
    by rewrite index_queries_after_store, Hq.
Qed.

Lemma empty_terms_no_query_witness :
  exists r st',
    mcp_search sv_no_terms "anything new" None (Store Absent [])
    = (Ok r, st') /\
    index_queries (trace st') = index_queries [] /\
    algolia_hits r = [] /\
    final_summary r = JStr "I could not find anything on that yet.".
Proof.
  apply (empty_terms_no_query sv_no_terms "anything new" None (Store Absent []));
    reflexivity.
Defined.

(** C8, as stated, fails: with no search term and a synthesis that answers,
    [final_summary] is the answer of the synthesis, not the template. *)
Lemma empty_terms_synthesis_answers :
  exists r st',
    mcp_search sv_no_terms "anything new" None (Store Absent []) = (Ok r, st') /\
    search_terms r = JArr [] /\
    algolia_hits r = [] /\
    final_summary r = JStr "I could not find anything on that yet." /\
    final_summary r <> JStr "No relevant entries found for your query.".
Proof. eexists _, _. split; [vm_compute; reflexivity|done]. Qed.

(** ** No search needed *)

(** C9.  When the intent extractor answers that no search is needed, the
    run ends after stage 2 with the acknowledgment of stage 1 as
    [final_summary], [memory_used] false and no hit, having made no call
    besides the extraction and the reading of the memory file, whatever
    this file holds: the memory check does not decide the outcome. *)
Theorem no_search_exit (sv : services) (query : string)
    (user_id : option string) (st : store) :
  is_search (intent_of sv query) = false ->
  exists r,
    mcp_search sv query user_id st
    = (Ok r, logged st (EvIntentRequest query :: reads (memory_file st))) /\
    final_summary r = stage1_response r /\
    stage1_response r = intent_response (intent_of sv query) /\
    memory_used r = false /\
    algolia_hits r = [].
Proof.
  intros Hno. rewrite mcp_search_no_search by done. by eexists.
Qed.

(** The witness runs on a log that holds an entry stored under "hello",
    which occurs in the query. *)
Lemma no_search_exit_witness :
  is_search (intent_of sv_no_search "hello there") = false /\
  entry_hits "hello there"
    (MemoryEntry "hello journal" ["hello"] "You greeted your journal."
       "2025-06-30T09:00:00") = true /\
  exists r,
    mcp_search sv_no_search "hello there" None
      (Store (Content (log_json hello_log)) [])
    = (Ok r, Store (Content (log_json hello_log))
               [EvIntentRequest "hello there"; EvMemoryRead]) /\
    final_summary r = stage1_response r /\
    stage1_response r = JStr "Hello! How can I help?" /\
    memory_used r = false /\
    algolia_hits r = [].
Proof.
  split; [reflexivity|]. split; [reflexivity|].
  exact (no_search_exit sv_no_search "hello there" None
           (Store (Content (log_json hello_log)) []) eq_refl).
Defined.

(** ** The memory check on a log *)

Section typed_log.
Variable query : string.

Lemma any_term_in_strings (terms : list string) :
  any_term_in (Str.lower query) (JStr <$> terms)
  = Ok (existsb (fun term => Str.contains (Str.lower term) (Str.lower query))
          terms).
Proof.
  induction terms as [|t terms IH]; [done|].
  rewrite fmap_cons. simpl.
  destruct (Str.contains (Str.lower t) (Str.lower query)); [done|].
  by rewrite IH.
Qed.

Lemma entry_matches_entry (e : memory_entry) :
  entry_matches (Str.lower query) (entry_json e) = Ok (entry_hits query e).
Proof. unfold entry_matches. simpl. apply any_term_in_strings. Qed.

(** The loop of the memory check, once it has the entries of a log, returns
    the first entry that the query hits. *)
Lemma scan_memory_first (log : list memory_entry) (e : memory_entry) :
  first_match query log e ->
  scan_memory (Str.lower query) (entry_json <$> log) = Ok (Some (entry_json e)).
Proof.
  intros (older & newer & -> & Hmiss & Hhit).
  rewrite fmap_app, fmap_cons.
  induction Hmiss as [|o older Ho _ IH];
    cbn [fmap list_fmap app scan_memory res_bind].
  - by rewrite entry_matches_entry, Hhit.
  - rewrite entry_matches_entry, Ho. cbn [res_bind]. exact IH.
Qed.

End typed_log.

(** C1.  The claim fails on the code.  The memory file holds a log of two
    entries, the older one stored under "Week"; the query "How was my
    WEEK?" hits it, it is the first entry hit, and the loop of the memory
    check, given the entries of the log, returns it.  The check does not
    get that far: [pyjson.load] raises, the handler returns [None], and the
    run goes through the stages: it queries the index, asks for a synthesis
    and calls the memory writer, and it ends with [memory_used] false and
    with the answer of the synthesis as [final_summary], not with the
    stored summary "A calm week.". *)
Theorem memory_hit_missed :
  first_match "How was my WEEK?" week_then_empty_log
    (MemoryEntry "how was my week" ["Week"] "A calm week."
       "2025-06-29T09:00:00") /\
  scan_memory (Str.lower "How was my WEEK?") (entry_json <$> week_then_empty_log)
  = Ok (Some (entry_json (MemoryEntry "how was my week" ["Week"]
                            "A calm week." "2025-06-29T09:00:00"))) /\
  _check_memory "How was my WEEK?" (JArr [JStr "week"])
    (Store (Content (log_json week_then_empty_log)) [])
  = (Ok None, Store (Content (log_json week_then_empty_log)) [EvMemoryRead]) /\
  mcp_search sv_week "How was my WEEK?" (Some "u1")
    (Store (Content (log_json week_then_empty_log)) [])
  = (Ok (Response "How was my WEEK?" (JArr [JStr "week"])
           (JStr "I'll look at your week.") [] (JStr "Nothing this week.")
           false "2025-07-01T10:00:00"),
     Store (Content (log_json week_then_empty_log))
       [EvIntentRequest "How was my WEEK?"; EvMemoryRead;
        EvIndexQuery (JStr "week") "user_id:u1"; EvSynthesisRequest [];
        EvMemoryRead]).
Proof.
  split.
  { exists [], [MemoryEntry "" [""] "Nothing to report." "2025-06-30T09:00:00"].
    by repeat split. }
  split; [reflexivity|]. split; [reflexivity|]. vm_compute. reflexivity.
Qed.

(** ** An entry stored under the empty term *)

Lemma contains_empty (hay : string) : Str.contains "" hay = true.
Proof. by destruct hay. Qed.

(** An entry stored under the empty term is hit by every query. *)
Lemma empty_term_hits (query : string) (e : memory_entry) :
  "" ∈ entry_search_terms e -> entry_hits query e = true.
Proof.
  intros Hin. unfold entry_hits. apply existsb_exists.
  exists "". split; [by apply list_elem_of_In|]. apply contains_empty.
Qed.

(** C10.  The claim fails on the code, by the defect of C1.  The log holds
    an entry stored under the empty term; the query "zebra" hits it and no
    other entry, and the loop of the memory check, given the entries of the
    log, returns it.  The check of the run returns [None], the reading of
    the file having raised, and the run ends with [memory_used] false and
    with the answer of the synthesis, not with the stored summary "Nothing
    to report.". *)
Theorem empty_term_not_recalled :
  first_match "zebra" week_then_empty_log
    (MemoryEntry "" [""] "Nothing to report." "2025-06-30T09:00:00") /\
  scan_memory (Str.lower "zebra") (entry_json <$> week_then_empty_log)
  = Ok (Some (entry_json (MemoryEntry "" [""] "Nothing to report."
                            "2025-06-30T09:00:00"))) /\
  _check_memory "zebra" (JArr [JStr "week"])
    (Store (Content (log_json week_then_empty_log)) [])
  = (Ok None, Store (Content (log_json week_then_empty_log)) [EvMemoryRead]) /\
  mcp_search sv_week "zebra" None
    (Store (Content (log_json week_then_empty_log)) [])
  = (Ok (Response "zebra" (JArr [JStr "week"])
           (JStr "I'll look at your week.") [] (JStr "Nothing this week.")
           false "2025-07-01T10:00:00"),
     Store (Content (log_json week_then_empty_log))
       [EvIntentRequest "zebra"; EvMemoryRead;
        EvIndexQuery (JStr "week") ""; EvSynthesisRequest [];
        EvMemoryRead]).
Proof.
  split.
  { exists [MemoryEntry "how was my week" ["Week"] "A calm week."
              "2025-06-29T09:00:00"], [].
    split; [done|]. split; [by repeat constructor|].
    by apply empty_term_hits, list_elem_of_singleton. }
  split; [reflexivity|]. split; [reflexivity|]. vm_compute. reflexivity.
Qed.

(** ** The memory writer *)

Lemma assoc_set_same (k : string) (v : json) (kvs : list (string * json)) :
  Py.assoc k (Py.assoc_set k v kvs) = Some v.
Proof.
  induction kvs as [|[k' v'] kvs IH]; simpl.
  - by rewrite String.eqb_refl.
  - destruct (String.eqb k k') eqn:E; simpl; rewrite ?String.eqb_refl, ?E; done.
Qed.

(** Calls of the memory writer in a row: none raises, and the file never
    comes to hold a log.  A file that exists stays as it is; an absent file
    is created by the first call and stays empty. *)
Lemma store_all_file (calls : list store_call) (st : store) :
  (store_all calls st).1 = Ok tt /\
  memory_file (store_all calls st).2
  = match calls, memory_file st with
    | _ :: _, Absent => Empty
    | _, f => f
    end.
Proof.
  revert st. induction calls as [|c calls IH]; intros st.
  - simpl. by destruct (memory_file st).
  - cbn [store_all]. unfold bind. rewrite store_memory_run.
    destruct (IH (after_store st)) as [H1 H2]. split; [exact H1|].
    rewrite H2. unfold after_store, logged.
    destruct st as [f tr]. destruct f; simpl; by destruct calls.
Qed.

(** A run that goes through the stages leaves the file as the memory
    writer leaves it. *)
Lemma mcp_search_stores (sv : services) (query : string)
    (user_id : option string) (st st' : store) (r : response) :
  is_search (intent_of sv query) = true ->
  mcp_search sv query user_id st = (Ok r, st') ->
  memory_file st'
  = match memory_file st with
    | Absent => Empty
    | f => f
    end.
Proof.
  intros Hsearch. rewrite mcp_search_pipeline by done.
  destruct (summary_of _ _ _ _) as [summary|]; [|done].
  intros [= _ <-]. unfold after_store, after_stage4, after_stage2, logged.
  destruct st as [f tr]. by destruct f.
Qed.

(** C6.  The claim fails on the code, by the defect of C1.  Called on an
    absent file, the memory writer opens the file for writing, which
    creates it, and [pyjson.dump] raises: the file is left empty, with no
    log and no entry.  Called on a file that holds a log, it raises at the
    reading and leaves the file as it is: nothing is cut and nothing is
    appended.  So 53 calls in a row from an absent file leave an empty
    file, not a log of 50 entries, and a run that goes through the five
    stages from an absent file leaves an empty file too. *)
Theorem memory_writer_writes_nothing :
  _store_memory "2025-07-01T10:00:02" "how was my week" (JArr [JStr "week"])
    (JStr "A calm week.") (Store Absent [])
  = (Ok tt, Store Empty [EvMemoryTruncate]) /\
  _store_memory "2025-07-01T10:00:02" "how was my week" (JArr [JStr "week"])
    (JStr "A calm week.") (Store (Content (log_json week_then_empty_log)) [])
  = (Ok tt, Store (Content (log_json week_then_empty_log)) [EvMemoryRead]) /\
  length sample_calls = 53 /\
  store_all sample_calls (Store Absent [])
  = (Ok tt, Store Empty (EvMemoryTruncate :: replicate 52 EvMemoryRead)) /\
  exists r st',
    mcp_search sv_week "how was my week" (Some "u1") (Store Absent [])
    = (Ok r, st') /\
    final_summary r = JStr "Nothing this week." /\
    memory_file st' = Empty.
Proof.
  split; [reflexivity|]. split; [reflexivity|]. split; [reflexivity|].
  split; [vm_compute; reflexivity|].
  eexists _, _. split; [vm_compute; reflexivity|done].
Qed.

(** ** The examples of the specification *)

(** Terms "sleep" and "work": the merged list is [A, B], with the first
    copy of A; A scores 3 by its title, B scores 2 by its summary. *)
Example merged_sleep_work :
  merged_hits [hit_A; hit_A_again; hit_B]
  = [clean_hit "1" hit_A; clean_hit "2" hit_B].
Proof. vm_compute. reflexivity. Qed.

Example scores_sleep_work :
  spec_score ["sleep"; "work"] (clean_hit "1" hit_A) = 3 /\
  spec_score ["sleep"; "work"] (clean_hit "2" hit_B) = 2.
Proof. split; reflexivity. Qed.

Example ranked_sleep_work :
  exists r st',
    mcp_search sv_sleep_work "how do sleep and work relate" (Some "u1")
      (Store Absent [])
    = (Ok r, st') /\
    algolia_hits r = [clean_hit "1" hit_A; clean_hit "2" hit_B] /\
    final_summary r
    = JStr "Found 2 relevant entries for your query about sleep, work.".
Proof. eexists _, _. split; [vm_compute; reflexivity|done]. Qed.

(** * The middlewares *)

(** ** The rate limiter *)

Section rate_limit_facts.
Context {T : Type}.
Variable recent : T -> T -> bool.

Lemma rate_limit_of_le (path : string) : rate_limit_of path <= 100.
Proof. unfold rate_limit_of. destruct (String.prefix _ _); lia. Qed.

Lemma filter_length_le {A} (f : A -> bool) (l : list A) :
  length (List.filter f l) <= length l.
Proof. induction l as [|a l IH]; simpl; [lia|]. destruct (f a); simpl; lia. Qed.

Lemma rate_limit_step_bound (environment : option string)
    (client_ip path : string) (current_time : T)
    (request_counts : gmap string (list T)) :
  (forall ip, length (request_counts !!! ip) <= 100) ->
  forall ip,
    length ((rate_limit_middleware recent environment client_ip path
               current_time request_counts).2 !!! ip) <= 100.
Proof.
  intros Hbound ip. unfold rate_limit_middleware.
  destruct (in_production environment); simpl; [|apply Hbound].
  rewrite lookup_total_insert_eq.
  pose proof (filter_length_le (recent current_time)
                (request_counts !!! client_ip)) as Hkept.
  pose proof (Hbound client_ip) as Hip.
  pose proof (rate_limit_of_le path) as Hlimit.
  destruct (Nat.leb_spec (rate_limit_of path)
              (length (List.filter (recent current_time)
                         (request_counts !!! client_ip)))) as [Hfull|Hroom];
    simpl.
  - destruct (decide (client_ip = ip)) as [->|Hne].
    + rewrite lookup_total_insert_eq. lia.
    + rewrite lookup_total_insert_ne by done. apply Hbound.
  - destruct (decide (client_ip = ip)) as [->|Hne].
    + rewrite lookup_total_insert_eq, length_app. simpl. lia.
    + rewrite !lookup_total_insert_ne by done. apply Hbound.
Qed.

Lemma serve_bound (environment : option string) (reqs : list (timed_request T)) :
  forall request_counts,
    (forall ip, length (request_counts !!! ip) <= 100) ->
    forall ip, length ((serve recent environment reqs request_counts).2 !!! ip)
               <= 100.
Proof.
  induction reqs as [|r reqs IH]; intros request_counts Hbound ip; simpl.
  - apply Hbound.
  - pose proof (rate_limit_step_bound environment (req_ip r) (req_path r)
                  (req_time r) request_counts Hbound) as Hstep.
    destruct (rate_limit_middleware recent environment (req_ip r) (req_path r)
                (req_time r) request_counts) as [v counts1].
    simpl in Hstep. specialize (IH counts1 Hstep ip).
    by destruct (serve recent environment reqs counts1).
Qed.

End rate_limit_facts.

Section rate_limit_window.
Context {T : Type}.
Variable recent : T -> T -> bool.
Variable le : T -> T -> Prop.
Hypothesis recent_mono :
  forall now now' t, le now now' -> recent now' t = true -> recent now t = true.

Lemma filter_recent_twice (now now' : T) (l : list T) :
  le now now' ->
  List.filter (recent now') (List.filter (recent now) l)
  = List.filter (recent now') l.
Proof using recent_mono.
  intros Hle. induction l as [|t l IH]; simpl; [done|].
  destruct (recent now t) eqn:Hnow; simpl.
  - destruct (recent now' t); by rewrite IH.
  - destruct (recent now' t) eqn:Hnow'; [|done].
    by rewrite (recent_mono _ _ _ Hle Hnow') in Hnow.
Qed.

Lemma passed_times_snoc (ip : string) (log : list (timed_request T * verdict))
    (r : timed_request T) (v : verdict) :
  passed_times ip (log ++ [(r, v)])
  = passed_times ip log
    ++ match v with
       | CallNext => if String.eqb (req_ip r) ip then [req_time r] else []
       | _ => []
       end.
Proof.
  unfold passed_times. rewrite omap_app. f_equal. simpl.
  destruct v; try done. by destruct (String.eqb (req_ip r) ip).
Qed.

Lemma rate_limit_step (log : list (timed_request T * verdict))
    (r : timed_request T) (request_counts : gmap string (list T)) :
  counts_agree recent le request_counts log ->
  Forall (fun p : timed_request T * verdict => le (req_time p.1) (req_time r)) log ->
  let out := rate_limit_middleware recent (Some "production") (req_ip r) (req_path r)
               (req_time r) request_counts in
  out.1 = verdict_due recent log r /\ counts_agree recent le out.2 (log ++ [(r, out.1)]).
Proof using recent_mono.
  intros Hagree Hbefore. cbn zeta.
  unfold rate_limit_middleware, verdict_due. simpl.
  rewrite lookup_total_insert_eq.
  rewrite (Hagree (req_ip r) (req_time r) Hbefore).
  destruct (rate_limit_of (req_path r) <=? _)%nat; simpl; (split; [done|]).
  - intros ip now Hnow. apply Forall_app in Hnow as [Hlog Hr].
    rewrite Forall_singleton in Hr. simpl in Hr.
    rewrite passed_times_snoc, app_nil_r.
    destruct (decide (req_ip r = ip)) as [<-|Hne].
    + rewrite lookup_total_insert_eq. by apply filter_recent_twice.
    + rewrite lookup_total_insert_ne by done. by apply Hagree.
  - intros ip now Hnow. apply Forall_app in Hnow as [Hlog Hr].
    rewrite Forall_singleton in Hr. simpl in Hr.
    rewrite passed_times_snoc.
    destruct (decide (req_ip r = ip)) as [<-|Hne].
    + rewrite lookup_total_insert_eq, String.eqb_refl.
      rewrite !List.filter_app. f_equal. by apply filter_recent_twice.
    + rewrite !lookup_total_insert_ne by done.
      apply String.eqb_neq in Hne. rewrite Hne, app_nil_r. by apply Hagree.
Qed.

Lemma serve_due (reqs : list (timed_request T)) :
  forall (log0 : list (timed_request T * verdict))
         (request_counts : gmap string (list T)),
    counts_agree recent le request_counts log0 ->
    Forall (fun p : timed_request T * verdict =>
              Forall (fun r => le (req_time p.1) (req_time r)) reqs) log0 ->
    StronglySorted le (req_time <$> reqs) ->
    forall k r v,
      (serve recent (Some "production") reqs request_counts).1 !! k = Some (r, v) ->
      v = verdict_due recent
            (log0 ++ take k (serve recent (Some "production") reqs request_counts).1) r.
Proof using recent_mono.
  induction reqs as [|r0 reqs IH]; intros log0 counts Hagree Hbefore Hsorted;
    [done|].
  rewrite fmap_cons in Hsorted. apply StronglySorted_inv in Hsorted as [Hs Hr0].
  rewrite Forall_fmap in Hr0.
  assert (Forall (fun p : timed_request T * verdict =>
                    le (req_time p.1) (req_time r0)) log0) as Hb0.
  { eapply Forall_impl; [exact Hbefore|]. intros p Hp.
    by apply Forall_cons in Hp as [? _]. }
  destruct (rate_limit_step log0 r0 counts Hagree Hb0) as [Hv Hagree1].
  simpl.
  destruct (rate_limit_middleware recent (Some "production") (req_ip r0) (req_path r0)
              (req_time r0) counts) as [v0 counts1] eqn:Hstep.
  simpl in Hv, Hagree1.
  assert (Forall (fun p : timed_request T * verdict =>
                    Forall (fun r => le (req_time p.1) (req_time r)) reqs)
            (log0 ++ [(r0, v0)])) as Hb1.
  { apply Forall_app. split.
    - eapply Forall_impl; [exact Hbefore|]. intros p Hp.
      by apply Forall_cons in Hp as [_ ?].
    - apply Forall_singleton. exact Hr0. }
  specialize (IH (log0 ++ [(r0, v0)]) counts1 Hagree1 Hb1 Hs).
  destruct (serve recent (Some "production") reqs counts1) as [log counts2] eqn:Hserve.
  simpl in *. intros [|k] r v Hk; simpl in *.
  - injection Hk as <- <-. by rewrite app_nil_r.
  - rewrite (IH k r v Hk), <-app_assoc. done.
Qed.

End rate_limit_window.

Lemma serve_requests {T} (recent : T -> T -> bool)
    (environment : option string) (reqs : list (timed_request T)) :
  forall request_counts,
    (serve recent environment reqs request_counts).1.*1 = reqs.
Proof.
  induction reqs as [|r reqs IH]; intros request_counts; [done|]. simpl.
  destruct (rate_limit_middleware recent environment (req_ip r) (req_path r)
              (req_time r) request_counts) as [v counts1].
  specialize (IH counts1).
  destruct (serve recent environment reqs counts1) as [log counts2].
  cbn [fst] in *. rewrite fmap_cons. cbn [fst]. by rewrite IH.
Qed.

(** X1.  In production, with a clock that does not go back, the limiter
    starting from empty counts refuses a request with status 429 exactly
    when the requests of the same client that it handed on before and that
    are less than 60 seconds old number at least the limit of the path (10
    under [/auth/], 100 elsewhere), and hands it on otherwise.  The requests
    it refused do not count, and the requests to the two kinds of path are
    counted together. *)
Theorem rate_limit_verdicts {T} (recent : T -> T -> bool)
    (le : T -> T -> Prop) (reqs : list (timed_request T)) :
  (forall now now' t,
     le now now' -> recent now' t = true -> recent now t = true) ->
  StronglySorted le (req_time <$> reqs) ->
  let log := (serve recent (Some "production") reqs ∅).1 in
  log.*1 = reqs /\
  forall k r v,
    log !! k = Some (r, v) ->
    let before :=
      List.filter (recent (req_time r)) (passed_times (req_ip r) (take k log)) in
    if (rate_limit_of (req_path r) <=? length before)%nat
    then v = Rejected 429 "Too many requests"
    else v = CallNext.
Proof.
  intros Hmono Hsorted log. subst log. split; [apply serve_requests|].
  intros k r v Hk.
  assert (counts_agree recent le (∅ : gmap string (list T)) []) as Hagree.
  { intros ip now _. by rewrite lookup_total_empty. }
  rewrite (serve_due recent le Hmono reqs [] ∅ Hagree (Forall_nil_2 _) Hsorted
             k r v Hk).
  unfold verdict_due. simpl. by destruct (_ <=? _)%nat.
Qed.

Lemma rate_limit_verdicts_witness :
  StronglySorted Z.le (req_time <$> sample_requests) /\
  (serve seconds_recent (Some "production") sample_requests ∅).1.*2
  = replicate 10 CallNext
    ++ [Rejected 429 "Too many requests"; CallNext; CallNext] /\
  forall k r v,
    (serve seconds_recent (Some "production") sample_requests ∅).1 !! k
    = Some (r, v) ->
    if (rate_limit_of (req_path r)
        <=? length
              (List.filter (seconds_recent (req_time r))
                 (passed_times (req_ip r)
                    (take k (serve seconds_recent (Some "production")
                               sample_requests ∅).1))))%nat
    then v = Rejected 429 "Too many requests"
    else v = CallNext.
Proof.
  assert (StronglySorted Z.le (req_time <$> sample_requests)) as Hsorted.
  { apply (bool_decide_unpack _). vm_compute. exact I. }
  split; [exact Hsorted|]. split; [vm_compute; reflexivity|].
  apply (rate_limit_verdicts seconds_recent Z.le sample_requests);
    [|exact Hsorted].
  intros now now' t Hle. unfold seconds_recent.
  rewrite !Z.ltb_lt. lia.
Defined.

(** X2.  Whatever the environment and the requests, the limiter never
    holds more than 100 times for one client. *)
Theorem rate_limit_bound {T} (recent : T -> T -> bool)
    (environment : option string) (reqs : list (timed_request T))
    (client_ip : string) :
  length ((serve recent environment reqs ∅).2 !!! client_ip) <= 100.
Proof.
  apply serve_bound. intros ip. rewrite lookup_total_empty. simpl. lia.
Qed.

(** ** The security middleware *)

Section security.

Lemma bearer_header_spec (request : http_request) :
  bearer_header (header_get "Authorization" (request_headers request)) = true
  <-> has_bearer request.
Proof.
  unfold bearer_header, has_bearer.
  destruct (header_get _ _) as [h|]; split.
  - intros [_ H]%andb_true_iff. by exists h.
  - intros (h' & [= <-] & Hp). apply andb_true_iff. split; [|done].
    by destruct h.
  - done.
  - by intros (h & ? & _).
Qed.

Lemma names_agent_spec (request : http_request) :
  (let user_agent :=
     default "" (header_get "user-agent" (request_headers request)) in
   String.eqb user_agent "" || (String.length user_agent <? 10)%nat) = false
  <-> names_agent request.
Proof.
  unfold names_agent. cbn zeta.
  destruct (header_get _ _) as [ua|]; simpl; split.
  - intros [_ H]%orb_false_iff. apply Nat.ltb_ge in H. by exists ua.
  - intros (ua' & [= <-] & Hlen). apply orb_false_iff. split.
    + destruct ua; [simpl in Hlen; lia|done].
    + by apply Nat.ltb_ge.
  - done.
  - by intros (ua & ? & _).
Qed.

Lemma local_address_spec (value : string) :
  local_address value = true <->
  exists p, p ∈ ["127."; "10."; "172."; "192."] /\ String.prefix p value = true.
Proof.
  unfold local_address. rewrite existsb_exists. split.
  - intros (p & Hin & Hp). exists p. by rewrite list_elem_of_In.
  - intros (p & Hin & Hp). exists p. by rewrite <-list_elem_of_In.
Qed.

Lemma forwarded_locally_spec (request : http_request) :
  existsb (suspicious (request_headers request)) suspicious_headers = false
  <-> forwarded_locally request.
Proof.
  unfold forwarded_locally. rewrite <-not_true_iff_false, existsb_exists.
  split.
  - intros Hnone header value Hin Hget. apply local_address_spec.
    destruct (local_address value) eqn:Hlocal; [done|].
    exfalso. apply Hnone. exists header. split; [by apply list_elem_of_In|].
    unfold suspicious. by rewrite Hget, Hlocal.
  - intros Hall (header & Hin & Hsus). unfold suspicious in Hsus.
    destruct (header_get header _) as [value|] eqn:Hget; [|done].
    apply list_elem_of_In in Hin.
    apply (Hall header value Hin) in Hget. apply local_address_spec in Hget.
    by rewrite Hget in Hsus.
Qed.

Lemma exempt_spec (environment : option string) (request : http_request) :
  exempt environment request <->
  negb (in_production environment)
  || String.prefix "/auth/" (request_path request)
  || String.eqb (request_path request) "/health"
  || String.eqb (request_path request) "/daily-prompt" = true.
Proof.
  unfold exempt, in_production.
  rewrite !orb_true_iff, negb_true_iff, bool_decide_eq_false, !String.eqb_eq.
  tauto.
Qed.

End security.

Local Ltac table_case :=
  repeat split; try done; try tauto; try (by intuition auto 10).

(** X3.  The table of the security middleware.  A request is handed on
    exactly when it is not checked: the server is not in production, or the
    path is under [/auth/], is [/health] or is [/daily-prompt].  A checked
    request is refused with status 401 exactly when it has no
    [Authorization] header that starts with "Bearer ", whatever its other
    headers; it is refused with status 403 exactly when it has one and its
    user agent is missing or shorter than 10 characters, or one of its
    forwarding headers does not start with "127.", "10.", "172." or "192.".
    A checked request that passes the three checks is not handed on
    either: the middleware raises AttributeError where it sets the
    security headers. *)
Theorem security_table (environment : option string) (request : http_request) :
  let v := security_middleware environment request in
  (v = CallNext <-> exempt environment request) /\
  (v = Rejected 401 "Authentication required" <->
   ~ exempt environment request /\ ~ has_bearer request) /\
  (v = Rejected 403 "Invalid request" <->
   ~ exempt environment request /\ has_bearer request /\
   ~ (names_agent request /\ forwarded_locally request)) /\
  (v = RaisesAttributeError <->
   ~ exempt environment request /\ has_bearer request /\
   names_agent request /\ forwarded_locally request) /\
  (v = CallNext \/ v = RaisesAttributeError \/
   v = Rejected 401 "Authentication required" \/
   v = Rejected 403 "Invalid request").
Proof.
  cbn zeta.
  pose proof (exempt_spec environment request) as Hex.
  pose proof (bearer_header_spec request) as Hb.
  pose proof (names_agent_spec request) as Ha.
  pose proof (forwarded_locally_spec request) as Hf.
  unfold security_middleware. cbn zeta in *.
  destruct (negb (in_production environment)); simpl in Hex.
  { table_case. }
  destruct (String.prefix "/auth/" (request_path request)); simpl in Hex.
  { table_case. }
  destruct (String.eqb (request_path request) "/health"); simpl in Hex.
  { table_case. }
  destruct (String.eqb (request_path request) "/daily-prompt"); simpl in Hex.
  { table_case. }
  assert (~ exempt environment request) as Hne by (rewrite Hex; done).
  destruct (bearer_header _); cbn [negb].
  2:{ assert (~ has_bearer request) by (rewrite <-Hb; done).
      table_case. }
  assert (has_bearer request) by (by apply Hb).
  destruct (String.eqb _ "" || _).
  { assert (~ names_agent request) by (rewrite <-Ha; done).
    table_case. }
  assert (names_agent request) by (by apply Ha).
  destruct (existsb _ suspicious_headers).
  { assert (~ forwarded_locally request) by (rewrite <-Hf; done).
    table_case. }
  assert (forwarded_locally request) by (by apply Hf).
  table_case.
Qed.

(** X4.  In production, a request to a checked path that has a Bearer
    header and a user agent of 10 characters at least, and that carries the
    header [x-forwarded-proto] with a value that does not start with
    "127.", "10.", "172." or "192." (the name of a scheme, as proxies set
    it), is refused with status 403 and the detail "Invalid request". *)
Theorem forwarded_proto_refused (request : http_request) (value : string) :
  ~ exempt (Some "production") request ->
  has_bearer request ->
  names_agent request ->
  header_get "x-forwarded-proto" (request_headers request) = Some value ->
  local_address value = false ->
  security_middleware (Some "production") request
  = Rejected 403 "Invalid request".
Proof.
  intros Hne Hbearer Hagent Hget Hlocal.
  assert (existsb (suspicious (request_headers request)) suspicious_headers
          = true) as Hsus.
  { apply existsb_exists. exists "x-forwarded-proto". split.
    - unfold suspicious_headers. simpl. tauto.
    - unfold suspicious. by rewrite Hget, Hlocal. }
  rewrite exempt_spec in Hne. apply not_true_is_false in Hne.
  apply orb_false_iff in Hne as [Hne H4].
  apply orb_false_iff in Hne as [Hne H3].
  apply orb_false_iff in Hne as [H1 H2].
  apply bearer_header_spec in Hbearer. apply names_agent_spec in Hagent.
  cbn zeta in Hagent.
  unfold security_middleware. cbn zeta.
  by rewrite H1, H2, H3, H4, Hbearer, Hagent, Hsus.
Qed.

Lemma forwarded_proto_refused_witness :
  ~ exempt (Some "production") sample_proxied_request /\
  security_middleware (Some "production") sample_proxied_request
  = Rejected 403 "Invalid request".
Proof.
  assert (~ exempt (Some "production") sample_proxied_request) as Hne.
  { intros [H|[H|[H|H]]]; [by apply H|discriminate H..]. }
  split; [exact Hne|].
  apply (forwarded_proto_refused sample_proxied_request "https" Hne).
  - by eexists.
  - eexists. split; [reflexivity|]. simpl. lia.
  - reflexivity.
  - reflexivity.
Defined.

(** * The streaks of the usage statistics *)

Section streaks.

Lemma insert_date_perm (d : Z) (l : list Z) : insert_date d l ≡ₚ d :: l.
Proof.
  induction l as [|y l IH]; simpl; [done|].
  destruct (d <? y)%Z; [|done]. rewrite IH. apply Permutation_swap.
Qed.

Lemma sort_dates_perm (l : list Z) : sort_dates_reverse l ≡ₚ l.
Proof.
  induction l as [|d l IH]; simpl; [done|].
  by rewrite insert_date_perm, IH.
Qed.

Lemma insert_date_sorted (d : Z) (l : list Z) :
  StronglySorted (fun a b => (b <= a)%Z) l ->
  StronglySorted (fun a b => (b <= a)%Z) (insert_date d l).
Proof.
  induction 1 as [|y l Hl IH Hy]; simpl; [repeat constructor|].
  destruct (Z.ltb_spec d y).
  - constructor; [done|]. rewrite insert_date_perm.
    constructor; [lia|done].
  - constructor; [by constructor|]. constructor; [done|].
    eapply Forall_impl; [exact Hy|]. simpl. lia.
Qed.

Lemma sort_dates_sorted (l : list Z) :
  StronglySorted (fun a b => (b <= a)%Z) (sort_dates_reverse l).
Proof.
  induction l as [|d l IH]; simpl; [constructor|]. by apply insert_date_sorted.
Qed.

(** A list in descending order that holds no day twice goes strictly
    down. *)
Lemma sorted_nodup_strict (l : list Z) :
  StronglySorted (fun a b => (b <= a)%Z) l -> NoDup l ->
  StronglySorted (fun a b => (b < a)%Z) l.
Proof.
  induction 1 as [|y l Hl IH Hy]; intros Hnd; [constructor|].
  apply NoDup_cons in Hnd as [Hy' Hnd]. constructor; [by apply IH|].
  rewrite Forall_forall in Hy |- *. intros x Hx.
  specialize (Hy x Hx). simpl in Hy.
  assert (x <> y) by (by intros ->). lia.
Qed.

(** The loop of the current streak. *)
Lemma extend_streak_run (dates : list Z) (fuel : nat) :
  forall (check_date : Z) (current_streak result : nat),
    extend_streak fuel dates check_date current_streak = Some result ->
    exists k : nat,
      result = current_streak + k /\
      (forall i : nat, i < k -> (check_date - Z.of_nat i)%Z ∈ dates) /\
      (check_date - Z.of_nat k)%Z ∉ dates.
Proof.
  induction fuel as [|fuel IH]; intros check c result; simpl; [done|].
  case_bool_decide as Hin.
  - intros (k & -> & Hrun & Hend)%IH. exists (S k). split; [lia|]. split.
    + intros [|i] Hi.
      * by rewrite Z.sub_0_r.
      * replace (check - Z.of_nat (S i))%Z with (check - 1 - Z.of_nat i)%Z by lia.
        apply Hrun. lia.
    + by replace (check - Z.of_nat (S k))%Z with (check - 1 - Z.of_nat k)%Z by lia.
  - intros [= <-]. exists 0. split; [lia|]. split.
    + intros i Hi. lia.
    + by rewrite Z.sub_0_r.
Qed.

(** It ends: the days it goes through are in the list, and are distinct. *)
Lemma days_in_list (dates : list Z) (d : Z) (j : nat) :
  (forall i : nat, 1 <= i <= j -> (d + Z.of_nat i)%Z ∈ dates) -> j <= length dates.
Proof.
  intros Hin.
  assert (NoDup ((fun i : nat => (d + Z.of_nat i)%Z) <$> seq 1 j)) as Hnd.
  { apply NoDup_fmap_2; [|apply NoDup_seq]. intros a b. lia. }
  assert ((fun i : nat => (d + Z.of_nat i)%Z) <$> seq 1 j ⊆+ dates) as Hsub.
  { apply NoDup_submseteq; [done|].
    intros x (i & -> & Hi%elem_of_seq)%list_elem_of_fmap. apply Hin. lia. }
  apply submseteq_length in Hsub. by rewrite length_fmap, length_seq in Hsub.
Qed.

Lemma extend_streak_ends (dates : list Z) (fuel : nat) :
  forall (check_date : Z) (current_streak j : nat),
    (forall i : nat, 1 <= i <= j -> (check_date + Z.of_nat i)%Z ∈ dates) ->
    length dates < j + fuel ->
    is_Some (extend_streak fuel dates check_date current_streak).
Proof.
  induction fuel as [|fuel IH]; intros check c j Hseen Hfuel; simpl.
  - pose proof (days_in_list dates check j Hseen). lia.
  - case_bool_decide as Hin; [|done].
    apply (IH _ _ (S j)); [|lia].
    intros i Hi. destruct (decide (i = 1)) as [->|].
    + by replace (check - 1 + Z.of_nat 1)%Z with check by lia.
    + replace (check - 1 + Z.of_nat i)%Z with (check + Z.of_nat (i - 1))%Z by lia.
      apply Hseen. lia.
Qed.

End streaks.

Section highest_streak.

Lemma highest_loop_ge (l : list Z) :
  forall prev temp highest, highest <= highest_loop l prev temp highest.
Proof.
  induction l as [|x l IH]; intros prev temp highest; simpl; [lia|].
  etrans; [|apply IH]. destruct (_ <? _)%nat eqn:E; [|lia].
  apply Nat.ltb_lt in E. lia.
Qed.

(** Every run of days of the list is counted.  [prev] is the day the loop
    has just left; when the run goes on from it, the count goes on. *)
Lemma highest_loop_counts (l : list Z) :
  forall (prev : option Z) (temp highest : nat),
    StronglySorted (fun a b => (b < a)%Z) l ->
    (forall p, prev = Some p -> Forall (fun x => (x < p)%Z) l) ->
    forall (d : Z) (n : nat),
      1 <= n ->
      (forall i : nat, i < n -> (d - Z.of_nat i)%Z ∈ l) ->
      (prev = Some (d + 1)%Z -> n + temp <= highest_loop l prev temp highest) /\
      n <= highest_loop l prev temp highest.
Proof.
  induction l as [|x l IH]; intros prev temp highest Hsorted Hprev d n Hn Hrun.
  { specialize (Hrun 0 ltac:(lia)). by apply elem_of_nil in Hrun. }
  apply StronglySorted_inv in Hsorted as [Hsorted Hx].
  simpl.
  set (temp' := match prev with
                | None => 1
                | Some p => if (p - x =? 1)%Z then S temp else 1
                end).
  set (highest' := if (highest <? temp')%nat then temp' else highest).
  assert (1 <= temp') as Htemp'.
  { unfold temp'. destruct prev as [p|]; [|lia]. destruct (_ =? _)%Z; lia. }
  assert (temp' <= highest') as Hhighest'.
  { unfold highest'. destruct (Nat.ltb_spec highest temp'); lia. }
  assert (d <= x)%Z as Hdx.
  { specialize (Hrun 0 ltac:(lia)). rewrite Z.sub_0_r in Hrun.
    apply elem_of_cons in Hrun as [->|Hin]; [lia|].
    rewrite Forall_forall in Hx. specialize (Hx d Hin). simpl in Hx. lia. }
  assert (forall i : nat, i < n -> (d - Z.of_nat i)%Z <> x ->
                          (d - Z.of_nat i)%Z ∈ l) as Hrest.
  { intros i Hi Hne. specialize (Hrun i Hi).
    by apply elem_of_cons in Hrun as [?|?]. }
  destruct (decide (d = x)) as [->|Hne].
  - assert (prev = Some (x + 1)%Z -> temp' = S temp) as Hcont.
    { intros ->. unfold temp'.
      by replace (x + 1 - x =? 1)%Z with true by (symmetry; apply Z.eqb_eq; lia). }
    destruct (decide (n = 1)) as [->|Hn1].
    + pose proof (highest_loop_ge l (Some x) temp' highest'). split; [|lia].
      intros Hp. rewrite (Hcont Hp) in *. lia.
    + destruct (IH (Some x) temp' highest' Hsorted) with (d := (x - 1)%Z)
        (n := n - 1) as [Hgo _].
      * intros p [= <-]. exact Hx.
      * lia.
      * intros i Hi.
        replace (x - 1 - Z.of_nat i)%Z with (x - Z.of_nat (S i))%Z by lia.
        apply Hrest; lia.
      * specialize (Hgo ltac:(f_equal; lia)). split; [|lia].
        intros Hp. rewrite (Hcont Hp) in *. lia.
  - destruct (IH (Some x) temp' highest' Hsorted) with (d := d) (n := n)
      as [_ Hle].
    + intros p [= <-]. exact Hx.
    + done.
    + intros i Hi. apply Hrest; lia.
    + split; [|done]. intros ->.
      specialize (Hprev _ eq_refl). apply Forall_cons in Hprev as [? _]. lia.
Qed.

(** The count of the loop is the length of a run of days of the list. *)
Lemma highest_loop_achieved (all : list Z) (l : list Z) :
  forall (prev : option Z) (temp highest : nat),
    l ⊆ all ->
    match prev with
    | Some p => forall i : nat, i < temp -> (p + Z.of_nat i)%Z ∈ all
    | None => temp = 0
    end ->
    (exists d, forall i : nat, i < highest -> (d - Z.of_nat i)%Z ∈ all) ->
    exists d,
      forall i : nat,
        i < highest_loop l prev temp highest -> (d - Z.of_nat i)%Z ∈ all.
Proof.
  induction l as [|x l IH]; intros prev temp highest Hsub Hprev Hhigh;
    [done|].
  simpl.
  set (temp' := match prev with
                | None => 1
                | Some p => if (p - x =? 1)%Z then S temp else 1
                end).
  assert (x ∈ all) as Hx by (apply Hsub; by left).
  assert (forall i : nat, i < temp' -> (x + Z.of_nat i)%Z ∈ all) as Hrun.
  { unfold temp'. destruct prev as [p|].
    - destruct (Z.eqb_spec (p - x) 1) as [Hpx|_].
      + intros [|i] Hi; [by rewrite Z.add_0_r|].
        replace (x + Z.of_nat (S i))%Z with (p + Z.of_nat i)%Z by lia.
        apply Hprev. lia.
      + intros i Hi. replace i with 0 by lia. by rewrite Z.add_0_r.
    - intros i Hi. replace i with 0 by lia. by rewrite Z.add_0_r. }
  apply IH.
  - intros y Hy. apply Hsub. by right.
  - exact Hrun.
  - destruct (highest <? temp')%nat; [|done].
    exists (x + Z.of_nat temp' - 1)%Z. intros i Hi.
    replace (x + Z.of_nat temp' - 1 - Z.of_nat i)%Z
      with (x + Z.of_nat (temp' - 1 - i))%Z by lia.
    apply Hrun. lia.
Qed.

End highest_streak.

Lemma streaks_value (today : Z) (rows : list session_row) :
  let dates := valid_session_dates rows in
  exists current,
    streaks today rows
    = Some (current, highest_loop (sort_dates_reverse dates) None 0 0) /\
    (today ∈ dates -> 1 <= current /\ run_ending dates today current) /\
    (today ∉ dates -> (today - 1)%Z ∈ dates ->
     1 <= current /\ run_ending dates (today - 1)%Z current) /\
    (today ∉ dates -> (today - 1)%Z ∉ dates -> current = 0).
Proof.
  intros dates. unfold streaks. fold dates.
  pose proof (sort_dates_perm dates) as Hperm.
  destruct (sort_dates_reverse dates) as [|x sorted] eqn:Hsorted.
  { apply Permutation_nil_l in Hperm. rewrite <-Hperm. exists 0.
    split; [done|]. split; [by intros ?%elem_of_nil|].
    split; [by intros _ ?%elem_of_nil|done]. }
  rewrite <-Hsorted in *. clear x sorted Hsorted.
  set (sorted := sort_dates_reverse dates) in *.
  assert (forall start,
            start ∈ sorted ->
            exists current,
              extend_streak (S (length sorted)) sorted (start - 1)%Z 1
              = Some current /\
              1 <= current /\ run_ending dates start current) as Hloop.
  { intros start Hstart.
    destruct (extend_streak_ends sorted (S (length sorted)) (start - 1)%Z 1 1)
      as [current Hcurrent].
    - intros i Hi. replace i with 1 by lia.
      by replace (start - 1 + Z.of_nat 1)%Z with start by lia.
    - lia.
    - exists current. split; [done|].
      apply extend_streak_run in Hcurrent as (k & -> & Hrun & Hend).
      split; [lia|]. split.
      + intros [|i] Hi.
        * rewrite Z.sub_0_r, <-Hperm. exact Hstart.
        * replace (start - Z.of_nat (S i))%Z
            with (start - 1 - Z.of_nat i)%Z by lia.
          rewrite <-Hperm. apply Hrun. lia.
      + replace (start - Z.of_nat (1 + k))%Z
          with (start - 1 - Z.of_nat k)%Z by lia.
        by rewrite <-Hperm. }
  unfold streak_start.
  destruct (decide (today ∈ dates)) as [Htoday|Htoday].
  - rewrite bool_decide_eq_true_2 by (by rewrite Hperm).
    destruct (Hloop today) as (current & -> & Hone & Hrun);
      [by rewrite Hperm|].
    exists current. simpl. split; [done|]. split; [done|]. split; done.
  - rewrite bool_decide_eq_false_2 by (by rewrite Hperm).
    destruct (decide ((today - 1)%Z ∈ dates)) as [Hyest|Hyest].
    + rewrite bool_decide_eq_true_2 by (by rewrite Hperm).
      destruct (Hloop (today - 1)%Z) as (current & -> & Hone & Hrun);
        [by rewrite Hperm|].
      exists current. simpl. split; [done|]. split; [done|]. split; done.
    + rewrite bool_decide_eq_false_2 by (by rewrite Hperm).
      exists 0. simpl. split; [done|]. split; [done|]. split; done.
Qed.

(** X5.  The statistics always come out, and the current streak is the
    number of days in a row, up to today, that have a session with a title
    and a summary; when today has none, it is counted up to yesterday; when
    yesterday has none either, it is 0.  The day before the streak has no
    such session. *)
Theorem current_streak_counts (today : Z) (rows : list session_row) :
  let dates := valid_session_dates rows in
  exists current highest,
    streaks today rows = Some (current, highest) /\
    (today ∈ dates -> 1 <= current /\ run_ending dates today current) /\
    (today ∉ dates -> (today - 1)%Z ∈ dates ->
     1 <= current /\ run_ending dates (today - 1)%Z current) /\
    (today ∉ dates -> (today - 1)%Z ∉ dates -> current = 0).
Proof.
  intros dates.
  destruct (streaks_value today rows) as (current & Heq & H).
  by exists current, (highest_loop (sort_dates_reverse dates) None 0 0).
Qed.

(** X6.  When no two sessions with a title and a summary fall on the same
    day, the highest streak is the length of the longest run of days in a
    row that have such a session: every run is at most as long, one run is
    as long; and the current streak is not above the highest. *)
Theorem highest_streak_longest (today : Z) (rows : list session_row)
    (current highest : nat) :
  let dates := valid_session_dates rows in
  NoDup dates ->
  streaks today rows = Some (current, highest) ->
  (forall d n,
     (forall i : nat, i < n -> (d - Z.of_nat i)%Z ∈ dates) -> n <= highest) /\
  (exists d, forall i : nat, i < highest -> (d - Z.of_nat i)%Z ∈ dates) /\
  current <= highest.
Proof.
  intros dates Hnd Hstreaks.
  destruct (streaks_value today rows) as (current' & Heq & Htoday & Hyest & Hnone).
  fold dates in Heq, Htoday, Hyest, Hnone.
  rewrite Hstreaks in Heq. injection Heq as <- ->.
  pose proof (sort_dates_perm dates) as Hperm.
  assert (StronglySorted (fun a b => (b < a)%Z) (sort_dates_reverse dates))
    as Hstrict.
  { apply sorted_nodup_strict; [apply sort_dates_sorted|by rewrite Hperm]. }
  assert (forall d n,
            (forall i : nat, i < n -> (d - Z.of_nat i)%Z ∈ dates) ->
            n <= highest_loop (sort_dates_reverse dates) None 0 0) as Hall.
  { intros d n Hrun. destruct (decide (n = 0)) as [->|Hn]; [lia|].
    apply (highest_loop_counts _ None 0 0 Hstrict) with (d := d);
      [done|lia|].
    intros i Hi. rewrite Hperm. by apply Hrun. }
  split; [exact Hall|]. split.
  - destruct (highest_loop_achieved dates (sort_dates_reverse dates) None 0 0)
      as [d Hd].
    + intros y Hy. by rewrite <-Hperm.
    + done.
    + exists 0%Z. intros i Hi. lia.
    + by exists d.
  - destruct (decide (today ∈ dates)) as [Ht|Ht].
    + destruct (Htoday Ht) as (_ & Hrun & _). by apply (Hall today).
    + destruct (decide ((today - 1)%Z ∈ dates)) as [Hy|Hy].
      * destruct (Hyest Ht Hy) as (_ & Hrun & _).
        by apply (Hall (today - 1)%Z).
      * rewrite (Hnone Ht Hy). lia.
Qed.

Lemma highest_streak_longest_witness :
  NoDup (valid_session_dates sample_rows) /\
  streaks 100 sample_rows = Some (3, 3) /\
  (forall d n,
     (forall i : nat, i < n ->
        (d - Z.of_nat i)%Z ∈ valid_session_dates sample_rows) -> n <= 3) /\
  (exists d,
     forall i : nat,
       i < 3 -> (d - Z.of_nat i)%Z ∈ valid_session_dates sample_rows) /\
  3 <= 3.
Proof.
  assert (NoDup (valid_session_dates sample_rows)) as Hnd.
  { apply (bool_decide_unpack _). vm_compute. exact I. }
  split; [exact Hnd|]. split; [reflexivity|].
  exact (highest_streak_longest 100 sample_rows 3 3 Hnd eq_refl).
Defined.

(** Two sessions on one day cut the highest streak: for sessions on three
    days in a row, two of them on the second day, the current streak is 3
    and the highest streak is 2. *)
Example same_day_sessions_cut_streak :
  streaks 100
    [SessionRow 100 (Some "c") (Some "c"); SessionRow 99 (Some "b") (Some "b");
     SessionRow 99 (Some "b'") (Some "b'"); SessionRow 98 (Some "a") (Some "a")]
  = Some (3, 2).
Proof. reflexivity. Qed.

(** * The reply of the text generation service *)

(** ** White space at the two ends *)

Section strip_facts.
Implicit Types (s x y p : string) (c : ascii).

Lemma append_cons c x y : String c x +:+ y = String c (x +:+ y).
Proof. reflexivity. Qed.

Lemma append_nil_l x : "" +:+ x = x.
Proof. reflexivity. Qed.

Lemma append_assoc x y z : (x +:+ y) +:+ z = x +:+ (y +:+ z).
Proof.
  induction x as [|c x IH]; [done|]. rewrite !append_cons. by rewrite IH.
Qed.

Lemma append_nil_r x : x +:+ "" = x.
Proof.
  induction x as [|c x IH]; [done|]. rewrite append_cons. by rewrite IH.
Qed.

Lemma all_chars_app (P : ascii -> bool) x y :
  all_chars P (x +:+ y) = all_chars P x && all_chars P y.
Proof.
  induction x as [|c x IH]; [done|]. rewrite append_cons. simpl.
  by rewrite IH, andb_assoc.
Qed.

Lemma lstrip_blank p : blank p = true -> Str.lstrip p = "".
Proof.
  induction p as [|c p IH]; simpl; [done|].
  intros [Hc Hp]%andb_true_iff. rewrite Hc. by apply IH.
Qed.

Lemma lstrip_blank_app p x : blank p = true -> Str.lstrip (p +:+ x) = Str.lstrip x.
Proof.
  induction p as [|c p IH]; [done|]. rewrite append_cons. simpl.
  intros [Hc Hp]%andb_true_iff. rewrite Hc. by apply IH.
Qed.

Lemma lstrip_app_not_blank x y :
  blank x = false -> Str.lstrip (x +:+ y) = Str.lstrip x +:+ y.
Proof.
  induction x as [|c x IH]; [done|]. rewrite append_cons.
  unfold blank in *. simpl.
  destruct (Str.is_space c); simpl; [exact IH|done].
Qed.

Lemma rstrip_blank p : blank p = true -> Str.rstrip p = "".
Proof.
  induction p as [|c p IH]; simpl; [done|].
  intros [Hc Hp]%andb_true_iff. by rewrite (IH Hp), Hc.
Qed.

Lemma rstrip_app_blank x p : blank p = true -> Str.rstrip (x +:+ p) = Str.rstrip x.
Proof.
  intros Hp. induction x as [|c x IH].
  - by apply rstrip_blank.
  - rewrite append_cons. simpl. by rewrite IH.
Qed.

Lemma rstrip_idem x : Str.rstrip (Str.rstrip x) = Str.rstrip x.
Proof.
  induction x as [|c x IH]; simpl; [done|].
  destruct (Str.rstrip x) as [|d r] eqn:Hr.
  - destruct (Str.is_space c) eqn:Hc; simpl; [done|]. by rewrite Hc.
  - simpl in *. by rewrite IH.
Qed.

Lemma lstrip_starts_clean s : starts_clean (Str.lstrip s).
Proof.
  induction s as [|c s IH]; simpl; [done|].
  destruct (Str.is_space c) eqn:Hc; [exact IH|exact Hc].
Qed.

Lemma lstrip_of_clean s : starts_clean s -> Str.lstrip s = s.
Proof. destruct s as [|c s]; simpl; [done|]. by intros ->. Qed.

Lemma rstrip_starts_clean s : starts_clean s -> starts_clean (Str.rstrip s).
Proof.
  destruct s as [|c s]; simpl; [done|]. intros Hc.
  destruct (Str.rstrip s); simpl; [by rewrite Hc|done].
Qed.

Lemma strip_idem s : Str.strip (Str.strip s) = Str.strip s.
Proof.
  unfold Str.strip.
  rewrite (lstrip_of_clean (Str.rstrip (Str.lstrip s))).
  - apply rstrip_idem.
  - apply rstrip_starts_clean, lstrip_starts_clean.
Qed.

Lemma strip_pad p1 p2 x :
  blank p1 = true -> blank p2 = true ->
  Str.strip (p1 +:+ x +:+ p2) = Str.strip x.
Proof.
  intros H1 H2. unfold Str.strip. rewrite lstrip_blank_app by done.
  destruct (blank x) eqn:Hx.
  - rewrite lstrip_blank_app by done. by rewrite !lstrip_blank.
  - rewrite lstrip_app_not_blank by done. by apply rstrip_app_blank.
Qed.

Lemma all_chars_lstrip (P : ascii -> bool) s :
  all_chars P s = true -> all_chars P (Str.lstrip s) = true.
Proof.
  induction s as [|c s IH]; simpl; [done|].
  intros [Hc Hs]%andb_true_iff.
  destruct (Str.is_space c); [by apply IH|]. simpl. by rewrite Hc, Hs.
Qed.

Lemma all_chars_rstrip (P : ascii -> bool) s :
  all_chars P s = true -> all_chars P (Str.rstrip s) = true.
Proof.
  induction s as [|c s IH]; simpl; [done|].
  intros [Hc Hs]%andb_true_iff. specialize (IH Hs).
  destruct (Str.rstrip s) as [|d r].
  - destruct (Str.is_space c); simpl; [done|]. by rewrite Hc.
  - simpl in *. by rewrite Hc, IH.
Qed.

Lemma all_chars_strip (P : ascii -> bool) s :
  all_chars P s = true -> all_chars P (Str.strip s) = true.
Proof. intros H. by apply all_chars_rstrip, all_chars_lstrip. Qed.

End strip_facts.

(** ** The code fences *)

Lemma prefix_cons a p b s :
  String.prefix (String a p) (String b s)
  = if ascii_dec a b then String.prefix p s else false.
Proof. reflexivity. Qed.

Lemma prefix_nil s : String.prefix "" s = true.
Proof. by destruct s. Qed.

Lemma fence_match_other ls c s :
  Ascii.eqb c "`" = false -> fence_match ls (String c s) = 0.
Proof.
  intros Hc. unfold fence_match.
  assert (String.prefix "```" (String c s) = false) as ->.
  { rewrite prefix_cons. destruct (ascii_dec "`" c) as [<-|]; [|done].
    by rewrite Ascii.eqb_refl in Hc. }
  by rewrite andb_false_r.
Qed.

Lemma sub_fences_plain ls s :
  no_backquote s = true -> sub_fences 0 ls s = s.
Proof.
  revert ls. induction s as [|c s IH]; intros ls; [done|].
  unfold no_backquote in *. simpl all_chars.
  intros [Hc Hs]%andb_true_iff. apply negb_true_iff in Hc.
  cbn [sub_fences]. rewrite fence_match_other by done. by rewrite IH.
Qed.

Lemma sub_fences_closed ls s :
  no_backquote s = true -> sub_fences 0 ls (s +:+ "```") = s.
Proof.
  revert ls. induction s as [|c s IH]; intros ls.
  - intros _. by destruct ls.
  - unfold no_backquote in *. simpl all_chars.
    intros [Hc Hs]%andb_true_iff. apply negb_true_iff in Hc.
    rewrite append_cons. cbn [sub_fences].
    rewrite fence_match_other by done. by rewrite IH.
Qed.

Lemma rstrip_app_kept x y :
  Str.rstrip y = y -> y <> "" -> Str.rstrip (x +:+ y) = x +:+ y.
Proof.
  intros Hy Hne. induction x as [|c x IH]; [done|].
  rewrite append_cons. simpl. rewrite IH.
  destruct (x +:+ y) eqn:Hxy; [|done].
  destruct x; [by rewrite append_nil_l in Hxy|by rewrite append_cons in Hxy].
Qed.

Lemma prefix_closed p body :
  no_backquote p = true ->
  String.prefix p body = false ->
  String.prefix p (body +:+ "```") = false.
Proof.
  revert body. induction p as [|a p IH]; intros body.
  - by destruct body.
  - unfold no_backquote in *. simpl all_chars.
    intros [Ha Hp]%andb_true_iff. apply negb_true_iff in Ha.
    destruct body as [|b body].
    + intros _. rewrite append_nil_l, prefix_cons.
      destruct (ascii_dec a "`") as [->|]; [|done].
      by rewrite Ascii.eqb_refl in Ha.
    + rewrite append_cons, !prefix_cons.
      destruct (ascii_dec a b); [by apply IH|done].
Qed.

Lemma prefix_json_closed body :
  String.prefix "json" body = false ->
  String.prefix "json" (body +:+ "```") = false.
Proof. by apply prefix_closed. Qed.

(** X7. A reply without a backquote, such as the prompt asks for, reaches
    the decoder as it is, with only the white space at its two ends
    removed. *)
Theorem clean_reply_plain (response_text : string) :
  no_backquote response_text = true ->
  clean_reply response_text = Str.strip response_text.
Proof.
  intros H. unfold clean_reply.
  rewrite sub_fences_plain by by apply all_chars_strip.
  apply strip_idem.
Qed.

Lemma clean_reply_plain_witness :
  clean_reply "  {...}  " = Str.strip "  {...}  ".
Proof. apply (clean_reply_plain "  {...}  "). reflexivity. Defined.

Lemma strip_fence (lang body : string) :
  Str.strip ("```" +:+ lang +:+ body +:+ "```")
  = "```" +:+ lang +:+ body +:+ "```".
Proof.
  unfold Str.strip. rewrite lstrip_of_clean by done.
  rewrite <- !append_assoc. by apply rstrip_app_kept.
Qed.

Lemma fence_match_json (s : string) :
  fence_match true ("```json" +:+ s) = 7.
Proof.
  rewrite !append_cons, !append_nil_l.
  unfold fence_match. rewrite !prefix_cons.
  repeat (destruct (ascii_dec _ _); [|congruence]).
  by rewrite !prefix_nil.
Qed.

Lemma fence_match_bare (body : string) :
  String.prefix "json" body = false ->
  fence_match true ("```" +:+ body +:+ "```") = 3.
Proof.
  intros Hp. rewrite !append_cons, !append_nil_l.
  unfold fence_match. rewrite !prefix_cons.
  repeat (destruct (ascii_dec _ _); [|congruence]).
  rewrite prefix_nil. cbn [andb]. by rewrite prefix_json_closed.
Qed.

Lemma sub_fences_fence (lang body : string) :
  no_backquote body = true ->
  lang = "json" \/ (lang = "" /\ String.prefix "json" body = false) ->
  sub_fences 0 true ("```" +:+ lang +:+ body +:+ "```") = body.
Proof.
  intros Hbody [->|[-> Hp]].
  - pose proof (fence_match_json (body +:+ "```")) as Hm.
    rewrite !append_cons, !append_nil_l in *.
    cbn [sub_fences]. rewrite Hm. by apply sub_fences_closed.
  - pose proof (fence_match_bare body Hp) as Hm.
    rewrite !append_cons, !append_nil_l in *.
    cbn [sub_fences]. rewrite Hm. by apply sub_fences_closed.
Qed.

(** X8. A reply that wraps its body in a code fence, opened by three
    backquotes with or without the word json and closed by three
    backquotes, with white space around the fence: when the body holds no
    backquote (and does not itself begin with json after a bare opening),
    the cleaning leaves the body, stripped. *)
Theorem clean_reply_fenced (before after lang body : string) :
  blank before = true -> blank after = true ->
  no_backquote body = true ->
  lang = "json" \/ (lang = "" /\ String.prefix "json" body = false) ->
  clean_reply (before +:+ ("```" +:+ lang +:+ body +:+ "```") +:+ after)
  = Str.strip body.
Proof.
  intros Hb Ha Hbody Hlang. unfold clean_reply.
  rewrite strip_pad by done.
  by rewrite strip_fence, sub_fences_fence.
Qed.

Lemma clean_reply_fenced_witness :
  clean_reply (nl +:+ ("```" +:+ "json" +:+ (nl +:+ "{...}" +:+ nl) +:+ "```") +:+ nl)
  = Str.strip (nl +:+ "{...}" +:+ nl).
Proof.
  apply (clean_reply_fenced nl nl "json" (nl +:+ "{...}" +:+ nl));
    [reflexivity|reflexivity|reflexivity|by left].
Defined.

(** ** [summarize] *)

Lemma get_opt_field d k dflt v : field k d = Some v -> get_opt d k dflt = Some v.
Proof. destruct d; try done. simpl. unfold get_opt. simpl. by intros ->. Qed.

Lemma get_opt_lacks d k dflt : lacks k d -> get_opt d k dflt = Some dflt.
Proof. intros (kvs & -> & H). unfold get_opt. simpl. by rewrite H. Qed.

(** X9. Where the reply lacks one of the keys on the way to the text
    (candidates, content, parts, text), the defaults of the [get] calls
    lead to the empty text, [json.loads] refuses it, and the function
    returns the empty title, the empty summary and no tags. *)
Theorem summarize_missing_key (loads : string -> option json) (data : json) :
  loads "" = None ->
  lacks "candidates" data
  \/ (exists candidate,
        first_candidate data = Some candidate /\ lacks "content" candidate)
  \/ (exists content,
        content_of data = Some content /\ lacks "parts" content)
  \/ (exists part,
        first_part data = Some part /\ lacks "text" part) ->
  summarize loads (Ok data) = Returned (JStr "") (JStr "") (JArr []).
Proof.
  intros Hloads H.
  assert (response_text_of data = Some (JStr "")) as Htext.
  { unfold response_text_of.
    unfold first_part, parts_of, content_of, first_candidate in H.
    destruct H as [H|[(c & Hc & H)|[(ct & Hct & H)|(p & Hp & H)]]].
    - by rewrite (get_opt_lacks _ _ _ H).
    - destruct (field "candidates" data) as [cs|] eqn:Hcs; [|done].
      rewrite (get_opt_field _ _ _ _ Hcs). simpl in *. rewrite Hc. simpl.
      by rewrite (get_opt_lacks _ _ _ H).
    - destruct (field "candidates" data) as [cs|] eqn:Hcs; [|done].
      rewrite (get_opt_field _ _ _ _ Hcs). simpl in *.
      destruct (subscript0 cs) as [c|]; [|done]. simpl in *.
      rewrite (get_opt_field _ _ _ _ Hct). simpl.
      by rewrite (get_opt_lacks _ _ _ H).
    - destruct (field "candidates" data) as [cs|] eqn:Hcs; [|done].
      rewrite (get_opt_field _ _ _ _ Hcs). simpl in *.
      destruct (subscript0 cs) as [c|]; [|done]. simpl in *.
      destruct (field "content" c) as [ct|] eqn:Hct; [|done].
      rewrite (get_opt_field _ _ _ _ Hct). simpl in *.
      destruct (field "parts" ct) as [ps|] eqn:Hps; [|done].
      rewrite (get_opt_field _ _ _ _ Hps). simpl in *. rewrite Hp. simpl.
      by rewrite (get_opt_lacks _ _ _ H). }
  unfold summarize. rewrite Htext. unfold parse_summary, decode.
  change (clean_reply "") with "". by rewrite Hloads.
Qed.

Lemma summarize_missing_key_witness :
  summarize sample_loads
    (Ok (JObj [("candidates", JArr [JObj [("finishReason", JStr "SAFETY")]])]))
  = Returned (JStr "") (JStr "") (JArr []).
Proof.
  apply summarize_missing_key; [reflexivity|].
  right; left. eexists. split; [reflexivity|]. by eexists.
Defined.

(** X10. Where the reply holds an empty list of candidates, or its first
    candidate an empty list of parts, the subscript [0] raises before
    [response_text] is assigned; the handler then reads the unassigned
    name, and the function raises instead of returning its fallback. *)
Theorem summarize_empty_list_raises (loads : string -> option json) (data : json) :
  field "candidates" data = Some (JArr [])
  \/ parts_of data = Some (JArr []) ->
  summarize loads (Ok data) = UnboundLocalError.
Proof.
  intros H.
  assert (response_text_of data = None) as Htext.
  { unfold response_text_of.
    unfold parts_of, content_of, first_candidate in H. destruct H as [H|H].
    - by rewrite (get_opt_field _ _ _ _ H).
    - destruct (field "candidates" data) as [cs|] eqn:Hcs; [|done].
      rewrite (get_opt_field _ _ _ _ Hcs). simpl in *.
      destruct (subscript0 cs) as [c|]; [|done]. simpl in *.
      destruct (field "content" c) as [ct|] eqn:Hct; [|done].
      rewrite (get_opt_field _ _ _ _ Hct). simpl in *.
      by rewrite (get_opt_field _ _ _ _ H). }
  unfold summarize. by rewrite Htext.
Qed.

Lemma summarize_empty_list_raises_witness :
  summarize sample_loads (Ok (JObj [("candidates", JArr [])]))
  = UnboundLocalError.
Proof. apply summarize_empty_list_raises. left. reflexivity. Defined.

(** X11. A reply whose text is an object in a code fence: the function
    returns the three fields of the object, each with its default where
    the object lacks it. *)
Theorem summarize_fenced_object (loads : string -> option json) (data : json)
    (before after lang body : string) (kvs : list (string * json)) :
  response_text_of data
    = Some (JStr (before +:+ ("```" +:+ lang +:+ body +:+ "```") +:+ after)) ->
  blank before = true -> blank after = true ->
  no_backquote body = true ->
  lang = "json" \/ (lang = "" /\ String.prefix "json" body = false) ->
  loads (Str.strip body) = Some (JObj kvs) ->
  summarize loads (Ok data)
  = Returned (default (JStr "") (Py.assoc "title" kvs))
             (default (JStr "") (Py.assoc "summary" kvs))
             (default (JArr []) (Py.assoc "tags" kvs)).
Proof.
  intros Htext Hb Ha Hbody Hlang Hloads.
  unfold summarize. rewrite Htext. unfold parse_summary, decode.
  unfold clean_reply.
  rewrite strip_pad, strip_fence, sub_fences_fence by done.
  by rewrite Hloads.
Qed.

Lemma summarize_fenced_object_witness :
  summarize sample_loads
    (Ok (reply_with
           (JStr (nl +:+ ("```" +:+ "json" +:+ (nl +:+ "{...}" +:+ nl) +:+ "```")
                  +:+ nl))))
  = Returned (JStr "Burnout at work")
             (JStr "Felt burnt out after a long week.")
             (JArr [JStr "burnout"; JStr "work"]).
Proof.
  apply (summarize_fenced_object sample_loads _ nl nl "json"
           (nl +:+ "{...}" +:+ nl)
           [("title", JStr "Burnout at work");
            ("summary", JStr "Felt burnt out after a long week.");
            ("tags", JArr [JStr "burnout"; JStr "work"])]);
    [reflexivity|reflexivity|reflexivity|reflexivity|by left|reflexivity].
Defined.

(** X12. Where the cleaned text does not decode to an object, the summary
    the function returns is the text of the reply as the service sent it:
    not stripped, its fences kept. *)
Theorem summarize_raw_text (loads : string -> option json) (data : json)
    (text : string) :
  response_text_of data = Some (JStr text) ->
  (forall kvs, decode loads (clean_reply text) <> Some (JObj kvs)) ->
  summarize loads (Ok data) = Returned (JStr "") (JStr text) (JArr []).
Proof.
  intros Htext Hno. unfold summarize. rewrite Htext. unfold parse_summary.
  destruct (decode loads (clean_reply text)) as [parsed|]; [|done].
  destruct parsed; try done. by destruct (Hno kvs).
Qed.

Lemma summarize_raw_text_witness :
  summarize sample_loads (Ok (reply_with (JStr " ```Dear diary``` ")))
  = Returned (JStr "") (JStr " ```Dear diary``` ") (JArr []).
Proof.
  apply summarize_raw_text; [reflexivity|]. intros kvs. vm_compute. congruence.
Defined.

(** * The session routes *)

Lemma prefix_drop p h :
  String.prefix p h = true -> h = p +:+ Py.drop_chars (String.length p) h.
Proof.
  revert h. induction p as [|a p IH]; intros h; [done|].
  destruct h as [|b h]; [done|]. rewrite prefix_cons.
  destruct (ascii_dec a b) as [->|]; [|done].
  intros H. rewrite append_cons. simpl. f_equal. by apply IH.
Qed.

Lemma split_on_head sep s : exists ws, split_on sep s = up_to sep s :: ws.
Proof.
  induction s as [|c s [ws IH]]; simpl; [by eexists|].
  destruct (Ascii.eqb c sep); [by eexists|]. rewrite IH. by eexists.
Qed.

Lemma split_on_app sep p rest :
  all_chars (fun c => negb (Ascii.eqb c sep)) p = true ->
  split_on sep (p +:+ String sep rest) = p :: split_on sep rest.
Proof.
  induction p as [|c p IH].
  - intros _. rewrite append_nil_l. simpl. by rewrite Ascii.eqb_refl.
  - cbn [all_chars]. intros [Hc Hp]%andb_true_iff. apply negb_true_iff in Hc.
    rewrite append_cons. cbn [split_on]. by rewrite Hc, IH.
Qed.

Lemma token_of_bearer h :
  String.prefix "Bearer " h = true ->
  token_of h = Some (up_to " " (Py.drop_chars 7 h)).
Proof.
  intros H. apply prefix_drop in H.
  change (String.length "Bearer ") with 7 in H.
  unfold token_of. generalize dependent (Py.drop_chars 7 h).
  intros rest ->.
  change ("Bearer " +:+ rest) with ("Bearer" +:+ String " " rest).
  rewrite split_on_app by done.
  by destruct (split_on_head " " rest) as [ws ->].
Qed.

(** X13. Taking the token from the header never fails: a header the
    check lets through starts with the word Bearer and a space, so the
    split has a second piece, and that piece is the text between this
    space and the next one (empty where a second space follows at once).
    Every other header ends in the 401 response, with no call made. *)
Theorem session_token_spec (auth_header : option string) :
  session_token auth_header
  = if bearer_header auth_header
    then pure (up_to " " (Py.drop_chars 7 (default "" auth_header)))
    else throw (HTTPException 401 "No valid session").
Proof.
  unfold session_token. destruct (bearer_header auth_header) eqn:Hb; [|done].
  destruct auth_header as [h|]; [|done]. simpl in *.
  apply andb_true_iff in Hb as [_ Hp]. by rewrite token_of_bearer.
Qed.

Lemma session_token_cases auth_header :
  (exists token, session_token auth_header = pure token)
  \/ session_token auth_header = throw (HTTPException 401 "No valid session").
Proof.
  rewrite session_token_spec. destruct (bearer_header auth_header); eauto.
Qed.

(** X14. [get_user_from_token] gives the user the authentication service
    names for the token of the header, or raises an [HTTPException] of
    status 401: no other exception leaves it, whatever the service does,
    and the service is asked at most once. *)
Theorem get_user_from_token_outcomes
    (get_user : string -> outcome (option auth_user))
    (auth_header : option string) :
  match get_user_from_token get_user auth_header with
  | (calls, Done u) =>
      exists token, session_token auth_header = pure token
                    /\ calls = [GetUser token]
                    /\ get_user token = Done (Some u)
  | (calls, Raised e) =>
      (exists detail, e = HTTPException 401 detail)
      /\ (calls = [] \/ exists token, calls = [GetUser token])
  end.
Proof.
  unfold get_user_from_token.
  destruct (session_token_cases auth_header) as [[token ->]| ->].
  - unfold and_then, except_all, session_user, and_then, ask. simpl.
    destruct (get_user token) as [[u|]|e] eqn:Hu; simpl; eauto 8.
  - simpl. eauto.
Qed.

(** X15. A request without a Bearer header, at the four handlers that
    read it: none of them calls a service; [get_user_from_token] and
    [delete_account] answer 401 with the detail of the check, [/me]
    answers 401 with its own detail, and [logout] answers 500. *)
Theorem missing_bearer_statuses
    (get_user : string -> outcome (option auth_user))
    (sign_out : outcome unit)
    (select_profile : string -> outcome (list json))
    (delete_user delete_row : string -> outcome unit)
    (auth_header : option string) :
  bearer_header auth_header = false ->
  get_user_from_token get_user auth_header
    = throw (HTTPException 401 "No valid session")
  /\ logout sign_out auth_header
    = throw (HTTPException 500 "Failed to logout")
  /\ get_current_user get_user select_profile auth_header
    = throw (HTTPException 401 "Invalid session")
  /\ delete_account get_user delete_user delete_row auth_header
    = throw (HTTPException 401 "No valid session").
Proof.
  intros Hb.
  unfold get_user_from_token, logout, get_current_user, delete_account.
  rewrite session_token_spec, Hb. by repeat split.
Qed.

Lemma missing_bearer_statuses_witness :
  logout (Done tt) (Some "Basic dXNlcjpwdw==")
  = throw (HTTPException 500 "Failed to logout").
Proof.
  apply (missing_bearer_statuses sample_get_user (Done tt)
           (fun _ => Done []) (fun _ => Done tt) (fun _ => Done tt)
           (Some "Basic dXNlcjpwdw==")).
  reflexivity.
Defined.

(** X16. [logout] with a Bearer header: the session is signed out, once,
    whatever the token is (the handler does not pass it on), and the
    answer is the message or the 500 response. *)
Theorem logout_bearer (sign_out : outcome unit) (auth_header : option string) :
  bearer_header auth_header = true ->
  logout sign_out auth_header
  = ([SignOut],
     match sign_out with
     | Done _ => Done "Successfully logged out"
     | Raised _ => Raised (HTTPException 500 "Failed to logout")
     end).
Proof.
  intros Hb. unfold logout. rewrite session_token_spec, Hb.
  by destruct sign_out.
Qed.

Lemma logout_bearer_witness :
  logout (Done tt) (Some "Bearer ")
  = ([SignOut], Done "Successfully logged out").
Proof. apply (logout_bearer (Done tt) (Some "Bearer ")). reflexivity. Defined.

(** X17. [delete_account] answers with its message exactly when the
    header has a token, the service names a user for it and the deletion
    of that user succeeds; the row of the users table is deleted after
    that, and its failure changes nothing.  The handler deletes no other
    user than the one named for the token. *)
Theorem delete_account_deletes
    (get_user : string -> outcome (option auth_user))
    (delete_user delete_row : string -> outcome unit)
    (auth_header : option string) :
  let run := delete_account get_user delete_user delete_row auth_header in
  ((exists message, run.2 = Done message)
   <-> exists token u,
         session_token auth_header = pure token
         /\ get_user token = Done (Some u)
         /\ delete_user (user_id u) = Done tt
         /\ run = ([GetUser token; DeleteUser (user_id u);
                    DeleteRow (user_email u)],
                   Done "Account deleted successfully"))
  /\ (forall id, In (DeleteUser id) run.1 ->
        exists token u, session_token auth_header = pure token
                        /\ get_user token = Done (Some u) /\ user_id u = id)
  /\ (forall email, In (DeleteRow email) run.1 ->
        exists message, run.2 = Done message).
Proof.
  intros run. subst run. unfold delete_account.
  destruct (session_token_cases auth_header) as [[token Ht]|Ht]; rewrite Ht.
  - unfold session_user, and_then, except_other, except_all, not_fatal, ask.
    simpl.
    destruct (get_user token) as [[u|]|e] eqn:Hu; simpl.
    + destruct (delete_user (user_id u)) as [[]|e] eqn:Hd; simpl.
      * split; [|split].
        -- split; [intros _; by exists token, u|eauto].
        -- intros id [|[[= <-]|[|[]]]]; try done. by exists token, u.
        -- eauto.
      * split; [|split].
        -- split; [by intros [? ?]|].
           intros (token' & u' & [= <-] & Hu' & Hd' & _).
           rewrite Hu in Hu'. injection Hu' as <-. congruence.
        -- intros id [|[[= <-]|[]]]; try done. by exists token, u.
        -- intros email [|[|[]]]; done.
    + split; [|split].
      * split; [by intros [? ?]|].
        intros (token' & u' & [= <-] & Hu' & _). congruence.
      * intros id [|[]]; done.
      * intros email [|[]]; done.
    + split; [|split].
      * split; [destruct e; by intros [? ?]|].
        intros (token' & u' & [= <-] & Hu' & _). congruence.
      * intros id [|[]]; done.
      * intros email [|[]]; done.
  - simpl. split; [|split].
    + split; [by intros [? ?]|]. by intros (? & ? & ? & _).
    + intros id [].
    + intros email [].
Qed.

(** * The days with an entry, by week *)

Lemma this_week_days now d :
  (days_ago now 7 <? midnight d)%Z = true <-> (day_of now - 6 ≤ d)%Z.
Proof.
  unfold days_ago, midnight, day_of, microseconds_per_day.
  rewrite Z.ltb_lt.
  pose proof (Z.div_mod now 86400000000 ltac:(lia)).
  pose proof (Z.mod_pos_bound now 86400000000 ltac:(lia)). lia.
Qed.

Lemma last_week_days now d :
  (days_ago now 14 <? midnight d)%Z && (midnight d <=? days_ago now 7)%Z = true
  <-> (day_of now - 13 ≤ d ≤ day_of now - 7)%Z.
Proof.
  unfold days_ago, midnight, day_of, microseconds_per_day.
  rewrite andb_true_iff, Z.ltb_lt, Z.leb_le.
  pose proof (Z.div_mod now 86400000000 ltac:(lia)).
  pose proof (Z.mod_pos_bound now 86400000000 ltac:(lia)). lia.
Qed.

Lemma journal_days_cons row rows :
  journal_days (row :: rows)
  = if row_valid row then {[row_date row]} ∪ journal_days rows
    else journal_days rows.
Proof.
  unfold journal_days, valid_session_dates. simpl.
  by destruct (row_valid row).
Qed.

Lemma filter_days_in (P : Z -> Prop) `{!forall d, Decision (P d)}
    (d : Z) (days acc : gset Z) :
  P d -> filter P ({[d]} ∪ days) ∪ acc = filter P days ∪ ({[d]} ∪ acc).
Proof.
  intros Hd. apply set_eq. intros x.
  rewrite !elem_of_union, !elem_of_filter, elem_of_union, elem_of_singleton.
  intuition (subst; auto).
Qed.

Lemma filter_days_out (P : Z -> Prop) `{!forall d, Decision (P d)}
    (d : Z) (days : gset Z) :
  ~ P d -> filter P ({[d]} ∪ days) = filter P days.
Proof.
  intros Hd. apply set_eq. intros x.
  rewrite !elem_of_filter, elem_of_union, elem_of_singleton.
  intuition (subst; auto). done.
Qed.

Lemma filter_no_days (P : Z -> Prop) `{!forall d, Decision (P d)} :
  size (filter P (∅ : gset Z)) = 0.
Proof.
  apply size_empty_iff. intros x. rewrite elem_of_filter, elem_of_empty. tauto.
Qed.

Lemma union_no_days (days : gset Z) : days ∪ ∅ = days.
Proof.
  apply set_eq. intros x. rewrite elem_of_union, elem_of_empty. tauto.
Qed.

Lemma entries_loop_spec now rows (this last : gset Z) :
  entries_loop now rows this last
  = (filter (fun d => day_of now - 6 ≤ d)%Z (journal_days rows) ∪ this,
     filter (fun d => day_of now - 13 ≤ d ≤ day_of now - 7)%Z
       (journal_days rows) ∪ last).
Proof.
  revert this last. induction rows as [|row rows IH]; intros this last.
  - simpl. unfold journal_days. simpl.
    f_equal; apply set_eq; intros x;
      rewrite elem_of_union, elem_of_filter, elem_of_empty; tauto.
  - cbn [entries_loop]. rewrite journal_days_cons.
    destruct (row_valid row); cbn [negb]; [|apply IH].
    pose proof (this_week_days now (row_date row)) as Ht.
    pose proof (last_week_days now (row_date row)) as Hl.
    destruct (days_ago now 7 <? midnight (row_date row))%Z.
    + assert (day_of now - 6 ≤ row_date row)%Z as Hin by by apply Ht.
      rewrite IH, filter_days_in by done.
      rewrite (filter_days_out (fun d => _ ≤ d ≤ _)%Z) by lia. done.
    + assert (~ (day_of now - 6 ≤ row_date row)%Z) as Hout
        by (intros ?%Ht; done).
      rewrite (filter_days_out (fun d => _ ≤ d)%Z) by done.
      destruct ((days_ago now 14 <? midnight (row_date row))%Z
                && (midnight (row_date row) <=? days_ago now 7)%Z).
      * assert (day_of now - 13 ≤ row_date row ≤ day_of now - 7)%Z as Hin
          by by apply Hl.
        by rewrite IH, (filter_days_in (fun d => _ ≤ d ≤ _)%Z) by done.
      * assert (~ (day_of now - 13 ≤ row_date row ≤ day_of now - 7)%Z)
          as Hout' by (intros ?%Hl; done).
        by rewrite IH, (filter_days_out (fun d => _ ≤ d ≤ _)%Z) by done.
Qed.

(** X18. The days with an entry, by week: the number for this week counts
    the days with a valid session from six days before today on (days to
    come among them), the number for last week those of the seven days
    before, whatever the time of day; the total counts all of them. *)
Theorem entries_by_week_days (now : Z) (rows : list session_row) :
  entries_by_week now rows
  = (size (journal_days rows),
     size (filter (fun d => day_of now - 6 ≤ d)%Z (journal_days rows)),
     size (filter (fun d => day_of now - 13 ≤ d ≤ day_of now - 7)%Z
             (journal_days rows))).
Proof.
  destruct rows as [|row rows].
  - simpl. unfold journal_days. simpl. by rewrite !filter_no_days.
  - unfold entries_by_week. rewrite entries_loop_spec. cbn [fst snd].
    by rewrite !union_no_days.
Qed.

(** X19. The days of this week and those of last week are counted apart:
    together they are no more than the days with an entry. *)
Theorem entries_by_week_bound (now : Z) (rows : list session_row) :
  let '(total_entries, entries_this_week, entries_last_week) :=
    entries_by_week now rows in
  entries_this_week + entries_last_week <= total_entries.
Proof.
  destruct rows as [|row rows]; [simpl; lia|].
  unfold entries_by_week. rewrite entries_loop_spec. cbn [fst snd].
  rewrite !union_no_days. fold (journal_days (row :: rows)).
  set (days := journal_days (row :: rows)).
  rewrite <- size_union.
  - apply subseteq_size. intros d.
    rewrite elem_of_union, !elem_of_filter. tauto.
  - intros d. rewrite !elem_of_filter. lia.
Qed.

(** * The sessions by week *)

Section sessions_by_week_facts.

Variable fromisoformat : string -> option datetime.
Variable now : Z.

Lemma count_weeks_sum sessions this last :
  let '(this', last') := count_weeks fromisoformat now sessions this last in
  this' + last' <= this + last + length sessions
  /\ this <= this' /\ last <= last'.
Proof.
  revert this last. induction sessions as [|s rest IH]; intros this last.
  - simpl. lia.
  - cbn [count_weeks length].
    destruct (session_week fromisoformat now s) as [[]|].
    + specialize (IH (S this) last). destruct (count_weeks _ _ _ _ _). lia.
    + specialize (IH this (S last)). destruct (count_weeks _ _ _ _ _). lia.
    + specialize (IH this last). destruct (count_weeks _ _ _ _ _). lia.
    + specialize (IH (S this) last). destruct (count_weeks _ _ _ _ _). lia.
Qed.

Lemma count_weeks_refused sessions this last :
  Forall (fun s => session_week fromisoformat now s = None) sessions ->
  count_weeks fromisoformat now sessions this last
  = (this + length sessions, last).
Proof.
  intros H. revert this. induction H as [|s rest Hs _ IH]; intros this.
  - simpl. f_equal. lia.
  - cbn [count_weeks length]. rewrite Hs, IH. f_equal. lia.
Qed.

End sessions_by_week_facts.

Lemma later_refused now d :
  aware d = true -> later d (week_ago now) = None.
Proof. unfold later. simpl. by intros ->. Qed.

Lemma ends_with_app stem suffix : ends_with suffix (stem +:+ suffix) = true.
Proof.
  induction stem as [|c stem IH].
  - rewrite append_nil_l. destruct suffix; simpl; [done|].
    by rewrite Ascii.eqb_refl, String.eqb_refl.
  - rewrite append_cons. simpl. rewrite IH. apply orb_true_r.
Qed.

Lemma drop_last_app stem c : drop_last (stem +:+ String c "") = stem.
Proof.
  induction stem as [|d stem IH]; [done|].
  rewrite append_cons. cbn [drop_last]. rewrite IH.
  destruct stem; [done|]. by rewrite append_cons.
Qed.

Lemma prefix_refl s : String.prefix s s = true.
Proof.
  induction s as [|a s IH]; [done|]. rewrite prefix_cons.
  by destruct (ascii_dec a a).
Qed.

Lemma contains_app needle stem :
  Str.contains needle (stem +:+ needle) = true.
Proof.
  induction stem as [|c stem IH].
  - rewrite append_nil_l. destruct needle; cbn [Str.contains];
      by rewrite prefix_refl.
  - rewrite append_cons. cbn [Str.contains]. rewrite IH. apply orb_true_r.
Qed.

Lemma with_offset_universal s :
  ends_with "Z" s = true \/ (exists stem, s = stem +:+ "+00:00") ->
  exists x, with_offset s = x +:+ "+00:00".
Proof.
  intros H. unfold with_offset.
  destruct (ends_with "Z" s); [by eexists|].
  destruct H as [|[stem ->]]; [done|].
  destruct (_ && _); [by eexists|by eexists].
Qed.

(** X20. The sessions by week: a session is counted once at most, so the
    two numbers together are no more than the total; and they are never
    both zero when there is a session, since the total then stands for
    this week. *)
Theorem sessions_by_week_bounds (fromisoformat : string -> option datetime)
    (now : Z) (selected : outcome (list timed_session)) :
  let '(total_sessions, sessions_this_week, sessions_last_week) :=
    sessions_by_week fromisoformat now selected in
  sessions_this_week + sessions_last_week <= total_sessions
  /\ (0 < total_sessions -> 0 < sessions_this_week + sessions_last_week).
Proof.
  destruct selected as [all_sessions|e]; [|simpl; lia].
  unfold sessions_by_week.
  pose proof (count_weeks_sum fromisoformat now
                (List.filter session_valid all_sessions) 0 0) as H.
  destruct (count_weeks _ _ _ _ _) as [this last].
  destruct (0 <? length _) eqn:Hn; cbn [andb].
  - apply Nat.ltb_lt in Hn.
    destruct (this =? 0) eqn:Ht; cbn [andb];
      [destruct (last =? 0) eqn:Hl|];
      rewrite ?Nat.eqb_eq, ?Nat.eqb_neq in *; lia.
  - apply Nat.ltb_ge in Hn. lia.
Qed.

(** X21. A session whose time of creation is written in universal time,
    with a final Z or with the offset +00:00 as [start_session] writes
    it, is counted for this week however old it is: the parsed time is
    aware, the comparison with the naive [week_ago] is refused, and the
    handler counts the session for this week.  So when all valid sessions
    are written that way, the number for this week is the total and the
    number for last week is zero. *)
Theorem universal_time_sessions_this_week
    (fromisoformat : string -> option datetime) (now : Z)
    (all_sessions : list timed_session) :
  (forall s d, fromisoformat (s +:+ "+00:00") = Some d -> aware d = true) ->
  Forall (fun session =>
            exists stem,
              created_at session = Some (JStr (stem +:+ "Z"))
              \/ created_at session = Some (JStr (stem +:+ "+00:00")))
         (List.filter session_valid all_sessions) ->
  sessions_by_week fromisoformat now (Done all_sessions)
  = (length (List.filter session_valid all_sessions),
     length (List.filter session_valid all_sessions), 0).
Proof.
  intros Haware Hall. unfold sessions_by_week.
  rewrite count_weeks_refused.
  - cbn [Nat.add].
    destruct (length (List.filter session_valid all_sessions)) as [|n];
      [done|]. simpl. done.
  - eapply Forall_impl; [exact Hall|]. intros session [stem H].
    unfold session_week.
    assert (exists s, created_at session = Some (JStr s)
                      /\ exists x, with_offset s = x +:+ "+00:00")
      as (s & -> & x & ->).
    { destruct H as [H|H]; eexists; (split; [exact H|]);
        apply with_offset_universal; [left|right].
      - apply ends_with_app.
      - by eexists. }
    destruct (fromisoformat (x +:+ "+00:00")) as [d|] eqn:Hd; [|done].
    simpl. unfold week_of. by rewrite later_refused by eauto.
Qed.

Lemma universal_time_sessions_this_week_witness :
  sessions_by_week sample_fromisoformat 1700000000000000
    (Done sample_sessions) = (2, 2, 0).
Proof.
  apply (universal_time_sessions_this_week sample_fromisoformat
           1700000000000000 sample_sessions).
  - intros s d. unfold sample_fromisoformat. rewrite ends_with_app.
    by intros [= <-].
  - repeat constructor.
    + exists "2020-01-01T10:00:00". by left.
    + exists "2020-01-02T09:30:00.000000". by right.
Defined.

(** * The entries of a user *)

(** X22. The entries the handler returns, when the index answers: one
    entry for each hit of each result, newest first by the text of the
    timestamp (a hit without one counts as the oldest), and those of one
    timestamp in the order the index gave them.  When the query of the
    index fails the list is empty. *)
Theorem entries_newest_first (full_content : bool)
    (results : list (list index_hit)) :
  let entries := entries_of full_content (Done results) in
  entries ≡ₚ entry_of full_content <$> concat results
  /\ StronglySorted (fun a b => not_after a b) entries
  /\ (forall stamp,
        filter (fun e => je_timestamp e = stamp) entries
        = filter (fun e => je_timestamp e = stamp)
            (entry_of full_content <$> concat results))
  /\ (forall e, entries_of full_content (Raised e) = []).
Proof.
  intros entries. subst entries. unfold entries_of.
  split; [|split; [|split]].
  - apply (keyed_sort_perm timestamp_key).
  - eapply StronglySorted_weaken; [|apply (keyed_sort_sorted timestamp_key)].
    intros a b. unfold not_after, key_lt, timestamp_key. simpl.
    by destruct (String.ltb _ _).
  - intros stamp.
    pose proof (keyed_sort_stable timestamp_key (0, stamp)
                  (entry_of full_content <$> concat results)) as H.
    erewrite (list_filter_iff _ (fun e => timestamp_key e = (0, stamp))).
    + rewrite H. apply list_filter_iff.
      intros e. unfold timestamp_key. split; [by intros [= ->]|by intros ->].
    + intros e. unfold timestamp_key. split; [by intros ->|by intros [= ->]].
  - done.
Qed.

(** * One session with its text *)

Lemma assoc_set_other (k k' : string) (v : json) (kvs : list (string * json)) :
  k <> k' -> Py.assoc k (Py.assoc_set k' v kvs) = Py.assoc k kvs.
Proof.
  intros Hk. induction kvs as [|[k0 v0] kvs IH]; simpl.
  - by rewrite (proj2 (String.eqb_neq k k')).
  - destruct (String.eqb k' k0) eqn:Hk0; simpl.
    + apply String.eqb_eq in Hk0 as <-.
      by rewrite (proj2 (String.eqb_neq k k')).
    + by rewrite IH.
Qed.

Lemma text_and_tags_len entry text tags :
  text_and_tags entry = Some (text, tags) -> is_Some (py_len text).
Proof.
  unfold text_and_tags. intros H.
  destruct (get_opt entry "text" (JStr "")) as [t|]; [|done]. simpl in H.
  destruct (py_len t) eqn:Hlen; [|done]. simpl in H.
  destruct (slice_first 100 t); [|done]. simpl in H.
  destruct (get_opt entry "tags" (JArr [])); [|done]. simpl in H.
  injection H as <- _. by rewrite Hlen.
Qed.

Lemma index_text_len session_id first fallback text tags :
  index_text session_id first fallback = Some (text, tags) ->
  is_Some (py_len text).
Proof.
  unfold index_text. intros H.
  destruct first as [r|]; [|done]. simpl in H.
  destruct (status_code r =? 200)%nat; [|by injection H as <- _].
  destruct (response_json r) as [data|]; [|done]. simpl in H.
  destruct (hits_of_reply data) as [hits|]; [|done]. simpl in H.
  destruct (Py.truthy hits).
  { destruct (subscript0 hits); [|done]. by eapply text_and_tags_len. }
  destruct fallback as [fr|]; [|done]. simpl in H.
  destruct (status_code fr =? 200)%nat; [|by injection H as <- _].
  destruct (response_json fr) as [fdata|]; [|done]. simpl in H.
  destruct (hits_of_reply fdata) as [fhits|]; [|done]. simpl in H.
  destruct (Py.iter fhits) as [items|]; [|done]. simpl in H.
  destruct (find_session session_id items) as [[hit|]|]; [| |done]; simpl in H.
  - destruct (Py.truthy hit); [by eapply text_and_tags_len|].
    by injection H as <- _.
  - by injection H as <- _.
Qed.

(** X23. A session that the table does not hold: the handler raises its
    404 inside the [try] whose handler answers every exception, so the
    response is the 500 of that handler. *)
Theorem missing_session_answers_500
    (get_user : string -> outcome (option auth_user))
    (select_session : string -> string -> outcome (list (list (string * json))))
    (first_search fallback_search : string -> string -> option index_response)
    (auth_header : option string) (session_id : string)
    (calls : list call) (user : auth_user) :
  get_user_from_token get_user auth_header = (calls, Done user) ->
  select_session session_id (user_id user) = Done [] ->
  get_session_by_id get_user select_session first_search fallback_search
    auth_header session_id
  = (calls ++ [SelectSession session_id (user_id user)],
     Raised (HTTPException 500 "Failed to fetch session")).
Proof.
  intros Hu Hs. unfold get_session_by_id, and_then, except_other, except_all.
  rewrite Hu. cbn [fst snd]. unfold ask. rewrite Hs. simpl.
  done.
Qed.

Lemma missing_session_answers_500_witness :
  get_session_by_id sample_get_user (fun _ _ => Done [])
    (fun _ _ => None) (fun _ _ => None) (Some "Bearer t0k3n") "s1"
  = ([GetUser "t0k3n"; SelectSession "s1" "u1"],
     Raised (HTTPException 500 "Failed to fetch session")).
Proof.
  apply (missing_session_answers_500 sample_get_user (fun _ _ => Done [])
           (fun _ _ => None) (fun _ _ => None) (Some "Bearer t0k3n") "s1"
           [GetUser "t0k3n"] sample_user);
    reflexivity.
Defined.

(** X24. What the handler answers, whatever the services do: the row of
    the session with a text and tags set, the text one that has a length
    (the text of an entry of the index, or the empty text), and the other
    keys of the row as the table gave them; or a 401 of the check of the
    session; or the 500 of the inner handler.  It answers no 404, and the
    500 of the outer handler is never reached. *)
Theorem get_session_by_id_outcomes
    (get_user : string -> outcome (option auth_user))
    (select_session : string -> string -> outcome (list (list (string * json))))
    (first_search fallback_search : string -> string -> option index_response)
    (auth_header : option string) (session_id : string) :
  match (get_session_by_id get_user select_session first_search
           fallback_search auth_header session_id).2 with
  | Done answer =>
      exists user session rest text tags,
        select_session session_id (user_id user) = Done (session :: rest)
        /\ Py.assoc "text" answer = Some text
        /\ Py.assoc "tags" answer = Some tags
        /\ is_Some (py_len text)
        /\ forall k, k <> "text" -> k <> "tags" ->
             Py.assoc k answer = Py.assoc k session
  | Raised e =>
      e = HTTPException 401 "No valid session"
      \/ e = HTTPException 401 "Invalid session"
      \/ e = HTTPException 500 "Failed to fetch session"
  end.
Proof.
  unfold get_session_by_id, get_user_from_token.
  destruct (session_token_cases auth_header) as [[token ->]| ->];
    [|simpl; auto].
  unfold and_then, except_other, except_all, session_user, and_then, ask.
  simpl.
  destruct (get_user token) as [[user|]|e]; simpl; [|auto..].
  destruct (select_session session_id (user_id user)) as [rows|e] eqn:Hs;
    simpl; [|auto].
  destruct rows as [|session rest]; simpl; [auto|].
  destruct (negb (bool_decide (session = []))); simpl; [|auto].
  exists user, session, rest.
  unfold with_text.
  destruct (index_text _ _ _) as [[text tags]|] eqn:Hi; simpl.
  - exists text, tags. split; [done|]. split; [|split; [|split]].
    + rewrite assoc_set_other by done. apply assoc_set_same.
    + apply assoc_set_same.
    + by eapply index_text_len.
    + intros k ? ?. by rewrite !assoc_set_other by done.
  - exists (JStr ""), (JArr []). split; [done|]. split; [|split; [|split]].
    + rewrite assoc_set_other by done. apply assoc_set_same.
    + apply assoc_set_same.
    + by eexists.
    + intros k ? ?. by rewrite !assoc_set_other by done.
Qed.
